(** * ws_monitor.py: the realtime clipboard monitor, embedded and verified

    A shallow embedding of [src/apiScript/ws_monitor.py].  Python values
    decoded from JSON are an inductive type, a Python [str] is the list of
    its code points, the methods of [RealtimeClipboardMonitor] are
    computations in a small monad that threads the object, the lines
    written by [print], and a raised exception.

    What the program is run on is fixed as follows.  Standard output is
    a text stream with the UTF-8 codec and the strict error handler,
    CPython's default: [print] fails on a line that holds a lone
    surrogate, which [json.loads] lets through.  An exception is raised
    where the program calls or awaits something, and the outcomes of
    the handshake and of the iteration over the connection are given
    from outside, a cancellation or an interrupt included; sending and
    closing are taken as not interrupted. *)

From Stdlib Require Import String Ascii DecimalString.
From Stdlib Require Import List NArith ZArith Bool Lia.
From Stdlib Require Import Floats.PrimFloat Floats.SpecFloat Floats.FloatOps.
Import ListNotations.

Set Implicit Arguments.
Set Warnings "-register-all".
Open Scope N_scope.

(* ================================================================== *)
(** ** Python strings *)

(** A [str] is a sequence of Unicode code points: slicing and [len]
    count code points, not bytes. *)
Definition pystr := list N.

(** The literals of the source are written as they stand there; the
    file is UTF-8, so a literal is decoded from its bytes. *)
Fixpoint utf8_go (bs : list N) (acc : N) (need : nat) : pystr :=
  match bs with
  | [] => []
  | b :: rest =>
      match need with
      | S k =>
          let acc' := acc * 64 + b mod 64 in
          match k with
          | O => acc' :: utf8_go rest 0 O
          | S _ => utf8_go rest acc' k
          end
      | O =>
          if b <? 128 then b :: utf8_go rest 0 O
          else if b <? 224 then utf8_go rest (b mod 32) 1
          else if b <? 240 then utf8_go rest (b mod 16) 2
          else utf8_go rest (b mod 8) 3
      end
  end.

Definition lit (s : string) : pystr :=
  utf8_go (map N_of_ascii (list_ascii_of_string s)) 0 O.

Definition QUOTE : N := 34.
Definition BACKSLASH : N := 92.
Definition NEWLINE : N := 10.
Definition SPACE : N := 32.
Definition LETTER_T : N := 84.

(** A literal that contains double quotes, written with single quotes
    in their place. *)
Definition dq (s : string) : pystr :=
  map (fun c => if c =? 39 then QUOTE else c) (lit s).

Fixpoint pystr_eqb (a b : pystr) : bool :=
  match a, b with
  | [], [] => true
  | x :: a', y :: b' => (x =? y) && pystr_eqb a' b'
  | _, _ => false
  end.

Fixpoint join (sep : pystr) (parts : list pystr) : pystr :=
  match parts with
  | [] => []
  | [p] => p
  | p :: rest => p ++ sep ++ join sep rest
  end.

(** [s[:n]] for [n >= 0]. *)
Definition str_slice (s : pystr) (n : nat) : pystr := firstn n s.

(** [s.replace(old, new)] where [old] and [new] are one character each. *)
Definition str_replace (s : pystr) (old new : N) : pystr :=
  map (fun c => if c =? old then new else c) s.

(** [s * n]. *)
Definition str_mul (s : pystr) (n : nat) : pystr := concat (repeat s n).

(** [str(i)] for an [int]. *)
Fixpoint uint_chars (d : Decimal.uint) : pystr :=
  match d with
  | Decimal.Nil => []
  | Decimal.D0 d => 48 :: uint_chars d
  | Decimal.D1 d => 49 :: uint_chars d
  | Decimal.D2 d => 50 :: uint_chars d
  | Decimal.D3 d => 51 :: uint_chars d
  | Decimal.D4 d => 52 :: uint_chars d
  | Decimal.D5 d => 53 :: uint_chars d
  | Decimal.D6 d => 54 :: uint_chars d
  | Decimal.D7 d => 55 :: uint_chars d
  | Decimal.D8 d => 56 :: uint_chars d
  | Decimal.D9 d => 57 :: uint_chars d
  end.

Definition int_str (z : Z) : pystr :=
  match Z.to_int z with
  | Decimal.Pos d => uint_chars d
  | Decimal.Neg d => 45 :: uint_chars d
  end.

Definition is_ascii (c : N) : bool := c <? 128.

(** The code points above ASCII, in order. *)
Definition non_ascii (s : pystr) : pystr := filter (fun c => negb (is_ascii c)) s.

(* ------------------------------------------------------------------ *)
(** *** What can be encoded *)

(** A [str] may hold lone surrogates, the code points U+D800 to U+DFFF:
    [json.loads] decodes the escape [\ud800] to one, and a command-line
    argument that is not UTF-8 is read with them.  The UTF-8 codec
    refuses them, and encodes everything else. *)
Definition is_surrogate (c : N) : bool := (55296 <=? c) && (c <=? 57343).

Definition encodable (s : pystr) : bool := forallb (fun c => negb (is_surrogate c)) s.

(** Text known to hold no lone surrogate: what the interpreter and the
    libraries build from literals, numbers and decoded UTF-8, such as
    the [str()] of an exception, the reason of a close, or a formatted
    time. *)
Record text : Type := mk_text {
  chars : pystr;
  chars_encodable : encodable chars = true
}.

(** A message written out as a Rocq string, one code point per
    character of the string. *)
Definition code_points (s : string) : pystr := map N_of_ascii (list_ascii_of_string s).

Lemma code_points_encodable (s : string) : encodable (code_points s) = true.
Proof.
  unfold code_points, encodable. apply forallb_forall. intros c Hc.
  apply in_map_iff in Hc as [a [<- _]].
  destruct a as [[|] [|] [|] [|] [|] [|] [|] [|]]; reflexivity.
Qed.

Definition plain (s : string) : text := mk_text (code_points s) (code_points_encodable s).

(** [str(n)] for a position or a bound, and the four hexadecimal digits
    of an escape, as Rocq strings. *)
Definition decimal (n : nat) : string := NilEmpty.string_of_uint (Nat.to_uint n).

Definition hex_char (n : N) : ascii := ascii_of_N (if n <? 10 then 48 + n else 87 + n).

Definition hex4 (c : N) : string :=
  String (hex_char (c / 4096 mod 16))
    (String (hex_char (c / 256 mod 16))
       (String (hex_char (c / 16 mod 16))
          (String (hex_char (c mod 16)) EmptyString))).

(** Where encoding stops: the position of the first lone surrogate, the
    surrogate, and how many more follow it directly. *)
Fixpoint leading_surrogates (s : pystr) : nat :=
  match s with
  | c :: rest => if is_surrogate c then S (leading_surrogates rest) else O
  | [] => O
  end.

Fixpoint first_surrogate (s : pystr) (at_ : nat) : option (nat * N * nat) :=
  match s with
  | [] => None
  | c :: rest =>
      if is_surrogate c then Some (at_, c, leading_surrogates rest)
      else first_surrogate rest (S at_)
  end.

(** The [str()] of the [UnicodeEncodeError] that encoding [s] raises. *)
Definition encode_error_text (s : pystr) : text :=
  match first_surrogate s O with
  | Some (p, c, O) =>
      plain ("'utf-8' codec can't encode character '\u" ++ hex4 c ++ "' in position "
             ++ decimal p ++ ": surrogates not allowed")%string
  | Some (p, _, S k) =>
      plain ("'utf-8' codec can't encode characters in position " ++ decimal p ++ "-"
             ++ decimal (p + S k) ++ ": surrogates not allowed")%string
  | None => plain EmptyString
  end.

(* ================================================================== *)
(** ** Python values *)

(** What [json.loads] can return: [None], [bool], [int], [float], [str],
    [list], and [dict] with [str] keys.  A [dict] keeps insertion order,
    which [str()] and [json.dumps] show; lookup takes the first binding
    of a key ([json.loads] never leaves two).  An [int] it returns is
    within the interpreter's limit on digits, so [str()] of it does not
    fail. *)
Inductive pyval : Type :=
| PNone
| PBool (b : bool)
| PInt (z : Z)
| PFloat (f : float)
| PStr (s : pystr)
| PList (l : list pyval)
| PDict (d : list (pystr * pyval)).

Fixpoint dict_get (d : list (pystr * pyval)) (k : pystr) : option pyval :=
  match d with
  | [] => None
  | (k', v) :: rest => if pystr_eqb k' k then Some v else dict_get rest k
  end.

(** [bool(v)]. *)
Definition truthy (v : pyval) : bool :=
  match v with
  | PNone => false
  | PBool b => b
  | PInt z => negb (z =? 0)%Z
  | PFloat f => negb (PrimFloat.eqb f 0%float)
  | PStr s => negb (Nat.eqb (length s) 0)
  | PList l => negb (Nat.eqb (length l) 0)
  | PDict d => negb (Nat.eqb (length d) 0)
  end.

(** [v == 'literal']: only a [str] equals a [str]. *)
Definition py_eq_str (v : pyval) (s : pystr) : bool :=
  match v with
  | PStr s' => pystr_eqb s' s
  | _ => false
  end.

(** [type(v).__name__]. *)
Definition type_name (v : pyval) : string :=
  match v with
  | PNone => "NoneType"
  | PBool _ => "bool"
  | PInt _ => "int"
  | PFloat _ => "float"
  | PStr _ => "str"
  | PList _ => "list"
  | PDict _ => "dict"
  end.

(* ================================================================== *)
(** ** Exceptions *)

(** The classes the program tells apart in its [except] clauses, the
    ones the built-ins it calls raise, and the ones that do not derive
    from [Exception] and so pass [except Exception]: a cancelled task
    (since Python 3.8), an interrupt, an exit.  [ConnectionClosed]
    stands for the library's class and its two subclasses,
    [OtherException] for any other class under [Exception]. *)
Inductive exn_class : Type :=
| JSONDecodeError
| ValueError
| RecursionError
| UnicodeDecodeError
| UnicodeEncodeError
| ConnectionClosed
| TypeError
| AttributeError
| KeyError
| OtherException
| CancelledError
| KeyboardInterrupt
| SystemExit
| GeneratorExit.

Definition exn_class_eqb (a b : exn_class) : bool :=
  match a, b with
  | JSONDecodeError, JSONDecodeError
  | ValueError, ValueError
  | RecursionError, RecursionError
  | UnicodeDecodeError, UnicodeDecodeError
  | UnicodeEncodeError, UnicodeEncodeError
  | ConnectionClosed, ConnectionClosed
  | TypeError, TypeError
  | AttributeError, AttributeError
  | KeyError, KeyError
  | OtherException, OtherException
  | CancelledError, CancelledError
  | KeyboardInterrupt, KeyboardInterrupt
  | SystemExit, SystemExit
  | GeneratorExit, GeneratorExit => true
  | _, _ => false
  end.

(** [issubclass(c, Exception)]. *)
Definition derives_from_Exception (c : exn_class) : bool :=
  match c with
  | CancelledError | KeyboardInterrupt | SystemExit | GeneratorExit => false
  | _ => true
  end.

(** An exception: its class and [str(e)]. *)
Record exn : Type := mk_exn { exn_cls : exn_class; exn_msg : text }.

(** [except C] for the two classes the program names, which are matched
    with their subclasses, and [except Exception]. *)
Definition is_a (c : exn_class) (e : exn) : bool := exn_class_eqb (exn_cls e) c.
Definition is_Exception (e : exn) : bool := derives_from_Exception (exn_cls e).

Definition unicode_encode_error (s : pystr) : exn :=
  mk_exn UnicodeEncodeError (encode_error_text s).

Inductive result (A : Type) : Type :=
| Ok (a : A)
| Raise (e : exn).
Arguments Ok {A} a.
Arguments Raise {A} e.

(* ================================================================== *)
(** ** The websocket connection and the monitor object *)

(** A connection of the [websockets] library, as far as the program
    uses it: the text frames written to it, and whether it is closed;
    a closed connection carries the text of the [ConnectionClosed] that
    writing to it raises. *)
Record connection : Type := mk_connection {
  conn_closed : option text;
  conn_sent : list pystr
}.

(** The reason a connection carries after the library aborted it. *)
Definition ABORTED : text := plain "no close frame received or sent".

(** [await ws.send(text)], with the outcome and the connection after
    it.  A closed connection raises [ConnectionClosed].  A text frame
    goes out UTF-8 encoded, and a text that cannot be encoded is never
    written; what the caller sees then goes by the library: up to
    version 12 the [UnicodeEncodeError] itself, the connection staying
    open, and since version 13 [ConnectionClosed], the library having
    aborted the connection on the error ([aborts]). *)
Definition ws_send (aborts : bool) (c : connection) (message : pystr)
  : result unit * connection :=
  match conn_closed c with
  | Some why => (Raise (mk_exn ConnectionClosed why), c)
  | None =>
      if encodable message then (Ok tt, mk_connection None (conn_sent c ++ [message]))
      else if aborts then
        (Raise (mk_exn ConnectionClosed ABORTED), mk_connection (Some ABORTED) (conn_sent c))
      else (Raise (unicode_encode_error message), c)
  end.

(** The connection goes to the closed state, for the reason given; one
    closed already stays as it is. *)
Definition close_with (why : text) (c : connection) : connection :=
  match conn_closed c with
  | Some _ => c
  | None => mk_connection (Some why) (conn_sent c)
  end.

Definition NORMAL_CLOSURE : text := plain "sent 1000 (OK); then received 1000 (OK)".

(** [await ws.close()]: does nothing once the connection is closed. *)
Definition ws_close (c : connection) : connection := close_with NORMAL_CLOSURE c.

Record RealtimeClipboardMonitor : Type := mk_monitor {
  base_url : pystr;
  device_id : pystr;
  url : pystr;
  websocket : option connection;
  running : bool
}.

(** [__init__]. *)
Definition init (url device_id : pystr) : RealtimeClipboardMonitor :=
  mk_monitor url device_id (url ++ lit "?deviceId=" ++ device_id) None false.

Definition DEFAULT_URL : pystr := lit "ws://localhost:3002/ws".
Definition DEFAULT_DEVICE_ID : pystr := lit "monitor-python".

Definition set_running (b : bool) (m : RealtimeClipboardMonitor) : RealtimeClipboardMonitor :=
  mk_monitor (base_url m) (device_id m) (url m) (websocket m) b.

Definition set_websocket (c : option connection) (m : RealtimeClipboardMonitor)
  : RealtimeClipboardMonitor :=
  mk_monitor (base_url m) (device_id m) (url m) c (running m).

(* ================================================================== *)
(** ** The monad of method bodies *)

(** What a method can touch: the monitor object and standard output,
    one entry per [print] call that went through. *)
Record world : Type := mk_world {
  self : RealtimeClipboardMonitor;
  stdout : list pystr
}.

(** A computation ends with a value or a raised exception; either way
    the effects it had up to then stay. *)
Definition Py (A : Type) : Type := world -> result A * world.

Definition ret {A} (a : A) : Py A := fun w => (Ok a, w).

Definition bind {A B} (c : Py A) (k : A -> Py B) : Py B :=
  fun w =>
    match c w with
    | (Ok a, w') => k a w'
    | (Raise e, w') => (Raise e, w')
    end.

Definition raise {A} (e : exn) : Py A := fun w => (Raise e, w).

Declare Scope py_scope.
Delimit Scope py_scope with py.
Notation "x <- c1 ;; c2" := (bind c1 (fun x => c2))
  (at level 61, c1 at next level, right associativity) : py_scope.
Notation "c1 ;; c2" := (bind c1 (fun _ => c2))
  (at level 61, right associativity) : py_scope.
Open Scope py_scope.

(** [print(line)]: the line is encoded before any of it is written, so
    a line that cannot be encoded raises and leaves nothing on the
    output. *)
Definition print (line : pystr) : Py unit :=
  fun w =>
    if encodable line then (Ok tt, mk_world (self w) (stdout w ++ [line]))
    else (Raise (unicode_encode_error line), w).

Definition get_self : Py RealtimeClipboardMonitor := fun w => (Ok (self w), w).

Definition lift {A} (r : result A) : Py A := fun w => (r, w).

(** [try: body / except C1 as e: h1 / except C2 as e: h2 ...]: the first
    clause whose class the exception belongs to handles it; an exception
    raised by a handler is not offered to the later clauses. *)
Fixpoint find_handler {A} (clauses : list ((exn -> bool) * (exn -> Py A))) (e : exn)
  : option (exn -> Py A) :=
  match clauses with
  | [] => None
  | (belongs, h) :: rest => if belongs e then Some h else find_handler rest e
  end.

Definition try_except {A} (body : Py A) (clauses : list ((exn -> bool) * (exn -> Py A)))
  : Py A :=
  fun w =>
    match body w with
    | (Ok a, w') => (Ok a, w')
    | (Raise e, w') =>
        match find_handler clauses e with
        | Some h => h e w'
        | None => (Raise e, w')
        end
    end.

Fixpoint for_each {A} (l : list A) (body : A -> Py unit) : Py unit :=
  match l with
  | [] => ret tt
  | x :: rest => body x ;; for_each rest body
  end.

(** [enumerate(l)]. *)
Definition enumerate {A} (l : list A) : list (nat * A) := combine (seq 0 (length l)) l.

(** The lines a computation adds to a world's output. *)
Definition emit (lines : list pystr) (w : world) : world :=
  mk_world (self w) (stdout w ++ lines).

(* ================================================================== *)
(** ** The built-ins the program calls *)

(** What arrives in one frame: a [str] for a text frame, [bytes] for a
    binary one. *)
Inductive payload : Type :=
| Str (s : pystr)
| Bytes (b : list N).

(** Three library functions are taken as given rather than written out:
    [repr] of a [float] (its shortest round-tripping decimal form, always
    ASCII), [repr] of a [str] (quoting and escaping; a lone surrogate is
    not printable and comes out escaped), and the decoder behind
    [json.loads], which returns a value or raises: [JSONDecodeError] on
    text that is not JSON, and also [RecursionError] on deep nesting,
    [ValueError] on an integer past the digit limit, [UnicodeDecodeError]
    on bytes that are not UTF-8; whatever it raises is under [Exception]
    and is not the library's [ConnectionClosed].  The versions show in
    two places: a slice can be hashed since Python 3.12, and the
    [websockets] library aborts the connection on an error inside
    [send] since its version 13. *)
Class Builtins : Type := {
  float_repr : float -> pystr;
  float_repr_ascii : forall f, non_ascii (float_repr f) = [];
  str_repr : pystr -> pystr;
  str_repr_encodable : forall s, encodable (str_repr s) = true;
  json_decode : payload -> exn + pyval;
  json_decode_raises :
    forall p e, json_decode p = inl e ->
                is_Exception e = true /\ is_a ConnectionClosed e = false;
  slices_hashable : bool;
  send_aborts : bool
}.

Section Program.

Context {builtins : Builtins}.

(** [repr(v)]. *)
Fixpoint py_repr (v : pyval) : pystr :=
  match v with
  | PNone => lit "None"
  | PBool true => lit "True"
  | PBool false => lit "False"
  | PInt z => int_str z
  | PFloat f => float_repr f
  | PStr s => str_repr s
  | PList l => lit "[" ++ join (lit ", ") (map py_repr l) ++ lit "]"
  | PDict d =>
      lit "{"
      ++ join (lit ", ") (map (fun '(k, x) => str_repr k ++ lit ": " ++ py_repr x) d)
      ++ lit "}"
  end.

(** [str(v)], which is what an f-string field shows. *)
Definition py_str (v : pyval) : pystr :=
  match v with
  | PStr s => s
  | _ => py_repr v
  end.

Definition attribute_error (v : pyval) (name : string) : exn :=
  mk_exn AttributeError
    (plain ("'" ++ type_name v ++ "' object has no attribute '" ++ name ++ "'")%string).

Definition not_subscriptable (v : pyval) : exn :=
  mk_exn TypeError (plain ("'" ++ type_name v ++ "' object is not subscriptable")%string).

Definition no_len (v : pyval) : exn :=
  mk_exn TypeError (plain ("object of type '" ++ type_name v ++ "' has no len()")%string).

Definition not_iterable (v : pyval) : exn :=
  mk_exn TypeError (plain ("'" ++ type_name v ++ "' object is not iterable")%string).

(** A [dict] takes [d[:n]] for the lookup of the key [slice(None, n,
    None)]: the key cannot be hashed up to Python 3.11, and is not
    found since. *)
Definition slice_as_key (n : nat) : exn :=
  if slices_hashable then
    mk_exn KeyError (plain ("slice(None, " ++ decimal n ++ ", None)")%string)
  else mk_exn TypeError (plain "unhashable type: 'slice'").

(** [o.get(key, default)]. *)
Definition py_get (o : pyval) (key : pystr) (default : pyval) : Py pyval :=
  match o with
  | PDict d =>
      ret (match dict_get d key with Some v => v | None => default end)
  | _ => raise (attribute_error o "get")
  end.

(** [len(v)]. *)
Definition py_len (v : pyval) : Py Z :=
  match v with
  | PStr s => ret (Z.of_nat (length s))
  | PList l => ret (Z.of_nat (length l))
  | PDict d => ret (Z.of_nat (length d))
  | _ => raise (no_len v)
  end.

(** [v[:n]]. *)
Definition py_slice (v : pyval) (n : nat) : Py pyval :=
  match v with
  | PStr s => ret (PStr (str_slice s n))
  | PList l => ret (PList (firstn n l))
  | PDict _ => raise (slice_as_key n)
  | _ => raise (not_subscriptable v)
  end.

(** [v.replace(old, new)]. *)
Definition py_replace (v : pyval) (old new : N) : Py pyval :=
  match v with
  | PStr s => ret (PStr (str_replace s old new))
  | _ => raise (attribute_error v "replace")
  end.

(** The elements a [for] loop over [v] visits. *)
Definition py_iter (v : pyval) : Py (list pyval) :=
  match v with
  | PStr s => ret (map (fun c => PStr [c]) s)
  | PList l => ret l
  | PDict d => ret (map (fun kv => PStr (fst kv)) d)
  | _ => raise (not_iterable v)
  end.

(* ------------------------------------------------------------------ *)
(** *** [json.dumps] *)

Definition hex_digit (n : N) : N := if n <? 10 then 48 + n else 87 + n.

(** ['\\u{0:04x}'.format(n)]. *)
Definition u_escape (n : N) : pystr :=
  [BACKSLASH; 117;
   hex_digit (n / 4096 mod 16); hex_digit (n / 256 mod 16);
   hex_digit (n / 16 mod 16); hex_digit (n mod 16)].

(** The encoder's table: backslash, the quote and the control
    characters. *)
Definition escape_table (c : N) : option pystr :=
  if c =? BACKSLASH then Some [BACKSLASH; BACKSLASH]
  else if c =? QUOTE then Some [BACKSLASH; QUOTE]
  else if c =? 8 then Some [BACKSLASH; 98]
  else if c =? 12 then Some [BACKSLASH; 102]
  else if c =? 10 then Some [BACKSLASH; 110]
  else if c =? 13 then Some [BACKSLASH; 114]
  else if c =? 9 then Some [BACKSLASH; 116]
  else if c <? 32 then Some (u_escape c)
  else None.

(** One character of a string: with [ensure_ascii] everything outside
    space..tilde is escaped, a character beyond the basic plane as a
    surrogate pair; without it only what the table lists. *)
Definition escape_char (ensure_ascii : bool) (c : N) : pystr :=
  match escape_table c with
  | Some e => e
  | None =>
      if ensure_ascii && negb (c <? 127) then
        if c <? 65536 then u_escape c
        else
          let n := c - 65536 in
          u_escape (N.lor 55296 (N.land (N.shiftr n 10) 1023))
          ++ u_escape (N.lor 56320 (N.land n 1023))
      else [c]
  end.

Definition encode_string (ensure_ascii : bool) (s : pystr) : pystr :=
  [QUOTE] ++ flat_map (escape_char ensure_ascii) s ++ [QUOTE].

Definition float_json (f : float) : pystr :=
  if PrimFloat.is_nan f then lit "NaN"
  else if PrimFloat.eqb f PrimFloat.infinity then lit "Infinity"
  else if PrimFloat.eqb f PrimFloat.neg_infinity then lit "-Infinity"
  else float_repr f.

(** [json.dumps(v, ensure_ascii=...)] with the default separators. *)
Fixpoint json_dumps (ensure_ascii : bool) (v : pyval) : pystr :=
  match v with
  | PNone => lit "null"
  | PBool true => lit "true"
  | PBool false => lit "false"
  | PInt z => int_str z
  | PFloat f => float_json f
  | PStr s => encode_string ensure_ascii s
  | PList l => lit "[" ++ join (lit ", ") (map (json_dumps ensure_ascii) l) ++ lit "]"
  | PDict d =>
      lit "{"
      ++ join (lit ", ")
           (map (fun '(k, x) =>
                   encode_string ensure_ascii k ++ lit ": " ++ json_dumps ensure_ascii x) d)
      ++ lit "}"
  end.

(** [json.loads(message)]. *)
Definition json_loads (message : payload) : Py pyval :=
  match json_decode message with
  | inr v => ret v
  | inl e => raise e
  end.

End Program.

(* ================================================================== *)
(** ** RealtimeClipboardMonitor *)

(** The connection a successful handshake returns. *)
Definition fresh_connection : connection := mk_connection None [].

(** What iterating the connection delivers: the messages (each a [str]
    or [bytes]), each with the clock reading [time.strftime('%H:%M:%S')]
    gives when it is handled, and then how the iteration stops.  The
    iterator is exhausted when the connection was closed in order, with
    a reason that a later write reports; or the iteration raises:
    [ConnectionClosed] when the connection was lost, anything else
    otherwise, a cancellation of the listening task included. *)
Record frame : Type := mk_frame { frame_data : payload; frame_time : text }.

Inductive stream_end : Type :=
| EndOfStream (why : text)
| StreamRaises (e : exn).

Section Monitor.

Context {builtins : Builtins}.

Definition assign_running (b : bool) : Py unit :=
  fun w => (Ok tt, mk_world (set_running b (self w)) (stdout w)).

Definition assign_websocket (c : connection) : Py unit :=
  fun w => (Ok tt, mk_world (set_websocket (Some c) (self w)) (stdout w)).

(** [await self.websocket.send(text)]. *)
Definition websocket_send (message : pystr) : Py unit :=
  m <- get_self ;;
  match websocket m with
  | Some c =>
      let (outcome, c') := ws_send send_aborts c message in
      assign_websocket c' ;; lift outcome
  | None => raise (attribute_error PNone "send")
  end.

(** [await self.websocket.close()]. *)
Definition websocket_close : Py unit :=
  m <- get_self ;;
  match websocket m with
  | Some c => assign_websocket (ws_close c)
  | None => raise (attribute_error PNone "close")
  end.

(** The library marks the connection object closed when the peer
    closes or the transport fails; the monitor holds that object. *)
Definition connection_lost (why : text) : Py unit :=
  m <- get_self ;;
  match websocket m with
  | Some c => assign_websocket (close_with why c)
  | None => ret tt
  end.

(** [handshake] is how [websockets.connect(self.url)] turned out: a
    connection, or the exception it raised. *)
Definition connect (handshake : result connection) : Py bool :=
  try_except
    (m <- get_self ;;
     print (lit "🔗 正在连接到: " ++ url m) ;;
     c <- lift handshake ;;
     assign_websocket c ;;
     assign_running true ;;
     print (lit "✅ WebSocket 连接成功建立") ;;
     print (lit "📡 开始实时监听剪切板变化...") ;;
     print (str_mul (lit "=") 60) ;;
     ret true)
    [(is_Exception, fun e => print (lit "❌ 连接失败: " ++ chars (exn_msg e)) ;; ret false)].

Definition disconnect : Py unit :=
  m <- get_self ;;
  match websocket m with
  | Some _ =>
      assign_running false ;;
      websocket_close ;;
      print (lit "🔌 WebSocket 连接已断开")
  | None => ret tt
  end.

Definition send_message (message : pyval) : Py unit :=
  m <- get_self ;;
  match websocket m with
  | None => ret tt
  | Some _ =>
      try_except
        (let message_str := json_dumps false message in
         websocket_send message_str ;;
         print (lit "📤 发送: " ++ message_str))
        [(is_Exception, fun e => print (lit "❌ 发送失败: " ++ chars (exn_msg e)))]
  end.

(** The body of the [for] loop over [enumerate(items[:3])]. *)
Definition print_item (i : nat) (item : pyval) : Py unit :=
  created <- py_get item (lit "createdAt") (PStr []) ;;
  created <- py_slice created 19 ;;
  created_time <- py_replace created LETTER_T SPACE ;;
  content <- py_get item (lit "content") (PStr []) ;;
  content <- py_slice content 80 ;;
  content_preview <- py_replace content NEWLINE SPACE ;;
  item_type <- py_get item (lit "type") PNone ;;
  print (lit "  " ++ int_str (Z.of_nat (i + 1)) ++ lit ". [" ++ py_str created_time
         ++ lit "] " ++ py_str item_type ++ lit ": " ++ py_str content_preview
         ++ lit "...").

(** The last branch of a [sync] message: the payload is a clipboard
    item. *)
Definition print_new_item (timestamp : text) (item : pyval) : Py unit :=
  item_type <- py_get item (lit "type") PNone ;;
  if truthy item_type then
    content <- py_get item (lit "content") (PStr []) ;;
    content <- py_slice content 100 ;;
    content_preview <- py_replace content NEWLINE SPACE ;;
    item_type <- py_get item (lit "type") PNone ;;
    print (lit "[" ++ chars timestamp ++ lit "] 🆕 新内容: " ++ py_str item_type ++ lit " - "
           ++ py_str content_preview ++ lit "...")
  else ret tt.

(** [timestamp] is what [time.strftime('%H:%M:%S')] returns at the
    call.  [isinstance(data.get('data'), dict)] is the match on the
    payload, and [k in d] followed by [d[k]] the match on the lookup. *)
Definition handle_message (timestamp : text) (data : pyval) : Py unit :=
  message_type <- py_get data (lit "type") (PStr (lit "unknown")) ;;
  if py_eq_str message_type (lit "sync") then
    payload <- py_get data (lit "data") PNone ;;
    match payload with
    | PDict d =>
        match dict_get d (lit "error") with
        | Some err =>
            print (lit "[" ++ chars timestamp ++ lit "] ❌ 错误: " ++ py_str err)
        | None =>
            match dict_get d (lit "message") with
            | Some msg =>
                print (lit "[" ++ chars timestamp ++ lit "] ✅ " ++ py_str msg)
            | None => print_new_item timestamp payload
            end
        end
    | _ => ret tt
    end
  else if py_eq_str message_type (lit "delete") then
    item_id <- py_get data (lit "id") (PStr (lit "unknown")) ;;
    print (lit "[" ++ chars timestamp ++ lit "] 🗑️ 内容已删除: " ++ py_str item_id)
  else if py_eq_str message_type (lit "all_content") then
    items <- py_get data (lit "data") (PList []) ;;
    n <- py_len items ;;
    count <- py_get data (lit "count") (PInt n) ;;
    print (lit "[" ++ chars timestamp ++ lit "] 📋 当前内容总数: " ++ py_str count
           ++ lit " 条") ;;
    if truthy items then
      print (lit "最新的3条内容:") ;;
      first3 <- py_slice items 3 ;;
      elements <- py_iter first3 ;;
      for_each (enumerate elements) (fun '(i, item) => print_item i item)
    else ret tt
  else if py_eq_str message_type (lit "connection_stats") then
    stats <- py_get data (lit "data") (PDict []) ;;
    active <- py_get stats (lit "activeConnections") (PInt 0) ;;
    print (lit "[" ++ chars timestamp ++ lit "] 📊 连接统计: " ++ py_str active
           ++ lit " 个活跃连接")
  else
    print (lit "[" ++ chars timestamp ++ lit "] 📨 收到消息: " ++ py_str message_type).

(** The body of the [async for]: the inner [try] around one message. *)
Definition handle_frame (fr : frame) : Py unit :=
  try_except
    (data <- json_loads (frame_data fr) ;;
     handle_message (frame_time fr) data)
    [(is_a JSONDecodeError,
      fun e => print (lit "❌ 解析消息失败: " ++ chars (exn_msg e)))].

(** [async for message in self.websocket: ...]. *)
Fixpoint listen_loop (frames : list frame) (ending : stream_end) : Py unit :=
  match frames with
  | [] =>
      match ending with
      | EndOfStream why => connection_lost why
      | StreamRaises e =>
          (if is_a ConnectionClosed e then connection_lost (exn_msg e) else ret tt) ;;
          raise e
      end
  | fr :: rest => handle_frame fr ;; listen_loop rest ending
  end.

(** The two [except] clauses of the outer [try] of [listen_messages]. *)
Definition listen_clauses : list ((exn -> bool) * (exn -> Py unit)) :=
  [(is_a ConnectionClosed,
    fun _ => print (lit "🔌 连接已关闭") ;; assign_running false);
   (is_Exception,
    fun e => print (lit "❌ 监听出错: " ++ chars (exn_msg e)) ;; assign_running false)].

Definition listen_messages (frames : list frame) (ending : stream_end) : Py unit :=
  m <- get_self ;;
  match websocket m with
  | None => ret tt
  | Some _ => try_except (listen_loop frames ending) listen_clauses
  end.

Definition request_current_content : Py unit :=
  send_message
    (PDict [(lit "type", PStr (lit "get_all_content"));
            (lit "data", PDict [(lit "limit", PInt 10)])]).

End Monitor.

(** Running a method from a world: the result and the lines added. *)
Definition output_of {A} (c : Py A) (w : world) : list pystr :=
  skipn (length (stdout w)) (stdout (snd (c w))).

(* ================================================================== *)
(** ** Vocabulary of the statements *)

(** [needle in s] for two strings. *)
Fixpoint is_prefix (p s : pystr) : bool :=
  match p, s with
  | [], _ => true
  | x :: p', y :: s' => (x =? y) && is_prefix p' s'
  | _ :: _, [] => false
  end.

Fixpoint contains (s needle : pystr) : bool :=
  is_prefix needle s
  || match s with
     | [] => false
     | _ :: s' => contains s' needle
     end.

(** The string a field holds: empty when the key is absent, none when
    the field holds something that is not a string. *)
Definition field_str (f : list (pystr * pyval)) (k : pystr) : option pystr :=
  match dict_get f k with
  | None => Some []
  | Some (PStr s) => Some s
  | Some _ => None
  end.

Definition field_or (f : list (pystr * pyval)) (k : pystr) (default : pyval) : pyval :=
  match dict_get f k with
  | Some v => v
  | None => default
  end.

(** An item of an [all_content] listing the handler can render: an
    object whose [createdAt] and [content], where present, are strings. *)
Definition item_ok (item : pyval) : bool :=
  match item with
  | PDict f =>
      match field_str f (lit "createdAt"), field_str f (lit "content") with
      | Some _, Some _ => true
      | _, _ => false
      end
  | _ => false
  end.

(** A message whose fields, where present, have the JSON types the
    handler reads them at. *)
Definition fields_well_typed (d : list (pystr * pyval)) : bool :=
  match dict_get d (lit "type") with
  | Some (PStr t) =>
      if pystr_eqb t (lit "sync") then
        match dict_get d (lit "data") with
        | Some (PDict p) =>
            match field_str p (lit "content") with
            | Some _ => true
            | None => false
            end
        | _ => true
        end
      else if pystr_eqb t (lit "all_content") then
        match dict_get d (lit "data") with
        | None => true
        | Some (PList items) => forallb item_ok items
        | Some _ => false
        end
      else if pystr_eqb t (lit "connection_stats") then
        match dict_get d (lit "data") with
        | None | Some (PDict _) => true
        | Some _ => false
        end
      else true
  | _ => true
  end.

(** The [sync] messages the handler stays silent on: the payload is not
    an object, or it is an item (no [error], no [message]) whose [type]
    is absent or falsy. *)
Definition silent_sync (d : list (pystr * pyval)) : bool :=
  match dict_get d (lit "type") with
  | Some (PStr t) =>
      pystr_eqb t (lit "sync")
      && match dict_get d (lit "data") with
         | Some (PDict p) =>
             match dict_get p (lit "error"), dict_get p (lit "message") with
             | None, None => negb (truthy (field_or p (lit "type") PNone))
             | _, _ => false
             end
         | _ => true
         end
  | _ => false
  end.

(** Every string of a value, keys included, in the order [json.dumps]
    writes them. *)
Fixpoint strings_of (v : pyval) : pystr :=
  match v with
  | PStr s => s
  | PList l => flat_map strings_of l
  | PDict d => flat_map (fun '(k, x) => k ++ strings_of x) d
  | _ => []
  end.

(** What writing [lines] to standard output one after the other comes
    to: all of them are written, or those before the first that cannot
    be encoded, and then the error is raised. *)
Fixpoint write_lines (lines : list pystr) (w : world) : result unit * world :=
  match lines with
  | [] => (Ok tt, w)
  | line :: rest =>
      if encodable line then write_lines rest (emit [line] w)
      else (Raise (unicode_encode_error line), w)
  end.

Section Lines.

Context {builtins : Builtins}.

(** The preview line of the [i]-th listed item, as the spec words it
    with the two replacements the code applies. *)
Definition item_line (i : nat) (item : pyval) : pystr :=
  match item with
  | PDict f =>
      match field_str f (lit "createdAt"), field_str f (lit "content") with
      | Some created, Some content =>
          lit "  " ++ int_str (Z.of_nat (i + 1)) ++ lit ". ["
          ++ str_replace (str_slice created 19) LETTER_T SPACE
          ++ lit "] " ++ py_str (field_or f (lit "type") PNone) ++ lit ": "
          ++ str_replace (str_slice content 80) NEWLINE SPACE ++ lit "..."
      | _, _ => []
      end
  | _ => []
  end.

Definition item_lines (items : list pyval) : list pystr :=
  map (fun '(i, item) => item_line i item) (enumerate (firstn 3 items)).

(** The preview line of a new clipboard item. *)
Definition preview_line (ts : text) (ty : pyval) (content : pystr) : pystr :=
  lit "[" ++ chars ts ++ lit "] 🆕 新内容: " ++ py_str ty ++ lit " - "
  ++ str_replace (str_slice content 100) NEWLINE SPACE ++ lit "...".

(** What the item branch of [sync] raises on a [content] that is no
    string: an array can be sliced but has no [replace], an object
    takes the slice for a key, nothing else can be subscripted. *)
Definition content_error (v : pyval) : exn :=
  match v with
  | PList _ => attribute_error v "replace"
  | PDict _ => slice_as_key 100
  | _ => not_subscriptable v
  end.

(** The lines the handler is to print for a message, as the amended
    claims word them: each branch with the default that stands in for
    an absent field.  Where a field has a type the branch cannot read,
    no line is listed. *)
Definition rendering (ts : text) (d : list (pystr * pyval)) : list pystr :=
  let message_type := field_or d (lit "type") (PStr (lit "unknown")) in
  if py_eq_str message_type (lit "sync") then
    match dict_get d (lit "data") with
    | Some (PDict p) =>
        match dict_get p (lit "error"), dict_get p (lit "message") with
        | Some err, _ => [lit "[" ++ chars ts ++ lit "] ❌ 错误: " ++ py_str err]
        | None, Some msg => [lit "[" ++ chars ts ++ lit "] ✅ " ++ py_str msg]
        | None, None =>
            if truthy (field_or p (lit "type") PNone) then
              match field_or p (lit "content") (PStr []) with
              | PStr content => [preview_line ts (field_or p (lit "type") PNone) content]
              | _ => []
              end
            else []
        end
    | _ => []
    end
  else if py_eq_str message_type (lit "delete") then
    [lit "[" ++ chars ts ++ lit "] 🗑️ 内容已删除: "
     ++ py_str (field_or d (lit "id") (PStr (lit "unknown")))]
  else if py_eq_str message_type (lit "all_content") then
    match field_or d (lit "data") (PList []) with
    | PList items =>
        (lit "[" ++ chars ts ++ lit "] 📋 当前内容总数: "
         ++ py_str (field_or d (lit "count") (PInt (Z.of_nat (length items))))
         ++ lit " 条")
        :: match items with
           | [] => []
           | _ :: _ => lit "最新的3条内容:" :: item_lines items
           end
    | _ => []
    end
  else if py_eq_str message_type (lit "connection_stats") then
    match field_or d (lit "data") (PDict []) with
    | PDict f =>
        [lit "[" ++ chars ts ++ lit "] 📊 连接统计: "
         ++ py_str (field_or f (lit "activeConnections") (PInt 0)) ++ lit " 个活跃连接"]
    | _ => []
    end
  else [lit "[" ++ chars ts ++ lit "] 📨 收到消息: " ++ py_str message_type].

(** Computations of the handler: they only print, and raise nothing
    but what [P] allows. *)
Definition prints_only {A} (P : exn -> Prop) (c : Py A) : Prop :=
  forall w, exists out,
    snd (c w) = emit out w /\ forall e, fst (c w) = Raise e -> P e.

(** What the handler raises: the errors of reading a field at the wrong
    type, and the error of a line that cannot be encoded. *)
Definition handler_error (e : exn) : Prop :=
  exn_cls e = TypeError \/ exn_cls e = AttributeError \/ exn_cls e = KeyError
  \/ exn_cls e = UnicodeEncodeError.

(** The line that logs a frame [json.loads] rejected as no JSON. *)
Definition failure_line (e : exn) : pystr := lit "❌ 解析消息失败: " ++ chars (exn_msg e).

(** The line [send_message] prints after the write of [message_str]
    to the connection [c]: the echo, or the failure line with the text
    of what the write raised. *)
Definition send_report (c : connection) (message_str : pystr) : pystr :=
  match fst (ws_send send_aborts c message_str) with
  | Ok _ => lit "📤 发送: " ++ message_str
  | Raise e => lit "❌ 发送失败: " ++ chars (exn_msg e)
  end.

End Lines.

(** Computations that read nothing of the world: the outcome and the
    lines printed are the same wherever they start, the monitor is left
    alone, and what is raised satisfies [P]. *)
Definition steady {A} (P : exn -> Prop) (c : Py A) : Prop :=
  exists r out,
    (forall w, c w = (r, emit out w)) /\ forall e, r = Raise e -> P e.

(** Computations that only print, and no more than [n] lines. *)
Definition at_most {A} (n : nat) (c : Py A) : Prop :=
  forall w, exists out, snd (c w) = emit out w /\ (length out <= n)%nat.

(** The values [len] rejects. *)
Definition unsized (v : pyval) : bool :=
  match v with
  | PNone | PBool _ | PInt _ | PFloat _ => true
  | PStr _ | PList _ | PDict _ => false
  end.

Definition is_dict (v : pyval) : bool :=
  match v with
  | PDict _ => true
  | _ => false
  end.

Definition is_str (v : pyval) : bool :=
  match v with
  | PStr _ => true
  | _ => false
  end.

(** The monitor after the library marked its connection closed. *)
Definition lose_connection (why : text) (m : RealtimeClipboardMonitor)
  : RealtimeClipboardMonitor :=
  match websocket m with
  | Some c => set_websocket (Some (close_with why c)) m
  | None => m
  end.

(** What one frame can raise out of the inner [try]: errors under
    [Exception] that are no [ConnectionClosed]. *)
Definition frame_error (e : exn) : Prop :=
  is_Exception e = true /\ is_a ConnectionClosed e = false.

(** What meeting the end of the stream comes to for [listen_messages],
    once every frame has passed: an iteration that is exhausted leaves
    the flag alone, one that raises [ConnectionClosed] or anything else
    under [Exception] is logged and clears the flag, and anything not
    under [Exception] goes through to the caller.  The connection is
    closed when the stream ended by a close. *)
Definition after_stream (ending : stream_end) (w : world) : result unit * world :=
  match ending with
  | EndOfStream why => (Ok tt, mk_world (lose_connection why (self w)) (stdout w))
  | StreamRaises e =>
      if is_a ConnectionClosed e then
        (Ok tt, mk_world (set_running false (lose_connection (exn_msg e) (self w)))
                  (stdout w ++ [lit "🔌 连接已关闭"]))
      else if is_Exception e then
        (Ok tt, mk_world (set_running false (self w))
                  (stdout w ++ [lit "❌ 监听出错: " ++ chars (exn_msg e)]))
      else (Raise e, w)
  end.

(** The ways a stream stops that [listen_messages] takes in: the
    iteration ends, or raises an exception under [Exception]. *)
Definition under_Exception (ending : stream_end) : bool :=
  match ending with
  | EndOfStream _ => true
  | StreamRaises e => is_Exception e
  end.

(* ================================================================== *)
(** ** A runtime and data for the examples *)

(** The built-ins of the examples: [repr] of a float is its exact
    decimal expansion, [repr] of a string quotes it and escapes lone
    surrogates, slices cannot be hashed (Python 3.11), and the decoder
    knows three frames and rejects any other the way [json.loads]
    rejects text that is not JSON. *)
Fixpoint fraction_digits (k : nat) (x : N) (acc : pystr) : pystr :=
  match k with
  | O => acc
  | S k' => fraction_digits k' (x / 10) ((48 + x mod 10) :: acc)
  end.

Fixpoint strip_zeros (rev_digits : pystr) : pystr :=
  match rev_digits with
  | [] => []
  | c :: rest => if c =? 48 then strip_zeros rest else rev_digits
  end.

(** The exact decimal expansion of [m * 2^e], which is the [repr] of a
    float whose expansion is short. *)
Definition decimal_expansion (m : positive) (e : Z) : pystr :=
  match e with
  | Zneg k =>
      let scale := N.pow 2 (Npos k) in
      let whole := Npos m / scale in
      let part := (Npos m mod scale) * N.pow 5 (Npos k) in
      let digits := rev (strip_zeros (rev (fraction_digits (Pos.to_nat k) part []))) in
      int_str (Z.of_N whole) ++ lit "." ++ match digits with [] => lit "0" | _ => digits end
  | _ => int_str (Z.pos m * 2 ^ e)%Z ++ lit ".0"
  end.

Definition sample_float_repr (f : float) : pystr :=
  match FloatOps.Prim2SF f with
  | SpecFloat.S754_nan => lit "nan"
  | SpecFloat.S754_infinity false => lit "inf"
  | SpecFloat.S754_infinity true => lit "-inf"
  | SpecFloat.S754_zero false => lit "0.0"
  | SpecFloat.S754_zero true => lit "-0.0"
  | SpecFloat.S754_finite false m e => decimal_expansion m e
  | SpecFloat.S754_finite true m e => lit "-" ++ decimal_expansion m e
  end.

Definition sample_str_repr (s : pystr) : pystr :=
  lit "'" ++ flat_map (fun c => if is_surrogate c then u_escape c else [c]) s ++ lit "'".

(** A binary frame that is not UTF-8, and what [json.loads] says of
    it. *)
Definition STRAY_BYTE : payload := Bytes [255].

Definition sample_json_decode (message : payload) : exn + pyval :=
  match message with
  | Str s =>
      if pystr_eqb s (dq "{'type': 'delete', 'id': 'abc123'}") then
        inr (PDict [(lit "type", PStr (lit "delete")); (lit "id", PStr (lit "abc123"))])
      else if pystr_eqb s (dq "{'type': 'connection_stats', 'data': {'activeConnections': 2}}")
      then
        inr (PDict [(lit "type", PStr (lit "connection_stats"));
                    (lit "data", PDict [(lit "activeConnections", PInt 2)])])
      else inl (mk_exn JSONDecodeError (plain "Expecting value: line 1 column 1 (char 0)"))
  | Bytes b =>
      if pystr_eqb b [255] then
        inl (mk_exn UnicodeDecodeError
               (plain "'utf-8' codec can't decode byte 0xff in position 0: invalid start byte"))
      else inl (mk_exn JSONDecodeError (plain "Expecting value: line 1 column 1 (char 0)"))
  end.

(** Worlds and messages for the examples. *)
Definition fresh_world : world := mk_world (init DEFAULT_URL DEFAULT_DEVICE_ID) [].

Definition connected_world : world :=
  mk_world (mk_monitor DEFAULT_URL DEFAULT_DEVICE_ID
              (DEFAULT_URL ++ lit "?deviceId=" ++ DEFAULT_DEVICE_ID)
              (Some fresh_connection) true) [].

Definition noon : text := plain "12:00:00".

(** The string JSON writes ["\ud800"]: one lone surrogate. *)
Definition LONE_SURROGATE : pystr := [55296].

Definition boom_message : pyval :=
  PDict [(lit "type", PStr (lit "sync"));
         (lit "data", PDict [(lit "error", PStr (lit "boom"))])].

Definition unprintable_error_message : pyval :=
  PDict [(lit "type", PStr (lit "sync"));
         (lit "data", PDict [(lit "error", PStr LONE_SURROGATE)])].

Definition long_text_message : pyval :=
  PDict [(lit "type", PStr (lit "sync"));
         (lit "data", PDict [(lit "type", PStr (lit "text"));
                             (lit "content", PStr (str_mul (lit "A") 150))])].

Definition untyped_item_message : pyval :=
  PDict [(lit "type", PStr (lit "sync"));
         (lit "data", PDict [(lit "content", PStr (lit "hello"))])].

Definition unprintable_item_message : pyval :=
  PDict [(lit "type", PStr (lit "sync"));
         (lit "data", PDict [(lit "type", PStr (lit "text"));
                             (lit "content", PStr LONE_SURROGATE)])].

Definition null_content_message : pyval :=
  PDict [(lit "type", PStr (lit "sync"));
         (lit "data", PDict [(lit "type", PStr (lit "text")); (lit "content", PNone)])].

Definition empty_listing_message : pyval :=
  PDict [(lit "type", PStr (lit "all_content")); (lit "data", PList []); (lit "count", PInt 0)].

Definition one_item_listing_message : pyval :=
  PDict [(lit "type", PStr (lit "all_content"));
         (lit "data",
          PList [PDict [(lit "createdAt", PStr (lit "2024-01-01T12:00:00.000Z"));
                        (lit "type", PStr (lit "text"));
                        (lit "content", PStr (lit "hi"))]]);
         (lit "count", PInt 1)].

Definition unprintable_listing_message : pyval :=
  PDict [(lit "type", PStr (lit "all_content"));
         (lit "data", PList [PDict [(lit "content", PStr LONE_SURROGATE)]]);
         (lit "count", PInt 1)].

Definition request_message : pyval :=
  PDict [(lit "type", PStr (lit "get_all_content"));
         (lit "data", PDict [(lit "limit", PInt 10)])].

Definition bare_sync_message : pyval := PDict [(lit "type", PStr (lit "sync"))].

Definition bare_delete_message : pyval := PDict [(lit "type", PStr (lit "delete"))].

Definition unprintable_delete_message : pyval :=
  PDict [(lit "type", PStr (lit "delete")); (lit "id", PStr LONE_SURROGATE)].

Definition garbled_frame : frame := mk_frame (Str (lit "not json")) noon.

Definition delete_frame : frame :=
  mk_frame (Str (dq "{'type': 'delete', 'id': 'abc123'}")) (plain "12:00:01").

Definition stats_frame : frame :=
  mk_frame (Str (dq "{'type': 'connection_stats', 'data': {'activeConnections': 2}}"))
    (plain "12:00:02").

Definition stray_byte_frame : frame := mk_frame STRAY_BYTE noon.

Definition closed_by_peer : exn :=
  mk_exn ConnectionClosed (plain "no close frame received or sent").

Definition GOING_AWAY : text := plain "received 1001 (going away); then sent 1001 (going away)".

Definition cancelled : exn := mk_exn CancelledError (plain EmptyString).

(** What the iteration raises when a second task is already reading
    the connection. *)
Definition concurrent_recv : exn :=
  mk_exn OtherException
    (plain "cannot call recv while another coroutine is already running recv or recv_streaming").

(** A second decoder for the examples, which also knows a frame that is
    valid JSON but no object. *)
Definition array_json_decode (message : payload) : exn + pyval :=
  match message with
  | Str s =>
      if pystr_eqb s (lit "[1, 2]") then inr (PList [PInt 1; PInt 2])
      else sample_json_decode message
  | Bytes _ => sample_json_decode message
  end.

Definition array_frame : frame := mk_frame (Str (lit "[1, 2]")) noon.

Definition three_item_listing_message : pyval :=
  PDict [(lit "type", PStr (lit "all_content"));
         (lit "data",
          PList [PDict [(lit "content", PStr (lit "one"))];
                 PDict [(lit "content", PStr (lit "two"))];
                 PDict [(lit "content", PStr (lit "three"))];
                 PInt 4]);
         (lit "count", PInt 4)].

Section FrameLines.

Context {builtins : Builtins}.

(** The lines one frame adds to the output. *)
Definition frame_lines (fr : frame) : list pystr :=
  output_of (handle_frame fr) fresh_world.

End FrameLines.

(* ================================================================== *)
(** * Theorems *)

(* ================================================================== *)
(** ** Strings and worlds *)

Lemma non_ascii_app (a b : pystr) : non_ascii (a ++ b) = non_ascii a ++ non_ascii b.
Proof. apply filter_app. Qed.

Lemma non_ascii_nil_iff (s : pystr) : non_ascii s = [] <-> Forall (fun c => c < 128) s.
Proof.
  induction s as [|c s IH]; simpl.
  - split; auto.
  - unfold is_ascii. destruct (N.ltb_spec c 128); simpl.
    + rewrite IH. split; intro H'.
      * constructor; assumption.
      * inversion H'; assumption.
    + split; [discriminate|]. intro H'. inversion H'; lia.
Qed.

Lemma uint_chars_ascii (d : Decimal.uint) : Forall (fun c => c < 128) (uint_chars d).
Proof. induction d; simpl; constructor; solve [assumption | lia]. Qed.

Lemma int_str_ascii (z : Z) : non_ascii (int_str z) = [].
Proof.
  apply non_ascii_nil_iff. unfold int_str.
  destruct (Z.to_int z); [|constructor; [lia|]]; apply uint_chars_ascii.
Qed.

Lemma fraction_digits_ascii (k : nat) :
  forall x acc, Forall (fun c => c < 128) acc ->
                Forall (fun c => c < 128) (fraction_digits k x acc).
Proof.
  induction k as [|k IH]; intros x acc H; cbn [fraction_digits]; [assumption|].
  apply IH. constructor; [|assumption].
  assert (x mod 10 < 10) by (apply N.mod_lt; discriminate). lia.
Qed.

Lemma strip_zeros_ascii (s : pystr) :
  Forall (fun c => c < 128) s -> Forall (fun c => c < 128) (strip_zeros s).
Proof.
  induction 1 as [|c s Hc Hs IH]; simpl; [constructor|].
  destruct (c =? 48); [assumption | constructor; assumption].
Qed.

Lemma decimal_expansion_ascii (m : positive) (e : Z) :
  non_ascii (decimal_expansion m e) = [].
Proof.
  unfold decimal_expansion. destruct e;
    rewrite ?non_ascii_app, ?int_str_ascii; try reflexivity.
  simpl app. match goal with |- context [match ?d with [] => _ | _ => _ end] => remember d as ds end.
  assert (Hd : Forall (fun c => c < 128) ds).
  { subst ds. apply Forall_rev, strip_zeros_ascii, Forall_rev, fraction_digits_ascii.
    constructor. }
  destruct ds; [reflexivity|].
  change (non_ascii (lit ".")) with (@nil N). simpl app.
  apply non_ascii_nil_iff. assumption.
Qed.

Lemma sample_float_repr_ascii : forall f, non_ascii (sample_float_repr f) = [].
Proof.
  intro f. unfold sample_float_repr.
  destruct (FloatOps.Prim2SF f) as [[|]|[|]| |[|] m e];
    rewrite ?non_ascii_app, ?decimal_expansion_ascii; reflexivity.
Qed.

(* ------------------------------------------------------------------ *)
(** *** What can be encoded *)

Lemma encodable_app (a b : pystr) : encodable (a ++ b) = encodable a && encodable b.
Proof. apply forallb_app. Qed.

Lemma encodable_below (s : pystr) : Forall (fun c => c < 128) s -> encodable s = true.
Proof.
  intro H. apply forallb_forall. intros c Hc.
  assert (Hlt : c < 128) by (revert c Hc; apply Forall_forall; exact H).
  unfold is_surrogate. destruct (N.leb_spec 55296 c); [lia | reflexivity].
Qed.

Lemma encodable_ascii (s : pystr) : non_ascii s = [] -> encodable s = true.
Proof. intro H. apply encodable_below, non_ascii_nil_iff, H. Qed.

Lemma encodable_int_str (z : Z) : encodable (int_str z) = true.
Proof. apply encodable_ascii, int_str_ascii. Qed.

Lemma encodable_join (sep : pystr) (parts : list pystr) :
  encodable sep = true ->
  Forall (fun p => encodable p = true) parts ->
  encodable (join sep parts) = true.
Proof.
  intros Hsep Hparts. induction Hparts as [|p parts Hp _ IH]; [reflexivity|].
  destruct parts as [|q parts].
  - exact Hp.
  - change (join sep (p :: q :: parts)) with (p ++ sep ++ join sep (q :: parts)).
    rewrite !encodable_app, Hp, Hsep, IH. reflexivity.
Qed.

Lemma hex_digit_ascii (n : N) : n < 16 -> hex_digit n < 128.
Proof. unfold hex_digit. destruct (N.ltb_spec n 10); lia. Qed.

Lemma u_escape_below (n : N) : Forall (fun c => c < 128) (u_escape n).
Proof.
  unfold u_escape, BACKSLASH.
  repeat (constructor; [first [lia | apply hex_digit_ascii, N.mod_lt; discriminate]|]).
  constructor.
Qed.

Lemma sample_str_repr_encodable (s : pystr) : encodable (sample_str_repr s) = true.
Proof.
  unfold sample_str_repr. rewrite !encodable_app.
  change (encodable (lit "'")) with true. rewrite andb_true_r. simpl andb.
  induction s as [|c s IH]; [reflexivity|].
  cbn [flat_map]. rewrite encodable_app, IH, andb_true_r.
  destruct (is_surrogate c) eqn:Hc.
  - apply encodable_below, u_escape_below.
  - simpl. rewrite Hc. reflexivity.
Qed.

Lemma sample_json_decode_raises (p : payload) (e : exn) :
  sample_json_decode p = inl e -> is_Exception e = true /\ is_a ConnectionClosed e = false.
Proof.
  unfold sample_json_decode. destruct p as [s|b].
  - repeat match goal with |- context [if ?c then _ else _] => destruct c end;
      intros [= <-]; split; reflexivity.
  - destruct (pystr_eqb b [255]); intros [= <-]; split; reflexivity.
Qed.

Lemma array_json_decode_raises (p : payload) (e : exn) :
  array_json_decode p = inl e -> is_Exception e = true /\ is_a ConnectionClosed e = false.
Proof.
  unfold array_json_decode. destruct p as [s|b]; [|apply sample_json_decode_raises].
  destruct (pystr_eqb s (lit "[1, 2]")); [discriminate | apply sample_json_decode_raises].
Qed.

Definition sample_builtins : Builtins :=
  {| float_repr := sample_float_repr;
     float_repr_ascii := sample_float_repr_ascii;
     str_repr := sample_str_repr;
     str_repr_encodable := sample_str_repr_encodable;
     json_decode := sample_json_decode;
     json_decode_raises := sample_json_decode_raises;
     slices_hashable := false;
     send_aborts := false |}.

(** The same runtime with the decoder that knows the array frame. *)
Definition array_builtins : Builtins :=
  {| float_repr := sample_float_repr;
     float_repr_ascii := sample_float_repr_ascii;
     str_repr := sample_str_repr;
     str_repr_encodable := sample_str_repr_encodable;
     json_decode := array_json_decode;
     json_decode_raises := array_json_decode_raises;
     slices_hashable := false;
     send_aborts := false |}.

(** The same runtime on an interpreter that hashes slices (Python 3.12
    and later), with a library that aborts the connection on a failed
    send (websockets 13 and later). *)
Definition recent_builtins : Builtins :=
  {| float_repr := sample_float_repr;
     float_repr_ascii := sample_float_repr_ascii;
     str_repr := sample_str_repr;
     str_repr_encodable := sample_str_repr_encodable;
     json_decode := sample_json_decode;
     json_decode_raises := sample_json_decode_raises;
     slices_hashable := true;
     send_aborts := true |}.

Lemma pystr_eqb_refl (s : pystr) : pystr_eqb s s = true.
Proof.
  induction s as [|c s IH]; simpl; [reflexivity|].
  rewrite N.eqb_refl. exact IH.
Qed.

Lemma pystr_eqb_eq (a b : pystr) : pystr_eqb a b = true <-> a = b.
Proof.
  split; [|intros ->; apply pystr_eqb_refl].
  revert b. induction a as [|x a IH]; intros [|y b]; simpl; try discriminate; auto.
  intro H. apply andb_true_iff in H as [Hx Hab].
  apply N.eqb_eq in Hx. f_equal; auto.
Qed.

Lemma emit_nil (w : world) : emit [] w = w.
Proof. destruct w; unfold emit; simpl. rewrite app_nil_r. reflexivity. Qed.

Lemma emit_emit (a b : list pystr) (w : world) : emit b (emit a w) = emit (a ++ b) w.
Proof. unfold emit; simpl. rewrite app_assoc. reflexivity. Qed.

Lemma output_of_emit {A} (c : Py A) (w : world) (out : list pystr) :
  snd (c w) = emit out w -> output_of c w = out.
Proof.
  intro H. unfold output_of. rewrite H. simpl.
  rewrite skipn_app, skipn_all, Nat.sub_diag. reflexivity.
Qed.

Lemma str_slice_length (s : pystr) (n : nat) :
  length (str_slice s n) = Nat.min n (length s).
Proof. apply length_firstn. Qed.

Lemma str_replace_length (s : pystr) (old new : N) :
  length (str_replace s old new) = length s.
Proof. apply length_map. Qed.

Lemma str_replace_removes (s : pystr) (old new : N) :
  old <> new -> ~ In old (str_replace s old new).
Proof.
  intros Hne Hin. apply in_map_iff in Hin as [c [Hc _]].
  destruct (N.eqb_spec c old); congruence.
Qed.

Lemma forallb_firstn {A} (f : A -> bool) (n : nat) :
  forall l, forallb f l = true -> forallb f (firstn n l) = true.
Proof.
  induction n as [|n IH]; intros [|x l]; simpl; auto.
  intro H. apply andb_true_iff in H as [Hx Hl]. rewrite Hx. simpl. auto.
Qed.

(* ------------------------------------------------------------------ *)
(** *** Printing *)

Ltac by_computation := vm_compute; reflexivity.

Lemma print_ok (line : pystr) (w : world) :
  encodable line = true -> print line w = (Ok tt, emit [line] w).
Proof. intro H. unfold print. rewrite H. reflexivity. Qed.

Lemma print_refused (line : pystr) (w : world) :
  encodable line = false -> print line w = (Raise (unicode_encode_error line), w).
Proof. intro H. unfold print. rewrite H. reflexivity. Qed.

Lemma print_writes (line : pystr) (w : world) : print line w = write_lines [line] w.
Proof. unfold print, write_lines. destruct (encodable line); reflexivity. Qed.

Lemma write_lines_cons (line : pystr) (rest : list pystr) (w : world) :
  write_lines (line :: rest) w = (print line ;; (fun w' => write_lines rest w')) w.
Proof.
  unfold bind, print. cbn [write_lines]. destruct (encodable line); reflexivity.
Qed.

Lemma write_lines_all (lines : list pystr) :
  forall w, forallb encodable lines = true -> write_lines lines w = (Ok tt, emit lines w).
Proof.
  induction lines as [|line lines IH]; intros w H; cbn [write_lines].
  - rewrite emit_nil. reflexivity.
  - cbn [forallb] in H. apply andb_true_iff in H as [Hline Hrest].
    rewrite Hline, IH, emit_emit by exact Hrest. reflexivity.
Qed.

Lemma write_lines_stops (good : list pystr) (bad : pystr) (rest : list pystr) :
  forall w,
    forallb encodable good = true -> encodable bad = false ->
    write_lines (good ++ bad :: rest) w = (Raise (unicode_encode_error bad), emit good w).
Proof.
  induction good as [|line good IH]; intros w Hgood Hbad; cbn [app write_lines].
  - rewrite Hbad, emit_nil. reflexivity.
  - cbn [forallb] in Hgood. apply andb_true_iff in Hgood as [Hline Hgood].
    rewrite Hline, IH, emit_emit by assumption. reflexivity.
Qed.

Section Encodable.

Context {builtins : Builtins}.

Lemma encodable_float_repr (f : float) : encodable (float_repr f) = true.
Proof. apply encodable_ascii, float_repr_ascii. Qed.

End Encodable.

Section PyvalInduction.

Variable P : pyval -> Prop.
Hypothesis HNone : P PNone.
Hypothesis HBool : forall b, P (PBool b).
Hypothesis HInt : forall z, P (PInt z).
Hypothesis HFloat : forall f, P (PFloat f).
Hypothesis HStr : forall s, P (PStr s).
Hypothesis HList : forall l, Forall P l -> P (PList l).
Hypothesis HDict : forall d, Forall (fun kv => P (snd kv)) d -> P (PDict d).

Fixpoint pyval_nested_ind (v : pyval) : P v :=
  match v with
  | PNone => HNone
  | PBool b => HBool b
  | PInt z => HInt z
  | PFloat f => HFloat f
  | PStr s => HStr s
  | PList l =>
      HList ((fix each (l : list pyval) : Forall P l :=
                match l with
                | [] => Forall_nil P
                | x :: rest => Forall_cons x (pyval_nested_ind x) (each rest)
                end) l)
  | PDict d =>
      HDict ((fix each (d : list (pystr * pyval)) : Forall (fun kv => P (snd kv)) d :=
                match d with
                | [] => Forall_nil _
                | kv :: rest =>
                    Forall_cons kv (pyval_nested_ind (snd kv)) (each rest)
                end) d)
  end.

End PyvalInduction.

Section Shown.

Context {builtins : Builtins}.

(** [repr] never shows a lone surrogate: strings come out escaped. *)
Lemma encodable_py_repr (v : pyval) : encodable (py_repr v) = true.
Proof.
  induction v as [| [|] | z | f | s | l IH | d IH] using pyval_nested_ind;
    try reflexivity.
  - apply encodable_int_str.
  - apply encodable_float_repr.
  - apply str_repr_encodable.
  - cbn [py_repr]. rewrite !encodable_app.
    change (encodable (lit "[")) with true. change (encodable (lit "]")) with true.
    rewrite andb_true_r. cbn [andb].
    apply encodable_join; [reflexivity|].
    apply Forall_map. exact IH.
  - cbn [py_repr]. rewrite !encodable_app.
    change (encodable (lit "{")) with true. change (encodable (lit "}")) with true.
    rewrite andb_true_r. cbn [andb].
    apply encodable_join; [reflexivity|].
    apply Forall_map. induction IH as [|[k x] d Hx _ IHd]; constructor; [|exact IHd].
    cbn [snd] in Hx. rewrite !encodable_app, str_repr_encodable, Hx. reflexivity.
Qed.

(** What an f-string shows of a value can always be encoded, unless
    the value is itself a string that cannot. *)
Lemma encodable_py_str (v : pyval) : is_str v = false -> encodable (py_str v) = true.
Proof.
  intro H. destruct v; try discriminate; apply (encodable_py_repr _).
Qed.

End Shown.

(** Proves that a line put together from literals, numbers, text and
    shown values can be encoded. *)
Ltac printable :=
  lazymatch goal with
  | |- encodable (_ ++ _) = true =>
      rewrite encodable_app; apply andb_true_intro; split; printable
  | |- encodable (lit _) = true => vm_compute; reflexivity
  | |- encodable (chars _) = true => apply chars_encodable
  | |- encodable (int_str _) = true => apply encodable_int_str
  | |- encodable (py_repr _) = true => apply encodable_py_repr
  | |- encodable (py_str _) = true =>
      first [assumption | apply encodable_py_str; solve [assumption | reflexivity]]
  | |- _ => first [assumption | vm_compute; reflexivity]
  end.

Ltac all_printable :=
  cbn [forallb];
  repeat match goal with
         | |- (_ && _)%bool = true => apply andb_true_intro; split
         end;
  lazymatch goal with
  | |- true = true => reflexivity
  | |- _ => printable
  end.

Section HandlerFacts.

Context {builtins : Builtins}.

(* ------------------------------------------------------------------ *)
(** *** The handler, branch by branch *)

Lemma handle_message_sync ts d w :
  dict_get d (lit "type") = Some (PStr (lit "sync")) ->
  handle_message ts (PDict d) w =
    match dict_get d (lit "data") with
    | Some (PDict p) =>
        match dict_get p (lit "error") with
        | Some err => write_lines [lit "[" ++ chars ts ++ lit "] ❌ 错误: " ++ py_str err] w
        | None =>
            match dict_get p (lit "message") with
            | Some msg => write_lines [lit "[" ++ chars ts ++ lit "] ✅ " ++ py_str msg] w
            | None => print_new_item ts (PDict p) w
            end
        end
    | _ => (Ok tt, w)
    end.
Proof.
  intro Htype. unfold handle_message, bind, py_get, ret. rewrite Htype.
  change (py_eq_str (PStr (lit "sync")) (lit "sync")) with true. cbv iota beta.
  destruct (dict_get d (lit "data")) as [[]|]; try reflexivity.
  destruct (dict_get _ (lit "error")); [apply print_writes|].
  destruct (dict_get _ (lit "message")); [apply print_writes | reflexivity].
Qed.

Lemma print_new_item_shown ts p ty content w :
  dict_get p (lit "type") = Some ty ->
  truthy ty = true ->
  field_str p (lit "content") = Some content ->
  print_new_item ts (PDict p) w = write_lines [preview_line ts ty content] w.
Proof.
  intros Hty Htruthy Hcontent.
  unfold print_new_item, bind, py_get, ret. rewrite Hty. cbv iota beta. rewrite Htruthy.
  unfold field_str in Hcontent.
  destruct (dict_get p (lit "content")) as [[]|]; try discriminate;
    injection Hcontent as <-; apply print_writes.
Qed.

Lemma print_new_item_silent ts p w :
  truthy (field_or p (lit "type") PNone) = false ->
  print_new_item ts (PDict p) w = (Ok tt, w).
Proof.
  intro H. unfold print_new_item, bind, py_get, ret. cbv iota beta.
  unfold field_or in H. rewrite H. reflexivity.
Qed.

Lemma print_new_item_bad_content ts p ty v w :
  dict_get p (lit "type") = Some ty ->
  truthy ty = true ->
  dict_get p (lit "content") = Some v ->
  is_str v = false ->
  print_new_item ts (PDict p) w = (Raise (content_error v), w).
Proof.
  intros Hty Htruthy Hcontent Hv.
  unfold print_new_item, bind, py_get, ret. rewrite Hty. cbv iota beta.
  rewrite Htruthy, Hcontent.
  destruct v; try discriminate; reflexivity.
Qed.

Lemma print_item_ok i item w :
  item_ok item = true ->
  print_item i item w = write_lines [item_line i item] w.
Proof.
  destruct item as [| | | | |l|f]; try discriminate. simpl item_ok. intro Hok.
  unfold print_item, bind, py_get, ret, field_or, item_line.
  unfold field_str in *.
  destruct (dict_get f (lit "createdAt")) as [[]|]; try discriminate;
    destruct (dict_get f (lit "content")) as [[]|]; try discriminate;
    apply print_writes.
Qed.

Lemma for_each_items (items : list pyval) :
  forall k w,
    forallb item_ok items = true ->
    for_each (combine (seq k (length items)) items) (fun '(i, item) => print_item i item) w =
      write_lines (map (fun '(i, item) => item_line i item)
                     (combine (seq k (length items)) items)) w.
Proof.
  induction items as [|item items IH]; intros k w Hok; [reflexivity|].
  cbn [forallb] in Hok. apply andb_true_iff in Hok as [Hitem Hitems].
  cbn [length seq combine for_each map]. rewrite write_lines_cons.
  unfold bind. rewrite print_item_ok by exact Hitem. rewrite <- print_writes.
  destruct (print (item_line k item) w) as [[[]|e] w']; [|reflexivity].
  apply IH. exact Hitems.
Qed.

Lemma handle_message_all_content ts d items w :
  dict_get d (lit "type") = Some (PStr (lit "all_content")) ->
  field_or d (lit "data") (PList []) = PList items ->
  forallb item_ok (firstn 3 items) = true ->
  handle_message ts (PDict d) w =
    write_lines ((lit "[" ++ chars ts ++ lit "] 📋 当前内容总数: "
                  ++ py_str (field_or d (lit "count") (PInt (Z.of_nat (length items))))
                  ++ lit " 条")
                 :: match items with
                    | [] => []
                    | _ :: _ => lit "最新的3条内容:" :: item_lines items
                    end) w.
Proof.
  intros Htype Hdata Hok.
  unfold handle_message, bind, py_get, ret. rewrite Htype. unfold field_or in *.
  change (py_eq_str (PStr (lit "all_content")) (lit "sync")) with false.
  change (py_eq_str (PStr (lit "all_content")) (lit "delete")) with false.
  change (py_eq_str (PStr (lit "all_content")) (lit "all_content")) with true.
  cbv iota beta. rewrite Hdata. unfold py_len, ret. cbv iota beta.
  rewrite write_lines_cons. unfold bind.
  match goal with |- context [print ?line w] => destruct (print line w) as [[[]|e] w1] end;
    [|reflexivity].
  destruct items as [|item items]; [reflexivity|].
  change (truthy (PList (item :: items))) with true. cbv iota beta.
  rewrite write_lines_cons. unfold bind.
  match goal with |- context [print ?line w1] => destruct (print line w1) as [[[]|e] w2] end;
    [|reflexivity].
  unfold py_slice, py_iter, ret. cbv iota beta.
  unfold enumerate. rewrite for_each_items by exact Hok. reflexivity.
Qed.

Lemma handle_message_delete ts d w :
  dict_get d (lit "type") = Some (PStr (lit "delete")) ->
  handle_message ts (PDict d) w =
    write_lines [lit "[" ++ chars ts ++ lit "] 🗑️ 内容已删除: "
                 ++ py_str (field_or d (lit "id") (PStr (lit "unknown")))] w.
Proof.
  intro Htype. unfold handle_message, bind, py_get, ret. rewrite Htype.
  change (py_eq_str (PStr (lit "delete")) (lit "sync")) with false.
  change (py_eq_str (PStr (lit "delete")) (lit "delete")) with true.
  cbv iota beta. apply print_writes.
Qed.

Lemma handle_message_connection_stats ts d f w :
  dict_get d (lit "type") = Some (PStr (lit "connection_stats")) ->
  field_or d (lit "data") (PDict []) = PDict f ->
  handle_message ts (PDict d) w =
    write_lines [lit "[" ++ chars ts ++ lit "] 📊 连接统计: "
                 ++ py_str (field_or f (lit "activeConnections") (PInt 0))
                 ++ lit " 个活跃连接"] w.
Proof.
  intros Htype Hdata. unfold handle_message, bind, py_get, ret. rewrite Htype.
  unfold field_or in Hdata.
  change (py_eq_str (PStr (lit "connection_stats")) (lit "sync")) with false.
  change (py_eq_str (PStr (lit "connection_stats")) (lit "delete")) with false.
  change (py_eq_str (PStr (lit "connection_stats")) (lit "all_content")) with false.
  change (py_eq_str (PStr (lit "connection_stats")) (lit "connection_stats")) with true.
  cbv iota beta. rewrite Hdata. apply print_writes.
Qed.

Lemma handle_message_other ts d w :
  let message_type := field_or d (lit "type") (PStr (lit "unknown")) in
  py_eq_str message_type (lit "sync") = false ->
  py_eq_str message_type (lit "delete") = false ->
  py_eq_str message_type (lit "all_content") = false ->
  py_eq_str message_type (lit "connection_stats") = false ->
  handle_message ts (PDict d) w =
    write_lines [lit "[" ++ chars ts ++ lit "] 📨 收到消息: " ++ py_str message_type] w.
Proof.
  intros mt H1 H2 H3 H4. unfold handle_message, bind, py_get, ret.
  fold (field_or d (lit "type") (PStr (lit "unknown"))). fold mt.
  cbv iota beta. rewrite H1, H2, H3, H4. apply print_writes.
Qed.

(** On a message whose fields have the types the handler reads them
    at, the handler writes the lines of [rendering], no others, in
    that order. *)
Lemma handle_message_renders ts d w :
  fields_well_typed d = true ->
  handle_message ts (PDict d) w = write_lines (rendering ts d) w.
Proof.
  intro Hwt. unfold fields_well_typed in Hwt. unfold rendering. cbv zeta.
  destruct (dict_get d (lit "type")) as [mt|] eqn:Htype.
  2: { rewrite handle_message_other; unfold field_or; rewrite Htype; reflexivity. }
  assert (Hfield : field_or d (lit "type") (PStr (lit "unknown")) = mt)
    by (unfold field_or; rewrite Htype; reflexivity).
  destruct mt as [| b | z | f | t | l | m];
    try (rewrite handle_message_other; rewrite Hfield; reflexivity).
  rewrite Hfield. cbn [py_eq_str].
  destruct (pystr_eqb t (lit "sync")) eqn:Esync.
  { apply pystr_eqb_eq in Esync. subst t.
    rewrite handle_message_sync by exact Htype.
    destruct (dict_get d (lit "data")) as [[| | | | | |p]|]; try reflexivity.
    destruct (dict_get p (lit "error")); [reflexivity|].
    destruct (dict_get p (lit "message")); [reflexivity|].
    destruct (truthy (field_or p (lit "type") PNone)) eqn:Hty.
    - destruct (field_str p (lit "content")) as [content|] eqn:Hc; [|discriminate].
      assert (Hcontent : field_or p (lit "content") (PStr []) = PStr content).
      { unfold field_str in Hc. unfold field_or.
        destruct (dict_get p (lit "content")) as [[]|]; try discriminate;
          injection Hc as <-; reflexivity. }
      rewrite Hcontent. unfold field_or in Hty |- *.
      destruct (dict_get p (lit "type")) as [ty|] eqn:Hp; [|discriminate].
      apply print_new_item_shown; assumption.
    - apply print_new_item_silent. exact Hty. }
  destruct (pystr_eqb t (lit "delete")) eqn:Edel.
  { apply pystr_eqb_eq in Edel. subst t. apply handle_message_delete. exact Htype. }
  destruct (pystr_eqb t (lit "all_content")) eqn:Eall.
  { apply pystr_eqb_eq in Eall. subst t.
    assert (Hdata : exists items,
               field_or d (lit "data") (PList []) = PList items
               /\ forallb item_ok items = true).
    { unfold field_or.
      destruct (dict_get d (lit "data")) as [[| | | | |items|]|]; try discriminate.
      - exists items. split; [reflexivity | exact Hwt].
      - exists []. split; reflexivity. }
    destruct Hdata as [items [Hdata Hok]]. rewrite Hdata.
    apply handle_message_all_content;
      [exact Htype | exact Hdata | apply forallb_firstn; exact Hok]. }
  destruct (pystr_eqb t (lit "connection_stats")) eqn:Estats.
  { apply pystr_eqb_eq in Estats. subst t.
    assert (Hdata : exists f, field_or d (lit "data") (PDict []) = PDict f).
    { unfold field_or.
      destruct (dict_get d (lit "data")) as [[| | | | | |f]|]; try discriminate;
        eexists; reflexivity. }
    destruct Hdata as [f Hdata]. rewrite Hdata.
    apply handle_message_connection_stats; assumption. }
  rewrite handle_message_other; rewrite Hfield; cbn [py_eq_str];
    solve [reflexivity | assumption].
Qed.

(** The same at a message that comes to one line. *)
Lemma handle_message_one_line ts d line w :
  fields_well_typed d = true ->
  rendering ts d = [lit "[" ++ chars ts ++ line] ->
  encodable line = true ->
  handle_message ts (PDict d) w = (Ok tt, emit [lit "[" ++ chars ts ++ line] w).
Proof.
  intros Hwt Hr Hline. rewrite handle_message_renders by exact Hwt.
  rewrite Hr. apply write_lines_all. all_printable.
Qed.

(** A message that is well typed and not one of the silent ones has at
    least one line to show. *)
Lemma rendering_not_empty ts d :
  fields_well_typed d = true -> silent_sync d = false ->
  exists line more, rendering ts d = line :: more.
Proof.
  intros Hwt Hsilent. unfold fields_well_typed, silent_sync in *.
  unfold rendering. cbv zeta. unfold field_or in *.
  destruct (dict_get d (lit "type")) as [mt|] eqn:Htype.
  2: { change (py_eq_str (PStr (lit "unknown")) (lit "sync")) with false.
       change (py_eq_str (PStr (lit "unknown")) (lit "delete")) with false.
       change (py_eq_str (PStr (lit "unknown")) (lit "all_content")) with false.
       change (py_eq_str (PStr (lit "unknown")) (lit "connection_stats")) with false.
       eexists _, _; reflexivity. }
  destruct mt as [| b | z | f | t | l | m]; cbn [py_eq_str];
    try (eexists _, _; reflexivity).
  destruct (pystr_eqb t (lit "sync")) eqn:Esync.
  { cbn [andb] in Hsilent.
    destruct (dict_get d (lit "data")) as [[| | | | | |p]|]; try discriminate.
    destruct (dict_get p (lit "error")); [eexists _, _; reflexivity|].
    destruct (dict_get p (lit "message")); [eexists _, _; reflexivity|].
    match goal with |- context [truthy ?v] => destruct (truthy v) end; [|discriminate].
    unfold field_str in Hwt.
    destruct (dict_get p (lit "content")) as [[]|]; try discriminate;
      eexists _, _; reflexivity. }
  destruct (pystr_eqb t (lit "delete")); [eexists _, _; reflexivity|].
  destruct (pystr_eqb t (lit "all_content")).
  { destruct (dict_get d (lit "data")) as [[| | | | |items|]|]; try discriminate;
      eexists _, _; reflexivity. }
  destruct (pystr_eqb t (lit "connection_stats")).
  { destruct (dict_get d (lit "data")) as [[| | | | | |f]|]; try discriminate;
      eexists _, _; reflexivity. }
  eexists _, _; reflexivity.
Qed.

End HandlerFacts.

(* ================================================================== *)
(** ** What the handler can do: print, and raise four kinds of error *)

Section PrintsOnly.

Context {builtins : Builtins}.
Variable P : exn -> Prop.
Hypothesis P_encode : forall line, P (unicode_encode_error line).

Lemma prints_only_ret {A} (a : A) : prints_only P (ret a).
Proof. intro w. exists []. rewrite emit_nil. split; [reflexivity | discriminate]. Qed.

Lemma prints_only_print (line : pystr) : prints_only P (print line).
Proof.
  intro w. unfold print. destruct (encodable line).
  - exists [line]. split; [reflexivity | discriminate].
  - exists []. rewrite emit_nil. split; [reflexivity|]. intros e [= <-]. apply P_encode.
Qed.

Lemma prints_only_raise {A} (e : exn) : P e -> prints_only P (@raise A e).
Proof.
  intros He w. exists []. rewrite emit_nil. split; [reflexivity|].
  intros e' [= <-]. exact He.
Qed.

Lemma prints_only_bind {A B} (c : Py A) (k : A -> Py B) :
  prints_only P c -> (forall a, prints_only P (k a)) -> prints_only P (bind c k).
Proof.
  intros Hc Hk w. unfold bind. destruct (Hc w) as [out [Hw He]].
  destruct (c w) as [[a|e] w']; simpl in Hw; subst w'.
  - destruct (Hk a (emit out w)) as [out' [Hw' He']].
    exists (out ++ out'). rewrite <- emit_emit. split; assumption.
  - exists out. split; [reflexivity|]. intros e' [= <-]. apply He. reflexivity.
Qed.

Lemma prints_only_for_each {A} (l : list A) (body : A -> Py unit) :
  (forall a, prints_only P (body a)) -> prints_only P (for_each l body).
Proof.
  intro Hbody. induction l as [|a l IH]; simpl.
  - apply prints_only_ret.
  - apply prints_only_bind; [apply Hbody | intros _; exact IH].
Qed.

End PrintsOnly.

Lemma handler_error_encode (line : pystr) : handler_error (unicode_encode_error line).
Proof. right; right; right. reflexivity. Qed.

Section HandlerEffects.

Context {builtins : Builtins}.

Lemma handler_error_slice_as_key (n : nat) : handler_error (slice_as_key n).
Proof.
  unfold slice_as_key. destruct slices_hashable.
  - right; right; left. reflexivity.
  - left. reflexivity.
Qed.

Local Abbreviation handler_like := (prints_only handler_error).

Lemma prints_only_handler_print line : handler_like (print line).
Proof. apply prints_only_print. exact handler_error_encode. Qed.

Lemma prints_only_py_get o k dflt : handler_like (py_get o k dflt).
Proof.
  destruct o; simpl; try apply prints_only_ret;
    apply prints_only_raise; right; left; reflexivity.
Qed.

Lemma prints_only_py_len v : handler_like (py_len v).
Proof.
  destruct v; simpl; try apply prints_only_ret;
    apply prints_only_raise; left; reflexivity.
Qed.

Lemma prints_only_py_slice v n : handler_like (py_slice v n).
Proof.
  destruct v; simpl; try apply prints_only_ret; apply prints_only_raise;
    first [apply handler_error_slice_as_key | left; reflexivity].
Qed.

Lemma prints_only_py_replace v old new : handler_like (py_replace v old new).
Proof.
  destruct v; simpl; try apply prints_only_ret;
    apply prints_only_raise; right; left; reflexivity.
Qed.

Lemma prints_only_py_iter v : handler_like (py_iter v).
Proof.
  destruct v; simpl; try apply prints_only_ret;
    apply prints_only_raise; left; reflexivity.
Qed.

Ltac handler_steps :=
  repeat first
    [ apply prints_only_ret
    | apply prints_only_handler_print
    | apply prints_only_py_get
    | apply prints_only_py_len
    | apply prints_only_py_slice
    | apply prints_only_py_replace
    | apply prints_only_py_iter
    | apply prints_only_bind; [|intro]
    | match goal with
      | |- prints_only _ (if ?b then _ else _) => destruct b
      | |- prints_only _ (match ?x with _ => _ end) => destruct x
      end ].

Lemma prints_only_print_item i item : handler_like (print_item i item).
Proof. unfold print_item. handler_steps. Qed.

Lemma prints_only_handle_message ts data : handler_like (handle_message ts data).
Proof.
  unfold handle_message. handler_steps.
  apply prints_only_for_each. intros [i item]. apply prints_only_print_item.
Qed.

Lemma handle_message_prints ts data w :
  snd (handle_message ts data w) =
    emit (output_of (handle_message ts data) w) w.
Proof.
  destruct (prints_only_handle_message ts data w) as [out [Hw _]].
  rewrite (@output_of_emit _ _ _ _ Hw). exact Hw.
Qed.

(* ------------------------------------------------------------------ *)
(** *** One frame *)

Lemma handler_error_passes (e : exn) :
  handler_error e -> frame_error e /\ is_a JSONDecodeError e = false.
Proof.
  unfold frame_error, is_Exception, is_a.
  intros [H | [H | [H | H]]]; rewrite H; repeat split.
Qed.

Lemma handle_frame_rejected fr e w :
  json_decode (frame_data fr) = inl e ->
  exn_cls e = JSONDecodeError ->
  handle_frame fr w = (Ok tt, emit [failure_line e] w).
Proof.
  intros H Hcls. unfold handle_frame, try_except, bind, json_loads. rewrite H.
  unfold raise. cbn [find_handler]. unfold is_a at 1. rewrite Hcls.
  cbn [exn_class_eqb]. cbv beta iota. unfold failure_line.
  rewrite print_ok by printable. reflexivity.
Qed.

Lemma handle_frame_refused fr e w :
  json_decode (frame_data fr) = inl e ->
  exn_cls e <> JSONDecodeError ->
  handle_frame fr w = (Raise e, w).
Proof.
  intros H Hcls. unfold handle_frame, try_except, bind, json_loads. rewrite H.
  unfold raise. cbn [find_handler]. unfold is_a at 1.
  destruct (exn_cls e); try reflexivity. contradiction.
Qed.

Lemma handle_frame_decoded fr v w :
  json_decode (frame_data fr) = inr v ->
  handle_frame fr w = handle_message (frame_time fr) v w.
Proof.
  intro H. unfold handle_frame, try_except, bind, json_loads. rewrite H.
  unfold ret. destruct (prints_only_handle_message (frame_time fr) v w) as [out [_ He]].
  destruct (handle_message (frame_time fr) v w) as [[[]|e] w']; [reflexivity|].
  cbn [find_handler]. rewrite (proj2 (handler_error_passes (He e eq_refl))). reflexivity.
Qed.

Lemma prints_only_handle_frame fr : prints_only frame_error (handle_frame fr).
Proof.
  intro w. destruct (json_decode (frame_data fr)) as [e|v] eqn:H.
  - destruct (exn_class_eqb (exn_cls e) JSONDecodeError) eqn:Hcls.
    + assert (Hj : exn_cls e = JSONDecodeError)
        by (destruct (exn_cls e); try discriminate; reflexivity).
      rewrite (@handle_frame_rejected fr e w H Hj).
      eexists. split; [reflexivity | discriminate].
    + assert (Hj : exn_cls e <> JSONDecodeError)
        by (intro Heq; rewrite Heq in Hcls; discriminate).
      rewrite (@handle_frame_refused fr e w H Hj).
      exists []. rewrite emit_nil. split; [reflexivity|].
      intros e' [= <-]. exact (@json_decode_raises _ _ _ H).
  - rewrite (@handle_frame_decoded fr v w H).
    destruct (prints_only_handle_message (frame_time fr) v w) as [out [Hw He]].
    exists out. split; [assumption|].
    intros e Hraise. exact (proj1 (handler_error_passes (He e Hraise))).
Qed.

(* ------------------------------------------------------------------ *)
(** *** The loop *)

(** Either some frame stops the loop, however the stream would have
    ended, or every frame passes and the end of the stream is met. *)
Lemma listen_loop_cases frames :
  forall w,
    (exists out e,
        frame_error e
        /\ forall ending, listen_loop frames ending w = (Raise e, emit out w))
    \/ (exists out,
           forall ending,
             listen_loop frames ending w = listen_loop [] ending (emit out w)).
Proof.
  induction frames as [|fr frames IH]; intro w.
  - right. exists []. intro ending. rewrite emit_nil. reflexivity.
  - destruct (prints_only_handle_frame fr w) as [out [Hw He]].
    destruct (handle_frame fr w) as [[[]|e] w1] eqn:Hfr; simpl in Hw; subst w1.
    + destruct (IH (emit out w)) as [[out' [e [Herr Hrun]]] | [out' Hrun]].
      * left. exists (out ++ out'), e. split; [exact Herr|].
        intro ending. cbn [listen_loop]. unfold bind. rewrite Hfr, Hrun, emit_emit.
        reflexivity.
      * right. exists (out ++ out'). intro ending.
        cbn [listen_loop]. unfold bind at 1. rewrite Hfr, Hrun, emit_emit. reflexivity.
    + left. exists out, e. split; [apply He; reflexivity|].
      intro ending. cbn [listen_loop]. unfold bind. rewrite Hfr. reflexivity.
Qed.

End HandlerEffects.

(* ================================================================== *)
(** ** The message handler *)

Section HandlerClaims.

Context {builtins : Builtins}.

(** C1, as amended.  A [sync] message whose payload is an object is
    dispatched on the payload.  With an [error] key the handler writes
    exactly one line, the error line showing its value, and so neither
    a status line nor a preview; failing that, with a [message] key it
    writes exactly one status line showing its value; failing both it
    handles the payload as a new clipboard item: nothing is printed
    when the item has no truthy [type], the preview line is written
    when its [content] is a string or absent, and an error is raised
    with nothing printed when its [content] is anything else.  Writing
    a line prints it when it can be encoded; when it cannot, as with a
    value that holds a lone surrogate, nothing is printed and
    [UnicodeEncodeError] is raised.  For the message
    [{type: sync, data: {error: boom}}] the output is the one error
    line ending in [boom]. *)
Theorem sync_payload_dispatch :
  (forall ts d p w,
      dict_get d (lit "type") = Some (PStr (lit "sync")) ->
      dict_get d (lit "data") = Some (PDict p) ->
      handle_message ts (PDict d) w =
        match dict_get p (lit "error") with
        | Some err => write_lines [lit "[" ++ chars ts ++ lit "] ❌ 错误: " ++ py_str err] w
        | None =>
            match dict_get p (lit "message") with
            | Some msg => write_lines [lit "[" ++ chars ts ++ lit "] ✅ " ++ py_str msg] w
            | None =>
                if truthy (field_or p (lit "type") PNone) then
                  match field_or p (lit "content") (PStr []) with
                  | PStr content =>
                      write_lines
                        [lit "[" ++ chars ts ++ lit "] 🆕 新内容: "
                         ++ py_str (field_or p (lit "type") PNone) ++ lit " - "
                         ++ str_replace (str_slice content 100) NEWLINE SPACE ++ lit "..."] w
                  | other => (Raise (content_error other), w)
                  end
                else (Ok tt, w)
            end
        end)
  /\ (forall line w,
         write_lines [line] w =
           if encodable line then (Ok tt, emit [line] w)
           else (Raise (unicode_encode_error line), w))
  /\ (forall ts w,
         handle_message ts boom_message w =
           (Ok tt, emit [lit "[" ++ chars ts ++ lit "] ❌ 错误: boom"] w)).
Proof.
  split; [|split].
  - intros ts d p w Htype Hdata.
    rewrite handle_message_sync by exact Htype. rewrite Hdata.
    destruct (dict_get p (lit "error")); [reflexivity|].
    destruct (dict_get p (lit "message")); [reflexivity|].
    destruct (truthy (field_or p (lit "type") PNone)) eqn:Hty;
      [|apply print_new_item_silent; exact Hty].
    unfold field_or in Hty |- *.
    destruct (dict_get p (lit "type")) as [ty|] eqn:Hp; [|discriminate].
    destruct (dict_get p (lit "content")) as [v|] eqn:Hc.
    + destruct (is_str v) eqn:Hv.
      * destruct v; try discriminate.
        apply print_new_item_shown; [assumption | assumption|].
        unfold field_str. rewrite Hc. reflexivity.
      * rewrite (@print_new_item_bad_content _ ts p ty v w Hp Hty Hc Hv).
        destruct v; try discriminate; reflexivity.
    + apply print_new_item_shown; [assumption | assumption|].
      unfold field_str. rewrite Hc. reflexivity.
  - intros line w. reflexivity.
  - intros ts w. apply handle_message_one_line; by_computation.
Qed.

(** C2, as amended.  For a [sync] message whose payload is an object
    with no [error] and no [message] key, a truthy [type], and a
    [content] that is a string (an absent one reads as empty), the
    handler writes exactly one line: the timestamp, the marker, the
    type, and the first 100 characters of the content with every
    newline replaced by a space, followed by three dots; the preview
    has at most 100 characters and no newline.  The line is printed and
    the handler returns when what it shows of the type and of the
    content can be encoded; when the line cannot be encoded nothing is
    printed and [UnicodeEncodeError] is raised.  When the [type] of the
    payload is absent or falsy nothing is printed.  For a content of
    150 letters A the line shows exactly 100 of them. *)
Theorem new_item_preview :
  (forall ts d p ty content w,
      dict_get d (lit "type") = Some (PStr (lit "sync")) ->
      dict_get d (lit "data") = Some (PDict p) ->
      dict_get p (lit "error") = None ->
      dict_get p (lit "message") = None ->
      dict_get p (lit "type") = Some ty ->
      truthy ty = true ->
      field_str p (lit "content") = Some content ->
      let preview := str_replace (str_slice content 100) NEWLINE SPACE in
      let line := lit "[" ++ chars ts ++ lit "] 🆕 新内容: " ++ py_str ty ++ lit " - "
                  ++ preview ++ lit "..." in
      handle_message ts (PDict d) w =
        (if encodable line then (Ok tt, emit [line] w)
         else (Raise (unicode_encode_error line), w))
      /\ length preview = Nat.min 100 (length content)
      /\ ~ In NEWLINE preview
      /\ encodable line = encodable (py_str ty) && encodable (str_slice content 100))
  /\ (forall ts d p w,
         dict_get d (lit "type") = Some (PStr (lit "sync")) ->
         dict_get d (lit "data") = Some (PDict p) ->
         dict_get p (lit "error") = None ->
         dict_get p (lit "message") = None ->
         truthy (field_or p (lit "type") PNone) = false ->
         handle_message ts (PDict d) w = (Ok tt, w))
  /\ (forall ts w,
         handle_message ts long_text_message w =
           (Ok tt, emit [lit "[" ++ chars ts ++ lit "] 🆕 新内容: text - "
                         ++ str_mul (lit "A") 100 ++ lit "..."] w)).
Proof.
  assert (Hshown : forall ts d p ty content w,
             dict_get d (lit "type") = Some (PStr (lit "sync")) ->
             dict_get d (lit "data") = Some (PDict p) ->
             dict_get p (lit "error") = None ->
             dict_get p (lit "message") = None ->
             dict_get p (lit "type") = Some ty ->
             truthy ty = true ->
             field_str p (lit "content") = Some content ->
             handle_message ts (PDict d) w = write_lines [preview_line ts ty content] w).
  { intros ts d p ty content w Htype Hdata Herr Hmsg Hty Htruthy Hcontent.
    rewrite handle_message_sync by exact Htype. rewrite Hdata, Herr, Hmsg.
    apply print_new_item_shown; assumption. }
  assert (Hreplace : forall s, encodable (str_replace s NEWLINE SPACE) = encodable s).
  { induction s as [|c s IH]; [reflexivity|].
    cbn [str_replace map encodable forallb]. unfold str_replace, encodable in IH.
    rewrite IH. destruct (N.eqb_spec c NEWLINE) as [->|]; reflexivity. }
  split; [|split].
  - intros ts d p ty content w Htype Hdata Herr Hmsg Hty Htruthy Hcontent preview line.
    split; [|split; [|split]].
    + rewrite (Hshown ts d p ty content w) by assumption. reflexivity.
    + unfold preview. rewrite str_replace_length. apply str_slice_length.
    + apply str_replace_removes. discriminate.
    + unfold line, preview. rewrite !encodable_app, Hreplace, chars_encodable.
      change (encodable (lit "[")) with true.
      change (encodable (lit "] 🆕 新内容: ")) with true.
      change (encodable (lit " - ")) with true.
      change (encodable (lit "...")) with true.
      rewrite !andb_true_r. reflexivity.
  - intros ts d p w Htype Hdata Herr Hmsg Hfalsy.
    rewrite handle_message_sync by exact Htype. rewrite Hdata, Herr, Hmsg.
    apply print_new_item_silent. exact Hfalsy.
  - intros ts w. apply handle_message_one_line; by_computation.
Qed.

(** C3, as amended.  For an [all_content] message whose [data] is an
    array (an absent one reads as empty) and whose first three items
    are objects with string or absent [createdAt] and [content], the
    handler writes the count line, showing the [count] field or, when
    that is absent, the number of items; then, when the array is not
    empty, a heading and one line for each of the first three items at
    most, showing its rank, the first 19 characters of [createdAt] with
    every T replaced by a space, its type, and the first 80 characters
    of [content] with every newline replaced by a space.  When all
    these lines can be encoded they are all printed and the handler
    returns; otherwise the lines before the first that cannot are
    printed and [UnicodeEncodeError] is raised.  With an empty array
    and count 0 the output is the one line reporting 0. *)
Theorem all_content_listing :
  (forall ts d items w,
      dict_get d (lit "type") = Some (PStr (lit "all_content")) ->
      field_or d (lit "data") (PList []) = PList items ->
      forallb item_ok (firstn 3 items) = true ->
      let lines :=
        (lit "[" ++ chars ts ++ lit "] 📋 当前内容总数: "
         ++ py_str (field_or d (lit "count") (PInt (Z.of_nat (length items))))
         ++ lit " 条")
        :: match items with
           | [] => []
           | _ :: _ => lit "最新的3条内容:" :: item_lines items
           end in
      handle_message ts (PDict d) w = write_lines lines w
      /\ length (item_lines items) = Nat.min 3 (length items)
      /\ (forallb encodable lines = true ->
          handle_message ts (PDict d) w = (Ok tt, emit lines w))
      /\ (forall good bad rest,
             lines = good ++ bad :: rest ->
             forallb encodable good = true -> encodable bad = false ->
             handle_message ts (PDict d) w =
               (Raise (unicode_encode_error bad), emit good w)))
  /\ (forall ts w,
         handle_message ts empty_listing_message w =
           (Ok tt, emit [lit "[" ++ chars ts ++ lit "] 📋 当前内容总数: 0 条"] w)).
Proof.
  split.
  - intros ts d items w Htype Hdata Hok lines.
    assert (Hrun : handle_message ts (PDict d) w = write_lines lines w)
      by (apply handle_message_all_content; assumption).
    split; [exact Hrun | split; [|split]].
    + unfold item_lines, enumerate.
      rewrite length_map, length_combine, length_seq, Nat.min_id.
      apply length_firstn.
    + intro Hall. rewrite Hrun. apply write_lines_all. exact Hall.
    + intros good bad rest Hsplit Hgood Hbad. rewrite Hrun, Hsplit.
      apply write_lines_stops; assumption.
  - intros ts w. apply handle_message_one_line; by_computation.
Qed.

(** C10.  A message with no [type] field at all takes the fallback
    branch under the substitute tag: the handler returns normally and
    prints exactly one line, the unrecognized-message notice showing
    [unknown]. *)
Theorem missing_type_falls_back :
  forall ts d w,
    dict_get d (lit "type") = None ->
    handle_message ts (PDict d) w =
      (Ok tt, emit [lit "[" ++ chars ts ++ lit "] 📨 收到消息: unknown"] w).
Proof.
  intros ts d w Htype.
  rewrite handle_message_other; unfold field_or; rewrite Htype; try reflexivity.
  cbn [py_str].
  rewrite write_lines_all by all_printable.
  reflexivity.
Qed.

End HandlerClaims.

Section HandlerRobustness.

Context {builtins : Builtins}.

Lemma rendering_silent ts d :
  fields_well_typed d = true -> silent_sync d = true -> rendering ts d = [].
Proof.
  intros Hwt Hsilent. unfold fields_well_typed, silent_sync in *.
  unfold rendering. cbv zeta. unfold field_or in *.
  destruct (dict_get d (lit "type")) as [[| | | | t | |]|]; try discriminate.
  cbn [py_eq_str]. apply andb_true_iff in Hsilent as [Esync Hdata]. rewrite Esync.
  destruct (dict_get d (lit "data")) as [[| | | | | |p]|]; try reflexivity.
  destruct (dict_get p (lit "error")); [discriminate|].
  destruct (dict_get p (lit "message")); [discriminate|].
  match goal with |- context [truthy ?v] => destruct (truthy v) end;
    [discriminate | reflexivity].
Qed.

(** C6, as amended.  For every inbound JSON object whose fields, where
    present, have the JSON types the handler reads them at, the handler
    writes the lines of the rendering, in which an absent field reads
    as its default: [unknown] for [id] and for the message type, the
    number of items for [count], the empty array or object for [data],
    0 for [activeConnections], and for an item the empty string for
    [createdAt] and [content] and None for [type].  There is at least
    one line, except on the [sync] messages the handler is silent on by
    its guards: a payload that is not an object, or an item payload
    whose [type] is absent or falsy.  When every line can be encoded
    the handler prints them all and returns normally; it raises only
    when a line cannot be encoded. *)
Theorem handler_degrades_gracefully :
  (forall ts d w,
      fields_well_typed d = true ->
      handle_message ts (PDict d) w = write_lines (rendering ts d) w
      /\ (if silent_sync d then rendering ts d = []
          else exists line more, rendering ts d = line :: more)
      /\ (forallb encodable (rendering ts d) = true ->
          handle_message ts (PDict d) w = (Ok tt, emit (rendering ts d) w))
      /\ (forall e w', handle_message ts (PDict d) w = (Raise e, w') ->
                       exists line, In line (rendering ts d) /\ encodable line = false
                                    /\ e = unicode_encode_error line))
  /\ (forall ts w,
         handle_message ts bare_delete_message w =
           (Ok tt, emit [lit "[" ++ chars ts ++ lit "] 🗑️ 内容已删除: unknown"] w)
         /\ handle_message ts (PDict [(lit "type", PStr (lit "all_content"))]) w =
              (Ok tt, emit [lit "[" ++ chars ts ++ lit "] 📋 当前内容总数: 0 条"] w)
         /\ handle_message ts
              (PDict [(lit "type", PStr (lit "all_content"));
                      (lit "data", PList [PDict []; PDict []])]) w =
              (Ok tt, emit [lit "[" ++ chars ts ++ lit "] 📋 当前内容总数: 2 条";
                            lit "最新的3条内容:";
                            lit "  1. [] None: ...";
                            lit "  2. [] None: ..."] w)
         /\ handle_message ts (PDict [(lit "type", PStr (lit "connection_stats"))]) w =
              (Ok tt, emit [lit "[" ++ chars ts ++ lit "] 📊 连接统计: 0 个活跃连接"] w)
         /\ handle_message ts
              (PDict [(lit "type", PStr (lit "sync"));
                      (lit "data", PDict [(lit "type", PStr (lit "text"))])]) w =
              (Ok tt, emit [lit "[" ++ chars ts ++ lit "] 🆕 新内容: text - ..."] w)
         /\ handle_message ts (PDict []) w =
              (Ok tt, emit [lit "[" ++ chars ts ++ lit "] 📨 收到消息: unknown"] w)).
Proof.
  split.
  - intros ts d w Hwt.
    assert (Hrun := @handle_message_renders _ ts d w Hwt).
    split; [exact Hrun | split; [|split]].
    + destruct (silent_sync d) eqn:Hsilent.
      * apply rendering_silent; assumption.
      * apply rendering_not_empty; assumption.
    + intro Hall. rewrite Hrun. apply write_lines_all. exact Hall.
    + rewrite Hrun. clear Hrun. generalize (rendering ts d). intro lines.
      revert w. induction lines as [|line lines IH]; intros w e w'; cbn [write_lines].
      * discriminate.
      * destruct (encodable line) eqn:Hline.
        -- intro H. destruct (IH _ _ _ H) as [bad [Hin Hbad]].
           exists bad. split; [right; exact Hin | exact Hbad].
        -- intros [= <- _]. exists line. split; [left; reflexivity|]. split; [exact Hline|].
           reflexivity.
  - intros ts w.
    repeat split.
    + apply handle_message_one_line; by_computation.
    + apply handle_message_one_line; by_computation.
    + rewrite handle_message_renders by by_computation.
      assert (Hr : rendering ts [(lit "type", PStr (lit "all_content"));
                                 (lit "data", PList [PDict []; PDict []])] =
                   [lit "[" ++ chars ts ++ lit "] 📋 当前内容总数: 2 条";
                    lit "最新的3条内容:"; lit "  1. [] None: ..."; lit "  2. [] None: ..."])
        by by_computation.
      rewrite Hr. apply write_lines_all. all_printable.
    + apply handle_message_one_line; by_computation.
    + apply handle_message_one_line; by_computation.
    + apply handle_message_one_line; by_computation.
Qed.

End HandlerRobustness.

(* ================================================================== *)
(** ** The handler reads no state *)

Section Steady.

Context {builtins : Builtins}.
Variable P : exn -> Prop.
Hypothesis P_encode : forall line, P (unicode_encode_error line).

Lemma steady_ret {A} (a : A) : steady P (ret a).
Proof.
  exists (Ok a), []. split; [|discriminate].
  intro w. rewrite emit_nil. reflexivity.
Qed.

Lemma steady_print (line : pystr) : steady P (print line).
Proof.
  unfold print. destruct (encodable line).
  - exists (Ok tt), [line]. split; [reflexivity | discriminate].
  - exists (Raise (unicode_encode_error line)), []. split.
    + intro w. rewrite emit_nil. reflexivity.
    + intros e [= <-]. apply P_encode.
Qed.

Lemma steady_raise {A} (e : exn) : P e -> steady P (@raise A e).
Proof.
  intro He. exists (Raise e), []. split.
  - intro w. rewrite emit_nil. reflexivity.
  - intros e' [= <-]. exact He.
Qed.

Lemma steady_bind {A B} (c : Py A) (k : A -> Py B) :
  steady P c -> (forall a, steady P (k a)) -> steady P (bind c k).
Proof.
  intros [[a|e] [out [Hc He]]] Hk.
  - destruct (Hk a) as [r' [out' [Hk' He']]].
    exists r', (out ++ out'). split; [|exact He'].
    intro w. unfold bind. rewrite Hc, Hk', emit_emit. reflexivity.
  - exists (Raise e), out. split.
    + intro w. unfold bind. rewrite Hc. reflexivity.
    + intros e' [= <-]. apply He. reflexivity.
Qed.

Lemma steady_for_each {A} (l : list A) (body : A -> Py unit) :
  (forall a, steady P (body a)) -> steady P (for_each l body).
Proof.
  intro Hbody. induction l as [|a l IH]; simpl.
  - apply steady_ret.
  - apply steady_bind; [apply Hbody | intros _; exact IH].
Qed.

End Steady.

Section HandlerSteady.

Context {builtins : Builtins}.

Local Abbreviation handler_steady := (steady handler_error).

Lemma steady_handler_print line : handler_steady (print line).
Proof. apply steady_print. exact handler_error_encode. Qed.

Lemma steady_py_get o k dflt : handler_steady (py_get o k dflt).
Proof.
  destruct o; simpl; try apply steady_ret; apply steady_raise; right; left; reflexivity.
Qed.

Lemma steady_py_len v : handler_steady (py_len v).
Proof.
  destruct v; simpl; try apply steady_ret; apply steady_raise; left; reflexivity.
Qed.

Lemma steady_py_slice v n : handler_steady (py_slice v n).
Proof.
  destruct v; simpl; try apply steady_ret; apply steady_raise;
    first [apply handler_error_slice_as_key | left; reflexivity].
Qed.

Lemma steady_py_replace v old new : handler_steady (py_replace v old new).
Proof.
  destruct v; simpl; try apply steady_ret; apply steady_raise; right; left; reflexivity.
Qed.

Lemma steady_py_iter v : handler_steady (py_iter v).
Proof.
  destruct v; simpl; try apply steady_ret; apply steady_raise; left; reflexivity.
Qed.

Ltac steady_steps :=
  repeat first
    [ apply steady_ret
    | apply steady_handler_print
    | apply steady_py_get
    | apply steady_py_len
    | apply steady_py_slice
    | apply steady_py_replace
    | apply steady_py_iter
    | apply steady_bind; [|intro]
    | match goal with
      | |- steady _ (if ?b then _ else _) => destruct b
      | |- steady _ (match ?x with _ => _ end) => destruct x
      end ].

Lemma steady_print_item i item : handler_steady (print_item i item).
Proof. unfold print_item. steady_steps. Qed.

Lemma steady_handle_message ts data : handler_steady (handle_message ts data).
Proof.
  unfold handle_message. steady_steps.
  apply steady_for_each. intros [i item]. apply steady_print_item.
Qed.

(** X1.  Whatever value it is given, the handler only prints: its
    outcome and the lines it prints depend on the message and the
    timestamp alone, never on the monitor or on what was printed
    before; it leaves the monitor as it was and keeps the earlier
    output.  The exceptions it raises are [TypeError],
    [AttributeError], [KeyError] (an object sliced, on an interpreter
    that hashes slices) and [UnicodeEncodeError] (a line that cannot
    be encoded), and no others; each is under [Exception]. *)
Theorem handle_message_reads_no_state :
  forall ts data,
  exists r out,
    (forall w, handle_message ts data w = (r, mk_world (self w) (stdout w ++ out)))
    /\ match r with
       | Ok _ => True
       | Raise e =>
           (exn_cls e = TypeError \/ exn_cls e = AttributeError
            \/ exn_cls e = KeyError \/ exn_cls e = UnicodeEncodeError)
           /\ is_Exception e = true
       end.
Proof.
  intros ts data. destruct (steady_handle_message ts data) as [r [out [Hrun He]]].
  exists r, out. split; [exact Hrun|].
  destruct r as [u|e]; [trivial|].
  split; [apply He; reflexivity|].
  exact (proj1 (proj1 (handler_error_passes (He e eq_refl)))).
Qed.

End HandlerSteady.

(* ================================================================== *)
(** ** How much the handler prints *)

Section AtMost.

Context {builtins : Builtins}.

Lemma at_most_weaken {A} (n m : nat) (c : Py A) :
  (n <= m)%nat -> at_most n c -> at_most m c.
Proof.
  intros Hnm Hc w. destruct (Hc w) as [out [Hw Hlen]].
  exists out. split; [assumption | lia].
Qed.

Lemma at_most_ret {A} (a : A) : at_most 0 (ret a).
Proof. intro w. exists []. rewrite emit_nil. split; [reflexivity | simpl; lia]. Qed.

Lemma at_most_raise {A} (e : exn) : at_most 0 (@raise A e).
Proof. intro w. exists []. rewrite emit_nil. split; [reflexivity | simpl; lia]. Qed.

Lemma at_most_print (line : pystr) : at_most 1 (print line).
Proof.
  intro w. unfold print. destruct (encodable line).
  - exists [line]. split; [reflexivity | simpl; lia].
  - exists []. rewrite emit_nil. split; [reflexivity | simpl; lia].
Qed.

Lemma at_most_bind {A B} (n m : nat) (c : Py A) (k : A -> Py B) :
  at_most n c -> (forall a, at_most m (k a)) -> at_most (n + m) (bind c k).
Proof.
  intros Hc Hk w. unfold bind. destruct (Hc w) as [out [Hw Hlen]].
  destruct (c w) as [[a|e] w']; simpl in Hw; subst w'.
  - destruct (Hk a (emit out w)) as [out' [Hw' Hlen']].
    exists (out ++ out'). rewrite <- emit_emit, length_app. split; [assumption | lia].
  - exists out. split; [reflexivity | lia].
Qed.

Lemma at_most_py_get o k dflt : at_most 0 (py_get o k dflt).
Proof. destruct o; simpl; try apply at_most_ret; apply at_most_raise. Qed.

Lemma at_most_py_len v : at_most 0 (py_len v).
Proof. destruct v; simpl; try apply at_most_ret; apply at_most_raise. Qed.

Lemma at_most_py_slice v n : at_most 0 (py_slice v n).
Proof. destruct v; simpl; try apply at_most_ret; apply at_most_raise. Qed.

Lemma at_most_py_replace v old new : at_most 0 (py_replace v old new).
Proof. destruct v; simpl; try apply at_most_ret; apply at_most_raise. Qed.

Lemma at_most_print_item i item : at_most 1 (print_item i item).
Proof.
  unfold print_item.
  repeat (apply (@at_most_bind _ _ 0);
          [first [apply at_most_py_get | apply at_most_py_slice | apply at_most_py_replace]
          | intro]).
  apply at_most_print.
Qed.

Lemma at_most_print_new_item ts item : at_most 1 (print_new_item ts item).
Proof.
  unfold print_new_item.
  apply (@at_most_bind _ _ 0); [apply at_most_py_get | intro ty].
  destruct (truthy ty).
  - repeat (apply (@at_most_bind _ _ 0);
            [first [apply at_most_py_get | apply at_most_py_slice | apply at_most_py_replace]
            | intro]).
    apply at_most_print.
  - apply at_most_weaken with (n := O); [lia | apply at_most_ret].
Qed.

Lemma at_most_for_each (l : list (nat * pyval)) :
  at_most (length l) (for_each l (fun '(i, item) => print_item i item)).
Proof.
  induction l as [|[i item] l IH]; simpl.
  - apply at_most_ret.
  - apply (@at_most_bind _ _ 1); [apply at_most_print_item | intros _; exact IH].
Qed.

(** The loop over [enumerate(items[:3])]. *)
Lemma at_most_listing items :
  at_most 3 (first3 <- py_slice items 3 ;;
             elements <- py_iter first3 ;;
             for_each (enumerate elements) (fun '(i, item) => print_item i item)).
Proof.
  assert (Hloop : forall elements : list pyval,
             (length elements <= 3)%nat ->
             at_most 3 (for_each (enumerate elements)
                          (fun '(i, item) => print_item i item))).
  { intros elements Hlen.
    apply at_most_weaken with (n := length (enumerate elements));
      [|apply at_most_for_each].
    unfold enumerate. rewrite length_combine, length_seq. lia. }
  destruct items as [| b | z | f | s | l | d]; unfold py_slice;
    try (intro w; exists []; rewrite emit_nil; split; [reflexivity | simpl; lia]).
  - intro w. unfold bind, ret, py_iter. cbv iota beta.
    apply Hloop. unfold str_slice. rewrite length_map, length_firstn. lia.
  - intro w. unfold bind, ret, py_iter. cbv iota beta.
    apply Hloop. rewrite length_firstn. lia.
Qed.

(** X2.  Whatever value it is given, and however many items a listing
    holds, the handler prints at most five lines: the count, the
    heading, and three items.  A listing of four items, the last of
    them no object, reaches the five. *)
Theorem handle_message_prints_at_most_five_lines :
  (forall ts data w,
      (length (output_of (handle_message ts data) w) <= 5)%nat)
  /\ (forall ts w,
         length (output_of (handle_message ts three_item_listing_message) w) = 5%nat).
Proof.
  split.
  2: { intros ts w.
       assert (H := @handle_message_all_content builtins ts
                      [(lit "type", PStr (lit "all_content"));
                       (lit "data",
                        PList [PDict [(lit "content", PStr (lit "one"))];
                               PDict [(lit "content", PStr (lit "two"))];
                               PDict [(lit "content", PStr (lit "three"))];
                               PInt 4]);
                       (lit "count", PInt 4)]
                      [PDict [(lit "content", PStr (lit "one"))];
                       PDict [(lit "content", PStr (lit "two"))];
                       PDict [(lit "content", PStr (lit "three"))];
                       PInt 4] w
                      ltac:(vm_compute; reflexivity) ltac:(vm_compute; reflexivity)
                      ltac:(vm_compute; reflexivity)).
       rewrite write_lines_all in H.
       - unfold three_item_listing_message.
         rewrite (@output_of_emit _ _ _ _ (f_equal snd H)). reflexivity.
       - unfold item_lines, enumerate. cbn [firstn length seq combine map].
         all_printable. }
  intros ts data w.
  assert (H : at_most 5 (handle_message ts data)).
  { unfold handle_message.
    apply (@at_most_bind _ _ 0 5); [apply at_most_py_get | intro mt].
    destruct (py_eq_str mt (lit "sync")).
    { apply (@at_most_bind _ _ 0 5); [apply at_most_py_get | intro payload].
      apply at_most_weaken with (n := 1%nat); [lia|].
      destruct payload; try (apply at_most_weaken with (n := O); [lia | apply at_most_ret]).
      destruct (dict_get d (lit "error")); [apply at_most_print|].
      destruct (dict_get d (lit "message")); [apply at_most_print|].
      apply at_most_print_new_item. }
    destruct (py_eq_str mt (lit "delete")).
    { apply at_most_weaken with (n := (0 + 1)%nat); [lia|].
      apply at_most_bind; [apply at_most_py_get | intro; apply at_most_print]. }
    destruct (py_eq_str mt (lit "all_content")).
    { apply (@at_most_bind _ _ 0 5); [apply at_most_py_get | intro items].
      apply (@at_most_bind _ _ 0 5); [apply at_most_py_len | intro n].
      apply (@at_most_bind _ _ 0 5); [apply at_most_py_get | intro count].
      apply (@at_most_bind _ _ 1 4); [apply at_most_print | intros _].
      destruct (truthy items);
        [|apply at_most_weaken with (n := O); [lia | apply at_most_ret]].
      apply (@at_most_bind _ _ 1 3); [apply at_most_print | intros _].
      apply at_most_listing. }
    destruct (py_eq_str mt (lit "connection_stats")).
    { apply at_most_weaken with (n := (0 + (0 + 1))%nat); [lia|].
      apply at_most_bind; [apply at_most_py_get | intro].
      apply at_most_bind; [apply at_most_py_get | intro; apply at_most_print]. }
    apply at_most_weaken with (n := 1%nat); [lia | apply at_most_print]. }
  destruct (H w) as [out [Hw Hlen]].
  rewrite (@output_of_emit _ _ _ _ Hw). exact Hlen.
Qed.

End AtMost.

(* ================================================================== *)
(** ** The listen loop *)

Section Listening.

Context {builtins : Builtins}.

Lemma listen_messages_connected frames ending w c :
  websocket (self w) = Some c ->
  listen_messages frames ending w = try_except (listen_loop frames ending) listen_clauses w.
Proof.
  intro H. unfold listen_messages, bind, get_self. rewrite H. reflexivity.
Qed.

Lemma listen_messages_unconnected frames ending w :
  websocket (self w) = None -> listen_messages frames ending w = (Ok tt, w).
Proof.
  intro H. unfold listen_messages, bind, get_self. rewrite H. reflexivity.
Qed.

(** The frames passed, the end of the stream is met. *)
Lemma listen_end ending w c :
  websocket (self w) = Some c ->
  try_except (listen_loop [] ending) listen_clauses w = after_stream ending w.
Proof.
  intro Hws. unfold try_except, after_stream, lose_connection. cbn [listen_loop].
  destruct ending as [why|e].
  - unfold connection_lost, bind, get_self. rewrite Hws. reflexivity.
  - unfold bind. destruct (is_a ConnectionClosed e) eqn:Hclosed.
    + unfold connection_lost, bind, get_self. rewrite Hws.
      unfold assign_websocket, raise, listen_clauses. cbn [find_handler]. rewrite Hclosed.
      unfold bind. rewrite print_ok by printable. reflexivity.
    + unfold ret, raise, listen_clauses. cbn [find_handler]. rewrite Hclosed.
      destruct (is_Exception e); [|reflexivity].
      unfold bind. rewrite print_ok by printable. reflexivity.
Qed.

(** A frame stopped the loop: the outer handler logs the error and
    clears the flag. *)
Lemma listen_stopped (body : Py unit) e w out :
  frame_error e ->
  body w = (Raise e, emit out w) ->
  try_except body listen_clauses w =
    (Ok tt, mk_world (set_running false (self w))
              (stdout w ++ out ++ [lit "❌ 监听出错: " ++ chars (exn_msg e)])).
Proof.
  intros [Hexc Hclosed] Hbody. unfold try_except. rewrite Hbody.
  unfold listen_clauses. cbn [find_handler]. rewrite Hclosed, Hexc.
  unfold bind. rewrite print_ok by printable.
  unfold assign_running, emit. cbn [self stdout]. rewrite <- app_assoc. reflexivity.
Qed.

(** The two ways [listen_messages] goes on a monitor that holds a
    connection. *)
Lemma listen_messages_cases frames ending w c :
  websocket (self w) = Some c ->
  (exists out e,
      frame_error e
      /\ (forall ending', listen_loop frames ending' w = (Raise e, emit out w))
      /\ listen_messages frames ending w =
           (Ok tt, mk_world (set_running false (self w))
                     (stdout w ++ out ++ [lit "❌ 监听出错: " ++ chars (exn_msg e)])))
  \/ (exists out,
         (forall ending', listen_loop frames ending' w = listen_loop [] ending' (emit out w))
         /\ listen_messages frames ending w = after_stream ending (emit out w)).
Proof.
  intro Hws. rewrite (@listen_messages_connected frames ending w c Hws).
  destruct (listen_loop_cases frames w) as [[out [e [Herr Hrun]]] | [out Hrun]].
  - left. exists out, e. split; [exact Herr | split; [exact Hrun|]].
    apply listen_stopped; [exact Herr | apply Hrun].
  - right. exists out. split; [exact Hrun|].
    rewrite <- (@listen_end ending (emit out w) c Hws).
    unfold try_except. rewrite Hrun. reflexivity.
Qed.

Lemma handle_frame_anywhere fr w :
  handle_frame fr w = (fst (handle_frame fr fresh_world), emit (frame_lines fr) w).
Proof.
  assert (H : exists r out, forall w0, handle_frame fr w0 = (r, emit out w0)).
  { destruct (json_decode (frame_data fr)) as [e|v] eqn:Hd.
    - destruct (exn_class_eqb (exn_cls e) JSONDecodeError) eqn:Hcls.
      + assert (Hj : exn_cls e = JSONDecodeError)
          by (destruct (exn_cls e); try discriminate; reflexivity).
        exists (Ok tt), [failure_line e]. intro w0.
        exact (@handle_frame_rejected _ fr e w0 Hd Hj).
      + assert (Hj : exn_cls e <> JSONDecodeError)
          by (intro Heq; rewrite Heq in Hcls; discriminate).
        exists (Raise e), []. intro w0. rewrite emit_nil.
        exact (@handle_frame_refused _ fr e w0 Hd Hj).
    - destruct (steady_handle_message (frame_time fr) v) as [r [out [Hrun _]]].
      exists r, out. intro w0. rewrite (@handle_frame_decoded _ fr v w0 Hd). apply Hrun. }
  destruct H as [r [out Hrun]]. unfold frame_lines.
  rewrite (@output_of_emit _ _ _ out (f_equal snd (Hrun fresh_world))).
  rewrite (Hrun fresh_world). apply Hrun.
Qed.

(** Frames that all pass leave their lines, in order, and lead to the
    end of the stream. *)
Lemma listen_loop_passes frames :
  Forall (fun fr => fst (handle_frame fr fresh_world) = Ok tt) frames ->
  forall ending w,
    listen_loop frames ending w =
      listen_loop [] ending (emit (flat_map frame_lines frames) w).
Proof.
  induction 1 as [|fr frames Hfr _ IH]; intros ending w.
  - cbn [flat_map]. rewrite emit_nil. reflexivity.
  - cbn [listen_loop flat_map]. unfold bind at 1.
    rewrite (handle_frame_anywhere fr w), Hfr, IH, emit_emit. reflexivity.
Qed.

Lemma listen_messages_passes frames ending w c :
  websocket (self w) = Some c ->
  Forall (fun fr => fst (handle_frame fr fresh_world) = Ok tt) frames ->
  listen_messages frames ending w =
    after_stream ending (emit (flat_map frame_lines frames) w).
Proof.
  intros Hws Hall. rewrite (@listen_messages_connected frames ending w c Hws).
  rewrite <- (@listen_end ending (emit (flat_map frame_lines frames) w) c Hws).
  unfold try_except. rewrite (listen_loop_passes Hall). reflexivity.
Qed.

Lemma listen_loop_skips_rejected bads errs :
  Forall2 (fun fr e => json_decode (frame_data fr) = inl e
                       /\ exn_cls e = JSONDecodeError) bads errs ->
  forall rest ending w,
    listen_loop (bads ++ rest) ending w =
      listen_loop rest ending (emit (map failure_line errs) w).
Proof.
  induction 1 as [|fr e bads errs [Hfr Hcls] _ IH]; intros rest ending w;
    cbn [app map listen_loop].
  - rewrite emit_nil. reflexivity.
  - unfold bind. rewrite (@handle_frame_rejected _ fr e w Hfr Hcls).
    rewrite IH, emit_emit. reflexivity.
Qed.

(** X20.  A frame that [json.loads] rejects with [JSONDecodeError] does
    not end the listen loop: each such frame is logged with one line,
    and the loop goes on with the next frame exactly as it would have
    from there.  A valid frame that follows any number of such frames
    is decoded and handed to the message handler, and what the handler
    prints for it appears on the output right after the logged
    failures. *)
Theorem rejected_frames_do_not_stop_listening :
  forall bads errs good v rest ending w c,
    websocket (self w) = Some c ->
    Forall2 (fun fr e => json_decode (frame_data fr) = inl e
                         /\ exn_cls e = JSONDecodeError) bads errs ->
    json_decode (frame_data good) = inr v ->
    let logged := emit (map failure_line errs) w in
    listen_messages (bads ++ good :: rest) ending w =
      listen_messages (good :: rest) ending logged
    /\ listen_loop (good :: rest) ending logged =
         (handle_message (frame_time good) v ;; listen_loop rest ending) logged
    /\ exists later,
         stdout (snd (listen_messages (bads ++ good :: rest) ending w)) =
           stdout w ++ map failure_line errs
           ++ output_of (handle_message (frame_time good) v) logged ++ later.
Proof.
  intros bads errs good v rest ending w c Hws Hbads Hgood logged.
  assert (Hloop : listen_loop (good :: rest) ending logged =
                  (handle_message (frame_time good) v ;; listen_loop rest ending) logged).
  { cbn [listen_loop]. unfold bind.
    rewrite (@handle_frame_decoded _ good v logged Hgood). reflexivity. }
  assert (Hskip : listen_messages (bads ++ good :: rest) ending w =
                  listen_messages (good :: rest) ending logged).
  { rewrite (@listen_messages_connected _ ending w c Hws).
    rewrite (@listen_messages_connected _ ending logged c Hws).
    unfold try_except. rewrite (listen_loop_skips_rejected Hbads). reflexivity. }
  split; [exact Hskip | split; [exact Hloop|]].
  rewrite Hskip.
  assert (Hhead : snd (handle_message (frame_time good) v logged) =
                  emit (output_of (handle_message (frame_time good) v) logged) logged)
    by apply handle_message_prints.
  set (shown := output_of (handle_message (frame_time good) v) logged) in *.
  assert (Hafter : forall w1 : world,
             websocket (self w1) = Some c ->
             exists later,
               stdout (snd (listen_messages rest ending w1)) = stdout w1 ++ later).
  { intros w1 Hws1.
    destruct (@listen_messages_cases rest ending w1 c Hws1)
      as [[out [e [_ [_ Hrun]]]] | [out [_ Hrun]]]; rewrite Hrun.
    - eexists. reflexivity.
    - destruct ending as [why|e]; cbn [after_stream].
      + exists out. reflexivity.
      + destruct (is_a ConnectionClosed e); [|destruct (is_Exception e)];
          cbn [snd stdout emit]; rewrite <- ?app_assoc; eexists; reflexivity. }
  rewrite (@listen_messages_connected _ ending logged c Hws).
  unfold try_except. rewrite Hloop. unfold bind.
  destruct (handle_message (frame_time good) v logged) as [[[]|e] w1] eqn:Hhandled;
    cbn [snd] in Hhead; subst w1.
  - destruct (Hafter (emit shown logged) Hws) as [later Hlater].
    rewrite (@listen_messages_connected _ ending (emit shown logged) c Hws) in Hlater.
    unfold try_except in Hlater. exists later. rewrite Hlater.
    unfold logged. cbn [stdout emit]. rewrite <- !app_assoc. reflexivity.
  - destruct (prints_only_handle_message (frame_time good) v logged) as [out [_ He]].
    rewrite Hhandled in He.
    assert (Herr : frame_error e) by exact (proj1 (handler_error_passes (He e eq_refl))).
    destruct Herr as [Hexc Hclosed].
    unfold listen_clauses. cbn [find_handler]. rewrite Hclosed, Hexc.
    unfold bind. rewrite print_ok by printable.
    eexists. unfold logged, assign_running. cbn [snd stdout emit].
    rewrite <- !app_assoc. reflexivity.
Qed.

(** X21.  A frame that [json.loads] rejects with any other exception
    ([UnicodeDecodeError] for bytes that are not UTF-8, [RecursionError],
    [ValueError]) passes the inner [except] clause and ends the loop:
    the error is logged on the listen-error line, the running flag is
    cleared, and the frames after it are never handled. *)
Theorem undecodable_frame_ends_listening :
  forall fr e rest ending w c,
    websocket (self w) = Some c ->
    json_decode (frame_data fr) = inl e ->
    exn_cls e <> JSONDecodeError ->
    listen_messages (fr :: rest) ending w =
      (Ok tt, mk_world (set_running false (self w))
                (stdout w ++ [lit "❌ 监听出错: " ++ chars (exn_msg e)])).
Proof.
  intros fr e rest ending w c Hws Hd Hcls.
  rewrite (@listen_messages_connected _ ending w c Hws).
  rewrite (@listen_stopped _ e w []).
  - reflexivity.
  - exact (@json_decode_raises _ _ _ Hd).
  - cbn [listen_loop]. unfold bind.
    rewrite (@handle_frame_refused _ fr e w Hd Hcls), emit_nil. reflexivity.
Qed.

(** X22.  When the iteration of the connection ends by raising
    [ConnectionClosed], [listen_messages] returns normally with the
    running flag false, whatever frames came before; and when those
    frames all passed, its last line is the closed-connection notice
    and the connection is left closed, with the text of the exception
    for its reason. *)
Theorem connection_closed_ends_listening :
  forall frames e w c,
    websocket (self w) = Some c ->
    exn_cls e = ConnectionClosed ->
    fst (listen_messages frames (StreamRaises e) w) = Ok tt
    /\ running (self (snd (listen_messages frames (StreamRaises e) w))) = false
    /\ (Forall (fun fr => fst (handle_frame fr fresh_world) = Ok tt) frames ->
        listen_messages frames (StreamRaises e) w =
          (Ok tt,
           mk_world (mk_monitor (base_url (self w)) (device_id (self w)) (url (self w))
                       (Some (close_with (exn_msg e) c)) false)
             (stdout w ++ flat_map frame_lines frames ++ [lit "🔌 连接已关闭"]))).
Proof.
  intros frames e w c Hws He.
  assert (Hclosed : is_a ConnectionClosed e = true) by (unfold is_a; rewrite He; reflexivity).
  assert (Hend : forall out,
             after_stream (StreamRaises e) (emit out w) =
               (Ok tt,
                mk_world (mk_monitor (base_url (self w)) (device_id (self w)) (url (self w))
                            (Some (close_with (exn_msg e) c)) false)
                  (stdout w ++ out ++ [lit "🔌 连接已关闭"]))).
  { intro out. cbn [after_stream]. rewrite Hclosed. unfold lose_connection.
    cbn [self stdout emit]. rewrite Hws, <- app_assoc. reflexivity. }
  split; [|split].
  - destruct (@listen_messages_cases frames (StreamRaises e) w c Hws)
      as [[out [e' [_ [_ Hrun]]]] | [out [_ Hrun]]]; rewrite Hrun; [reflexivity|].
    rewrite Hend. reflexivity.
  - destruct (@listen_messages_cases frames (StreamRaises e) w c Hws)
      as [[out [e' [_ [_ Hrun]]]] | [out [_ Hrun]]]; rewrite Hrun; [reflexivity|].
    rewrite Hend. reflexivity.
  - intro Hall. rewrite (@listen_messages_passes frames _ w c Hws Hall). apply Hend.
Qed.

End Listening.

(* ================================================================== *)
(** ** Listening, in all its endings *)

Section ListeningEdges.

Context {builtins : Builtins}.

Lemma lose_connection_keeps why m :
  base_url (lose_connection why m) = base_url m
  /\ device_id (lose_connection why m) = device_id m
  /\ url (lose_connection why m) = url m
  /\ running (lose_connection why m) = running m
  /\ option_map conn_sent (websocket (lose_connection why m)) =
       option_map conn_sent (websocket m).
Proof.
  unfold lose_connection. destruct m as [b d u ws r]. destruct ws as [c|];
    cbn [set_websocket base_url device_id url running websocket option_map];
    repeat split; try reflexivity.
  unfold close_with. destruct (conn_closed c); reflexivity.
Qed.

(** X11.  [listen_messages] raises only what the iteration itself
    raised, and only when that is not under [Exception], as a
    cancellation of the listening task or an interrupt is: then the
    running flag is as it was.  In every other case it returns
    normally, whatever the frames and the handler do.  It never
    changes the addresses nor what was written to the connection, it
    only adds to the output, and the running flag is either left as it
    was or cleared, never set.  With no connection object it returns
    at once: nothing is handled and nothing printed, even when the
    stream would raise. *)
Theorem listen_messages_outcomes :
  forall frames ending w,
  exists r m out,
    listen_messages frames ending w = (r, mk_world m (stdout w ++ out))
    /\ base_url m = base_url (self w)
    /\ device_id m = device_id (self w)
    /\ url m = url (self w)
    /\ option_map conn_sent (websocket m) = option_map conn_sent (websocket (self w))
    /\ (running m = running (self w) \/ running m = false)
    /\ (forall e, r = Raise e ->
                  ending = StreamRaises e /\ is_Exception e = false
                  /\ running m = running (self w))
    /\ (websocket (self w) = None -> r = Ok tt /\ m = self w /\ out = []).
Proof.
  intros frames ending w.
  assert (Hcase : (exists c, websocket (self w) = Some c) \/ websocket (self w) = None)
    by (destruct (websocket (self w)) as [c|]; [left; exists c|right]; reflexivity).
  destruct Hcase as [[c Hws] | Hws].
  2: { exists (Ok tt), (self w), [].
       rewrite (@listen_messages_unconnected _ frames ending w Hws), app_nil_r.
       destruct w as [m out]. cbn [self stdout] in *.
       split; [reflexivity|]. do 4 (split; [reflexivity|]).
       split; [left; reflexivity|]. split; [discriminate|].
       intros _. repeat split. }
  destruct (@listen_messages_cases _ frames ending w c Hws)
    as [[out [e [_ [_ Hrun]]]] | [out [_ Hrun]]]; rewrite Hrun.
  - exists (Ok tt), (set_running false (self w)), (out ++ [lit "❌ 监听出错: " ++ chars (exn_msg e)]).
    cbn [set_running base_url device_id url websocket running].
    split; [reflexivity|]. do 4 (split; [reflexivity|]).
    split; [right; reflexivity|]. split; [discriminate|].
    rewrite Hws. discriminate.
  - destruct ending as [why|e]; cbn [after_stream].
    + destruct (lose_connection_keeps why (self w)) as [Hb [Hd [Hu [Hr Hs]]]].
      exists (Ok tt), (lose_connection why (self w)), out. cbn [self stdout emit].
      split; [reflexivity|]. do 4 (split; [assumption|]).
      split; [left; exact Hr|]. split; [discriminate|].
      rewrite Hws. discriminate.
    + destruct (lose_connection_keeps (exn_msg e) (self w)) as [Hb [Hd [Hu [Hr Hs]]]].
      destruct (is_a ConnectionClosed e) eqn:Hclosed; [|destruct (is_Exception e) eqn:Hexc].
      * exists (Ok tt), (set_running false (lose_connection (exn_msg e) (self w))),
          (out ++ [lit "🔌 连接已关闭"]).
        cbn [self stdout emit set_running base_url device_id url websocket running].
        rewrite <- app_assoc.
        split; [reflexivity|]. do 4 (split; [assumption|]).
        split; [right; reflexivity|]. split; [discriminate|].
        rewrite Hws. discriminate.
      * exists (Ok tt), (set_running false (self w)),
          (out ++ [lit "❌ 监听出错: " ++ chars (exn_msg e)]).
        cbn [self stdout emit set_running base_url device_id url websocket running].
        rewrite <- app_assoc.
        split; [reflexivity|]. do 4 (split; [reflexivity|]).
        split; [right; reflexivity|]. split; [discriminate|].
        rewrite Hws. discriminate.
      * exists (Raise e), (self w), out. cbn [self stdout emit].
        split; [reflexivity|]. do 4 (split; [reflexivity|]).
        split; [left; reflexivity|].
        split; [intros e' [= <-]; repeat split; exact Hexc|].
        rewrite Hws. discriminate.
Qed.

(** X12.  When the iteration raises anything but [ConnectionClosed]
    after frames that all passed, what happens goes by the class of
    the exception.  Under [Exception], [listen_messages] returns
    normally, its last line is the listen-error line with the text of
    the error, and the running flag is cleared.  Outside it, as for a
    cancellation, the exception goes through to the caller: nothing
    is logged and the running flag is not cleared. *)
Theorem transport_error_ends_listening :
  forall frames e w c,
    websocket (self w) = Some c ->
    exn_cls e <> ConnectionClosed ->
    Forall (fun fr => fst (handle_frame fr fresh_world) = Ok tt) frames ->
    listen_messages frames (StreamRaises e) w =
      if is_Exception e then
        (Ok tt, mk_world (set_running false (self w))
                  (stdout w ++ flat_map frame_lines frames
                   ++ [lit "❌ 监听出错: " ++ chars (exn_msg e)]))
      else (Raise e, mk_world (self w) (stdout w ++ flat_map frame_lines frames)).
Proof.
  intros frames e w c Hws He Hall.
  rewrite (@listen_messages_passes _ frames _ w c Hws Hall). cbn [after_stream].
  assert (Hnot : is_a ConnectionClosed e = false).
  { unfold is_a. destruct (exn_cls e); try reflexivity. contradiction. }
  rewrite Hnot. cbn [self stdout emit]. rewrite <- app_assoc. reflexivity.
Qed.

(** X13.  A frame that is valid JSON but that the handler raises on
    ends the loop, unlike a frame that is no JSON: the error is logged
    on the listen-error line, the running flag is cleared, and the
    frames after it are never handled, whatever they are and however
    the stream would have ended.  Every frame whose JSON value is no
    object is such a frame: the handler raises [AttributeError] on it
    before printing anything. *)
Theorem handler_error_ends_listening :
  (forall fr v e w1 rest ending w c,
      websocket (self w) = Some c ->
      json_decode (frame_data fr) = inr v ->
      handle_message (frame_time fr) v w = (Raise e, w1) ->
      listen_messages (fr :: rest) ending w =
        (Ok tt, mk_world (set_running false (self w1))
                  (stdout w1 ++ [lit "❌ 监听出错: " ++ chars (exn_msg e)])))
  /\ (forall ts v w,
         is_dict v = false ->
         handle_message ts v w = (Raise (attribute_error v "get"), w)).
Proof.
  split.
  - intros fr v e w1 rest ending w c Hws Hv Hraise.
    destruct (prints_only_handle_message (frame_time fr) v w) as [out [Hw He]].
    rewrite Hraise in Hw, He. cbn [fst snd] in Hw, He. subst w1.
    rewrite (@listen_messages_connected _ _ ending w c Hws).
    rewrite (@listen_stopped _ e w out).
    + cbn [self stdout emit]. rewrite <- app_assoc. reflexivity.
    + exact (proj1 (handler_error_passes (He e eq_refl))).
    + cbn [listen_loop]. unfold bind.
      rewrite (@handle_frame_decoded _ fr v w Hv), Hraise. reflexivity.
  - intros ts v w Hv. destruct v; try discriminate; reflexivity.
Qed.

(** X14.  While every frame is either rejected by the decoder as no
    JSON or handled without error, the output grows by the lines of
    each frame in the order of arrival, and the lines of a frame are
    the same wherever in the stream it stands; when the stream then
    simply ends, [listen_messages] returns with the running flag as it
    was: the close of the connection shows on the connection object
    only. *)
Theorem frames_are_handled_in_order :
  forall frames why w c,
    websocket (self w) = Some c ->
    Forall (fun fr => fst (handle_frame fr fresh_world) = Ok tt) frames ->
    listen_messages frames (EndOfStream why) w =
      (Ok tt,
       mk_world (mk_monitor (base_url (self w)) (device_id (self w)) (url (self w))
                   (Some (close_with why c)) (running (self w)))
         (stdout w ++ flat_map frame_lines frames)).
Proof.
  intros frames why w c Hws Hall.
  rewrite (@listen_messages_passes _ frames _ w c Hws Hall). cbn [after_stream].
  unfold lose_connection. cbn [self stdout emit]. rewrite Hws. reflexivity.
Qed.

End ListeningEdges.

(* ================================================================== *)
(** ** The branches of the handler, at their edges *)

Lemma is_prefix_refl (s : pystr) : is_prefix s s = true.
Proof.
  induction s as [|c s IH]; simpl; [reflexivity|].
  rewrite N.eqb_refl. exact IH.
Qed.

Lemma contains_suffix (pre s : pystr) : contains (pre ++ s) s = true.
Proof.
  induction pre as [|c pre IH].
  - destruct s; simpl; [reflexivity|].
    rewrite N.eqb_refl, is_prefix_refl. reflexivity.
  - change ((c :: pre) ++ s) with (c :: (pre ++ s)).
    cbn [contains]. rewrite IH. apply orb_true_r.
Qed.

Lemma py_eq_str_false (v : pyval) (s : pystr) :
  v <> PStr s -> py_eq_str v s = false.
Proof.
  intro Hne. destruct v; try reflexivity. simpl.
  destruct (pystr_eqb s0 s) eqn:E; [|reflexivity].
  apply pystr_eqb_eq in E. subst. contradiction.
Qed.

Lemma encodable_stamped (ts : text) (marker shown : pystr) :
  encodable marker = true ->
  encodable (lit "[" ++ chars ts ++ marker ++ shown) = encodable shown.
Proof.
  intro H. rewrite !encodable_app, chars_encodable, H. reflexivity.
Qed.

Lemma write_one (line : pystr) (w : world) (ok : bool) :
  encodable line = ok ->
  write_lines [line] w =
    if ok then (Ok tt, emit [line] w) else (Raise (unicode_encode_error line), w).
Proof. intros <-. reflexivity. Qed.

Section HandlerEdges.

Context {builtins : Builtins}.

(** X3.  A [delete] message makes the handler write exactly one line,
    which ends with the [id] as [str] shows it, whatever its JSON type,
    and with [unknown] when there is no [id]; an [id] that is a string
    stands in the line letter for letter.  The line is printed and the
    handler returns, except for an [id] that is a string that cannot be
    encoded: then nothing is printed and [UnicodeEncodeError] is
    raised.  An [id] that is absent or no string never makes the
    handler raise. *)
Theorem delete_shows_id :
  forall ts d w,
    dict_get d (lit "type") = Some (PStr (lit "delete")) ->
    let id := field_or d (lit "id") (PStr (lit "unknown")) in
    let line := lit "[" ++ chars ts ++ lit "] 🗑️ 内容已删除: " ++ py_str id in
    handle_message ts (PDict d) w =
      (if encodable (py_str id) then (Ok tt, emit [line] w)
       else (Raise (unicode_encode_error line), w))
    /\ (is_str id = false -> encodable (py_str id) = true)
    /\ (forall s, dict_get d (lit "id") = Some (PStr s) -> contains line s = true)
    /\ (dict_get d (lit "id") = None ->
        contains line (lit "unknown") = true /\ encodable (py_str id) = true).
Proof.
  intros ts d w Htype id line. split; [|split; [|split]].
  - rewrite handle_message_delete by exact Htype. fold id. fold line.
    apply write_one. unfold line. apply encodable_stamped. reflexivity.
  - apply encodable_py_str.
  - intros s Hid. unfold line, id, field_or. rewrite Hid. cbn [py_str].
    rewrite !app_assoc. apply contains_suffix.
  - intro Hid. unfold line, id, field_or. rewrite Hid. cbn [py_str].
    split; [|reflexivity]. rewrite !app_assoc. apply contains_suffix.
Qed.

(** X4.  A [connection_stats] message writes one line with the
    [activeConnections] of its [data], or 0 when [data] or the count
    is absent; the line is printed unless the count is a string that
    cannot be encoded, on which [UnicodeEncodeError] is raised with
    nothing printed.  A [data] that is present and no object, null
    included, makes the handler raise [AttributeError] before anything
    is printed. *)
Theorem connection_stats_line :
  forall ts d w,
    dict_get d (lit "type") = Some (PStr (lit "connection_stats")) ->
    handle_message ts (PDict d) w =
      match field_or d (lit "data") (PDict []) with
      | PDict f =>
          let active := field_or f (lit "activeConnections") (PInt 0) in
          let line := lit "[" ++ chars ts ++ lit "] 📊 连接统计: " ++ py_str active
                      ++ lit " 个活跃连接" in
          if encodable (py_str active) then (Ok tt, emit [line] w)
          else (Raise (unicode_encode_error line), w)
      | other => (Raise (attribute_error other "get"), w)
      end
    /\ (forall f,
           field_or d (lit "data") (PDict []) = PDict f ->
           is_str (field_or f (lit "activeConnections") (PInt 0)) = false ->
           encodable (py_str (field_or f (lit "activeConnections") (PInt 0))) = true).
Proof.
  intros ts d w Htype. split.
  - destruct (field_or d (lit "data") (PDict [])) as [| b | z | f | s | l | m] eqn:Hdata;
      try (unfold handle_message, bind, py_get, ret; rewrite Htype;
           change (py_eq_str (PStr (lit "connection_stats")) (lit "sync")) with false;
           change (py_eq_str (PStr (lit "connection_stats")) (lit "delete")) with false;
           change (py_eq_str (PStr (lit "connection_stats")) (lit "all_content")) with false;
           change (py_eq_str (PStr (lit "connection_stats")) (lit "connection_stats"))
             with true;
           cbv iota beta; unfold field_or in Hdata; rewrite Hdata; reflexivity).
    rewrite (@handle_message_connection_stats _ ts d m w Htype Hdata). cbv zeta.
    apply write_one.
    rewrite !encodable_app, chars_encodable.
    change (encodable (lit "[")) with true.
    change (encodable (lit "] 📊 连接统计: ")) with true.
    change (encodable (lit " 个活跃连接")) with true.
    rewrite andb_true_r. reflexivity.
  - intros f _ Hstr. apply encodable_py_str. exact Hstr.
Qed.

(** X5.  A message whose [type] is present but is none of the four
    tags, a [type] that is no string included, takes the fallback
    branch: the handler writes exactly one line, the notice showing
    the [type] as [str] shows it.  The line is printed and the handler
    returns, except for a [type] that is a string that cannot be
    encoded: then nothing is printed and [UnicodeEncodeError] is
    raised.  The tags are matched exactly, so a tag in another case is
    unrecognized. *)
Theorem unrecognized_type_is_reported :
  forall ts d mt w,
    dict_get d (lit "type") = Some mt ->
    mt <> PStr (lit "sync") ->
    mt <> PStr (lit "delete") ->
    mt <> PStr (lit "all_content") ->
    mt <> PStr (lit "connection_stats") ->
    let line := lit "[" ++ chars ts ++ lit "] 📨 收到消息: " ++ py_str mt in
    handle_message ts (PDict d) w =
      (if encodable (py_str mt) then (Ok tt, emit [line] w)
       else (Raise (unicode_encode_error line), w))
    /\ (is_str mt = false -> encodable (py_str mt) = true).
Proof.
  intros ts d mt w Htype H1 H2 H3 H4 line. split.
  - rewrite handle_message_other; unfold field_or; rewrite Htype;
      try (apply py_eq_str_false; assumption).
    apply write_one. apply encodable_stamped. reflexivity.
  - apply encodable_py_str.
Qed.

(** X6.  In the [all_content] branch the number of items is taken
    before the [count] field is looked up, so a [data] that has no
    length (null, a boolean, a number) makes the handler raise
    [TypeError] before anything is printed, even when [count] is
    there. *)
Theorem listing_needs_sized_data :
  forall ts d v w,
    dict_get d (lit "type") = Some (PStr (lit "all_content")) ->
    dict_get d (lit "data") = Some v ->
    unsized v = true ->
    handle_message ts (PDict d) w =
      (Raise (mk_exn TypeError
                (plain ("object of type '" ++ type_name v ++ "' has no len()")%string)), w).
Proof.
  intros ts d v w Htype Hdata Hv.
  unfold handle_message, bind, py_get, ret. rewrite Htype.
  change (py_eq_str (PStr (lit "all_content")) (lit "sync")) with false.
  change (py_eq_str (PStr (lit "all_content")) (lit "delete")) with false.
  change (py_eq_str (PStr (lit "all_content")) (lit "all_content")) with true.
  cbv iota beta. rewrite Hdata.
  destruct v; try discriminate; reflexivity.
Qed.

(** X7.  The items of a listing after the third are never looked at:
    two [all_content] messages with the same [count] and the same
    first three items are handled alike, in what is printed and in
    how the handler returns, whatever else their arrays hold. *)
Theorem listing_ignores_later_items :
  forall ts d1 d2 l1 l2 count w,
    dict_get d1 (lit "type") = Some (PStr (lit "all_content")) ->
    dict_get d2 (lit "type") = Some (PStr (lit "all_content")) ->
    dict_get d1 (lit "data") = Some (PList l1) ->
    dict_get d2 (lit "data") = Some (PList l2) ->
    dict_get d1 (lit "count") = Some count ->
    dict_get d2 (lit "count") = Some count ->
    firstn 3 l1 = firstn 3 l2 ->
    handle_message ts (PDict d1) w = handle_message ts (PDict d2) w.
Proof.
  intros ts d1 d2 l1 l2 count w Ht1 Ht2 Hd1 Hd2 Hc1 Hc2 Hfirst.
  unfold handle_message, bind, py_get, ret. rewrite Ht1, Ht2.
  change (py_eq_str (PStr (lit "all_content")) (lit "sync")) with false.
  change (py_eq_str (PStr (lit "all_content")) (lit "delete")) with false.
  change (py_eq_str (PStr (lit "all_content")) (lit "all_content")) with true.
  cbv iota beta. rewrite Hd1, Hd2. unfold py_len, ret. cbv iota beta.
  rewrite Hc1, Hc2.
  match goal with |- context [print ?line w] => destruct (print line w) as [[[]|e] w1] end;
    [|reflexivity].
  destruct l1 as [|x1 l1], l2 as [|x2 l2]; try discriminate; [reflexivity|].
  change (truthy (PList (x1 :: l1))) with true.
  change (truthy (PList (x2 :: l2))) with true.
  cbv iota beta.
  match goal with |- context [print ?line w1] => destruct (print line w1) as [[[]|e] w2] end;
    [|reflexivity].
  unfold py_slice, py_iter, ret. cbv iota beta.
  rewrite Hfirst. reflexivity.
Qed.

(** X8.  A new clipboard item whose [content] is present but is no
    string makes the handler raise with nothing printed.  An array
    can be sliced but has no [replace]: [AttributeError].  An object
    takes the slice for a key: [TypeError] where a slice cannot be
    hashed, up to Python 3.11, and [KeyError] since.  Nothing else can
    be subscripted: [TypeError]. *)
Theorem item_content_must_be_string :
  forall ts d p ty v w,
    dict_get d (lit "type") = Some (PStr (lit "sync")) ->
    dict_get d (lit "data") = Some (PDict p) ->
    dict_get p (lit "error") = None ->
    dict_get p (lit "message") = None ->
    dict_get p (lit "type") = Some ty ->
    truthy ty = true ->
    dict_get p (lit "content") = Some v ->
    is_str v = false ->
    handle_message ts (PDict d) w =
      (Raise match v with
             | PList _ => attribute_error v "replace"
             | PDict _ =>
                 if slices_hashable then mk_exn KeyError (plain "slice(None, 100, None)")
                 else mk_exn TypeError (plain "unhashable type: 'slice'")
             | _ => not_subscriptable v
             end, w)
    /\ exn_cls (content_error v) =
         match v with
         | PList _ => AttributeError
         | PDict _ => if slices_hashable then KeyError else TypeError
         | _ => TypeError
         end.
Proof.
  intros ts d p ty v w Htype Hdata Herr Hmsg Hty Htruthy Hcontent Hv.
  split.
  - rewrite handle_message_sync by exact Htype. rewrite Hdata, Herr, Hmsg.
    rewrite (@print_new_item_bad_content _ ts p ty v w Hty Htruthy Hcontent Hv).
    destruct v; try discriminate; reflexivity.
  - destruct v; try discriminate; try reflexivity.
    unfold content_error, slice_as_key. destruct slices_hashable; reflexivity.
Qed.

Lemma print_item_not_object i item w :
  is_dict item = false ->
  print_item i item w = (Raise (attribute_error item "get"), w).
Proof. intro H. destruct item; try discriminate; reflexivity. Qed.

Lemma for_each_items_stop (good : list pyval) (bad : pyval) (rest : list pyval) :
  forallb item_ok good = true ->
  is_dict bad = false ->
  forall k w,
    for_each (combine (seq k (length (good ++ bad :: rest))) (good ++ bad :: rest))
      (fun '(i, item) => print_item i item) w =
      (write_lines (map (fun '(i, item) => item_line i item)
                      (combine (seq k (length good)) good)) ;;
       raise (attribute_error bad "get")) w.
Proof.
  intros Hgood Hbad. induction good as [|item good IH]; intros k w.
  - cbn [app length seq combine for_each map]. unfold bind.
    rewrite print_item_not_object by exact Hbad. reflexivity.
  - cbn [forallb] in Hgood. apply andb_true_iff in Hgood as [Hitem Hgood].
    cbn [app length seq combine for_each map]. unfold bind.
    rewrite print_item_ok by exact Hitem. cbn [write_lines].
    destruct (encodable (item_line k item)); [|reflexivity].
    rewrite IH by exact Hgood. reflexivity.
Qed.

(** X18.  A listing stops at the first of its first three items that
    is no object: the count line, the heading and the lines of the
    items before it are written, and then the handler raises
    [AttributeError], so the items after it are not shown.  When one of
    these lines cannot be encoded the handler stops there instead: the
    lines before it are printed and [UnicodeEncodeError] is raised. *)
Theorem listing_stops_at_bad_item :
  forall ts d good bad rest w,
    dict_get d (lit "type") = Some (PStr (lit "all_content")) ->
    dict_get d (lit "data") = Some (PList (good ++ bad :: rest)) ->
    (length good < 3)%nat ->
    forallb item_ok good = true ->
    is_dict bad = false ->
    let lines :=
      (lit "[" ++ chars ts ++ lit "] 📋 当前内容总数: "
       ++ py_str (field_or d (lit "count") (PInt (Z.of_nat (length (good ++ bad :: rest)))))
       ++ lit " 条")
      :: lit "最新的3条内容:"
      :: item_lines good in
    (forallb encodable lines = true ->
     handle_message ts (PDict d) w = (Raise (attribute_error bad "get"), emit lines w))
    /\ (forall before line after,
           lines = before ++ line :: after ->
           forallb encodable before = true -> encodable line = false ->
           handle_message ts (PDict d) w = (Raise (unicode_encode_error line), emit before w)).
Proof.
  intros ts d good bad rest w Htype Hdata Hlen Hgood Hbad lines.
  assert (Hrun : handle_message ts (PDict d) w =
                 (write_lines lines ;; raise (attribute_error bad "get")) w).
  { unfold handle_message, bind, py_get, ret. rewrite Htype.
    change (py_eq_str (PStr (lit "all_content")) (lit "sync")) with false.
    change (py_eq_str (PStr (lit "all_content")) (lit "delete")) with false.
    change (py_eq_str (PStr (lit "all_content")) (lit "all_content")) with true.
    cbv iota beta. rewrite Hdata. unfold py_len, ret. cbv iota beta.
    unfold lines, field_or. cbn [write_lines]. unfold print at 1.
    match goal with |- context [encodable ?line] => destruct (encodable line) end;
      [|reflexivity].
    assert (Htruthy : truthy (PList (good ++ bad :: rest)) = true)
      by (destruct good; reflexivity).
    rewrite Htruthy. unfold print at 1.
    change (encodable (lit "最新的3条内容:")) with true. cbv iota beta.
    unfold py_slice, py_iter, ret. cbv iota beta.
    assert (Hfirst : firstn 3 (good ++ bad :: rest) =
                     good ++ bad :: firstn (3 - length good - 1) rest).
    { rewrite firstn_app, firstn_all2 by lia. f_equal.
      destruct (3 - length good)%nat as [|n] eqn:Hn; [lia|].
      cbn [firstn]. f_equal. f_equal. lia. }
    unfold enumerate. rewrite Hfirst.
    rewrite for_each_items_stop by assumption.
    unfold item_lines, enumerate. rewrite firstn_all2 by lia.
    unfold bind, emit. cbn [self stdout]. rewrite <- !app_assoc. reflexivity. }
  split.
  - intro Hall. rewrite Hrun. unfold bind. rewrite write_lines_all by exact Hall.
    reflexivity.
  - intros before line after Hsplit Hbefore Hline. rewrite Hrun, Hsplit. unfold bind.
    rewrite write_lines_stops by assumption. reflexivity.
Qed.

End HandlerEdges.

(* ================================================================== *)
(** ** Sending *)

Lemma non_ascii_flat_map {A} (f : A -> pystr) (l : list A) :
  non_ascii (flat_map f l) = flat_map (fun x => non_ascii (f x)) l.
Proof.
  induction l as [|x l IH]; simpl; [reflexivity|].
  rewrite non_ascii_app, IH. reflexivity.
Qed.

Lemma non_ascii_join (sep : pystr) (parts : list pystr) :
  non_ascii sep = [] -> non_ascii (join sep parts) = flat_map non_ascii parts.
Proof.
  intro Hsep. induction parts as [|p parts IH]; [reflexivity|].
  destruct parts as [|q parts].
  - simpl. rewrite app_nil_r. reflexivity.
  - change (join sep (p :: q :: parts)) with (p ++ sep ++ join sep (q :: parts)).
    rewrite !non_ascii_app, Hsep, IH. reflexivity.
Qed.

Lemma flat_map_map {A B C} (f : A -> B) (g : B -> list C) (l : list A) :
  flat_map g (map f l) = flat_map (fun x => g (f x)) l.
Proof. induction l as [|x l IH]; simpl; [reflexivity|]. rewrite IH. reflexivity. Qed.

Lemma flat_map_ext_Forall {A B} (f g : A -> list B) (l : list A) :
  Forall (fun x => f x = g x) l -> flat_map f l = flat_map g l.
Proof. induction 1 as [|x l Hx _ IH]; simpl; [reflexivity|]. rewrite Hx, IH. reflexivity. Qed.

Lemma set_websocket_same (m : RealtimeClipboardMonitor) (c : connection) :
  websocket m = Some c -> set_websocket (Some c) m = m.
Proof. destruct m as [b d u ws r]. cbn. intros ->. reflexivity. Qed.

Section Serialization.

Context {builtins : Builtins}.

Lemma u_escape_ascii (n : N) : non_ascii (u_escape n) = [].
Proof. apply non_ascii_nil_iff, u_escape_below. Qed.

Lemma escape_table_ascii (c : N) (e : pystr) :
  escape_table c = Some e -> is_ascii c = true /\ non_ascii e = [].
Proof.
  unfold escape_table, is_ascii, BACKSLASH, QUOTE.
  repeat match goal with
         | |- context [N.eqb c ?k] =>
             destruct (N.eqb_spec c k); [subst c; intros [= <-]; split; reflexivity|]
         end.
  destruct (N.ltb_spec c 32); [|discriminate].
  intros [= <-]. split; [apply N.ltb_lt; lia | apply u_escape_ascii].
Qed.

Lemma escape_char_keeps (c : N) :
  non_ascii (escape_char false c) = non_ascii [c].
Proof.
  unfold escape_char. destruct (escape_table c) as [e|] eqn:He; [|reflexivity].
  destruct (escape_table_ascii _ He) as [Hc ->]. simpl. rewrite Hc. reflexivity.
Qed.

Lemma escape_char_unescaped (c : N) :
  128 <= c -> escape_char false c = [c].
Proof.
  intro Hc. unfold escape_char. destruct (escape_table c) as [e|] eqn:He; [|reflexivity].
  destruct (escape_table_ascii _ He) as [Hlt _]. apply N.ltb_lt in Hlt. lia.
Qed.

Lemma encode_string_keeps (s : pystr) :
  non_ascii (encode_string false s) = non_ascii s.
Proof.
  unfold encode_string. rewrite !non_ascii_app, non_ascii_flat_map.
  change (non_ascii [QUOTE]) with (@nil N). rewrite app_nil_r. simpl.
  induction s as [|c s IH]; [reflexivity|].
  cbn [flat_map]. rewrite escape_char_keeps, IH.
  symmetry. apply (non_ascii_app [c] s).
Qed.

Lemma float_json_ascii (f : float) : non_ascii (float_json f) = [].
Proof.
  unfold float_json.
  repeat match goal with |- context [if ?b then _ else _] => destruct b end;
    try reflexivity.
  apply float_repr_ascii.
Qed.

Lemma json_dumps_keeps_non_ascii (v : pyval) :
  non_ascii (json_dumps false v) = non_ascii (strings_of v).
Proof.
  induction v as [| [|] | z | f | s | l IH | d IH] using pyval_nested_ind;
    try reflexivity.
  - apply int_str_ascii.
  - apply float_json_ascii.
  - apply encode_string_keeps.
  - cbn [json_dumps strings_of]. rewrite !non_ascii_app.
    rewrite non_ascii_join by reflexivity.
    change (non_ascii (lit "[")) with (@nil N). change (non_ascii (lit "]")) with (@nil N).
    rewrite app_nil_r, app_nil_l.
    rewrite flat_map_map, non_ascii_flat_map.
    apply flat_map_ext_Forall. exact IH.
  - cbn [json_dumps strings_of]. rewrite !non_ascii_app.
    rewrite non_ascii_join by reflexivity.
    change (non_ascii (lit "{")) with (@nil N). change (non_ascii (lit "}")) with (@nil N).
    rewrite app_nil_r, app_nil_l.
    rewrite flat_map_map, non_ascii_flat_map.
    apply flat_map_ext_Forall.
    induction IH as [|[k x] d Hx _ IHd]; constructor; [|assumption].
    simpl in Hx. cbv beta iota.
    rewrite !non_ascii_app, encode_string_keeps, Hx. reflexivity.
Qed.

(* ------------------------------------------------------------------ *)
(** *** [send_message], case by case *)

Lemma encodable_send_report (c : connection) (s : pystr) :
  encodable (send_report c s) = true.
Proof.
  unfold send_report, ws_send. destruct (conn_closed c); cbn [fst].
  - printable.
  - destruct (encodable s) eqn:Hs; cbn [fst]; [printable|].
    destruct send_aborts; cbn [fst]; printable.
Qed.

(** With a connection object, [send_message] returns normally: the
    connection is as the write left it, and one line is printed. *)
Lemma send_message_run message w c :
  websocket (self w) = Some c ->
  send_message message w =
    (Ok tt,
     mk_world (set_websocket (Some (snd (ws_send send_aborts c (json_dumps false message))))
                 (self w))
       (stdout w ++ [send_report c (json_dumps false message)])).
Proof.
  intro Hws. assert (Hline := encodable_send_report c (json_dumps false message)).
  unfold send_message, bind, get_self. rewrite Hws.
  unfold try_except, websocket_send, bind, get_self. rewrite Hws.
  unfold send_report in *.
  destruct (ws_send send_aborts c (json_dumps false message)) as [[[]|e] c'] eqn:Hsend;
    cbn [fst snd] in *; unfold assign_websocket, lift; cbn [find_handler].
  - rewrite print_ok by exact Hline. reflexivity.
  - assert (Hexc : is_Exception e = true).
    { unfold ws_send in Hsend.
      destruct (conn_closed c); [injection Hsend as <- _; reflexivity|].
      destruct (encodable (json_dumps false message)); [discriminate|].
      destruct send_aborts; injection Hsend as <- _; reflexivity. }
    rewrite Hexc. rewrite print_ok by exact Hline. reflexivity.
Qed.

Lemma send_message_open message w c :
  websocket (self w) = Some c ->
  conn_closed c = None ->
  encodable (json_dumps false message) = true ->
  send_message message w =
    (Ok tt,
     mk_world
       (set_websocket (Some (mk_connection None (conn_sent c ++ [json_dumps false message])))
          (self w))
       (stdout w ++ [lit "📤 发送: " ++ json_dumps false message])).
Proof.
  intros Hws Hopen Henc. rewrite (@send_message_run message w c Hws).
  unfold send_report, ws_send. rewrite Hopen, Henc. reflexivity.
Qed.

Lemma send_message_refused message w c :
  websocket (self w) = Some c ->
  conn_closed c = None ->
  encodable (json_dumps false message) = false ->
  send_message message w =
    if send_aborts then
      (Ok tt,
       mk_world (set_websocket (Some (mk_connection (Some ABORTED) (conn_sent c))) (self w))
         (stdout w ++ [lit "❌ 发送失败: " ++ chars ABORTED]))
    else
      (Ok tt,
       emit [lit "❌ 发送失败: " ++ chars (encode_error_text (json_dumps false message))] w).
Proof.
  intros Hws Hopen Henc. rewrite (@send_message_run message w c Hws).
  unfold send_report, ws_send. rewrite Hopen, Henc.
  destruct send_aborts; cbn [fst snd]; [reflexivity|].
  rewrite (set_websocket_same _ Hws). reflexivity.
Qed.

Lemma send_message_closed message w c why :
  websocket (self w) = Some c ->
  conn_closed c = Some why ->
  send_message message w = (Ok tt, emit [lit "❌ 发送失败: " ++ chars why] w).
Proof.
  intros Hws Hclosed. rewrite (@send_message_run message w c Hws).
  unfold send_report, ws_send. rewrite Hclosed. cbn [fst snd].
  rewrite (set_websocket_same _ Hws). reflexivity.
Qed.

Lemma send_message_absent message w :
  websocket (self w) = None -> send_message message w = (Ok tt, w).
Proof. intro Hws. unfold send_message, bind, get_self. rewrite Hws. reflexivity. Qed.

(** C7, as amended.  [send_message] never raises to its caller.  With
    no connection object it returns at once: nothing is sent and
    nothing is printed.  With a connection that is open and a message
    whose serialization can be encoded, the message is written to it
    and echoed on one line.  In every other case nothing is written and
    the failure is printed on one line under the failure marker, with
    the text of the error: for a connection that is closed, the reason
    of the close; for a serialization that cannot be encoded, the
    encoding error, or, with a library that aborts the connection on
    it, the text of the abort, the connection being left closed. *)
Theorem send_message_outcomes :
  forall message w,
    match websocket (self w) with
    | None => send_message message w = (Ok tt, w)
    | Some c =>
        match conn_closed c with
        | None =>
            let message_str := json_dumps false message in
            send_message message w =
              if encodable message_str then
                (Ok tt,
                 mk_world
                   (set_websocket (Some (mk_connection None (conn_sent c ++ [message_str])))
                      (self w))
                   (stdout w ++ [lit "📤 发送: " ++ message_str]))
              else if send_aborts then
                (Ok tt,
                 mk_world
                   (set_websocket (Some (mk_connection (Some ABORTED) (conn_sent c))) (self w))
                   (stdout w ++ [lit "❌ 发送失败: " ++ chars ABORTED]))
              else
                (Ok tt,
                 emit [lit "❌ 发送失败: " ++ chars (encode_error_text message_str)] w)
        | Some why =>
            send_message message w = (Ok tt, emit [lit "❌ 发送失败: " ++ chars why] w)
        end
    end.
Proof.
  intros message w.
  destruct (websocket (self w)) as [c|] eqn:Hws.
  - destruct (conn_closed c) as [why|] eqn:Hc.
    + eapply send_message_closed; eassumption.
    + cbv zeta. destruct (encodable (json_dumps false message)) eqn:Henc.
      * apply send_message_open; assumption.
      * apply send_message_refused; assumption.
  - apply send_message_absent. exact Hws.
Qed.

(** C8.  On an open connection [request_current_content] writes exactly
    one frame, the text
    [{'type': 'get_all_content', 'data': {'limit': 10}}] with double
    quotes, which is the serialization of that object.  Whatever
    message [send_message] is given, the frame it writes is the
    [json.dumps] of the message with [ensure_ascii] off, and it writes
    that frame whenever it can be encoded; otherwise it writes nothing.
    In the serialization every character above ASCII stands as it is:
    the characters above ASCII of the frame are those of the strings of
    the message, in order, and the encoder writes each of them as
    itself. *)
Theorem request_current_content_frame :
  forall w c,
    websocket (self w) = Some c ->
    conn_closed c = None ->
    (websocket (self (snd (request_current_content w))) =
       Some (mk_connection None
               (conn_sent c ++ [dq "{'type': 'get_all_content', 'data': {'limit': 10}}"]))
     /\ json_dumps false request_message =
          dq "{'type': 'get_all_content', 'data': {'limit': 10}}")
    /\ (forall message,
           (if encodable (json_dumps false message) then
              websocket (self (snd (send_message message w))) =
                Some (mk_connection None (conn_sent c ++ [json_dumps false message]))
            else
              exists c', websocket (self (snd (send_message message w))) = Some c'
                         /\ conn_sent c' = conn_sent c)
           /\ non_ascii (json_dumps false message) = non_ascii (strings_of message)
           /\ forall ch, 128 <= ch -> escape_char false ch = [ch]).
Proof.
  intros w c Hws Hopen. split; [split|].
  - unfold request_current_content.
    rewrite (@send_message_open _ w c Hws Hopen) by by_computation.
    reflexivity.
  - reflexivity.
  - intro message. split; [|split].
    + destruct (encodable (json_dumps false message)) eqn:Henc.
      * rewrite (@send_message_open message w c Hws Hopen Henc). reflexivity.
      * rewrite (@send_message_refused message w c Hws Hopen Henc).
        destruct send_aborts; [eexists; split; reflexivity|].
        exists c. split; [exact Hws | reflexivity].
    + apply json_dumps_keeps_non_ascii.
    + apply escape_char_unescaped.
Qed.

End Serialization.

(* ================================================================== *)
(** ** Connecting and disconnecting *)

Section Connecting.

Context {builtins : Builtins}.

Lemma encodable_announce (address : pystr) :
  encodable (lit "🔗 正在连接到: " ++ address) = encodable address.
Proof. rewrite encodable_app. reflexivity. Qed.

Lemma connect_success_run c w :
  encodable (url (self w)) = true ->
  connect (Ok c) w =
    (Ok true,
     mk_world (mk_monitor (base_url (self w)) (device_id (self w)) (url (self w))
                 (Some c) true)
       (stdout w ++ [lit "🔗 正在连接到: " ++ url (self w);
                     lit "✅ WebSocket 连接成功建立";
                     lit "📡 开始实时监听剪切板变化...";
                     str_mul (lit "=") 60])).
Proof.
  intro Hurl. unfold connect, try_except, bind, get_self.
  rewrite print_ok by (rewrite encodable_announce; exact Hurl).
  unfold lift, assign_websocket, assign_running.
  rewrite !print_ok by by_computation.
  unfold ret, emit, set_websocket, set_running.
  cbn [self stdout base_url device_id url websocket running].
  rewrite <- !app_assoc. reflexivity.
Qed.

Lemma connect_failure_run e w :
  encodable (url (self w)) = true ->
  is_Exception e = true ->
  connect (Raise e) w =
    (Ok false,
     emit [lit "🔗 正在连接到: " ++ url (self w); lit "❌ 连接失败: " ++ chars (exn_msg e)] w).
Proof.
  intros Hurl Hexc. unfold connect, try_except, bind, get_self.
  rewrite print_ok by (rewrite encodable_announce; exact Hurl).
  unfold lift. cbn [find_handler]. rewrite Hexc. unfold bind.
  rewrite print_ok by printable.
  unfold ret. rewrite emit_emit. reflexivity.
Qed.

Lemma connect_passes e w :
  encodable (url (self w)) = true ->
  is_Exception e = false ->
  connect (Raise e) w = (Raise e, emit [lit "🔗 正在连接到: " ++ url (self w)] w).
Proof.
  intros Hurl Hexc. unfold connect, try_except, bind, get_self.
  rewrite print_ok by (rewrite encodable_announce; exact Hurl).
  unfold lift. cbn [find_handler]. rewrite Hexc. reflexivity.
Qed.

Lemma connect_unannounced handshake w :
  encodable (url (self w)) = false ->
  connect handshake w =
    (Ok false,
     emit [lit "❌ 连接失败: "
           ++ chars (encode_error_text (lit "🔗 正在连接到: " ++ url (self w)))] w).
Proof.
  intro Hurl. unfold connect, try_except, bind, get_self.
  rewrite print_refused by (rewrite encodable_announce; exact Hurl).
  cbn [find_handler]. change (is_Exception (unicode_encode_error _)) with true.
  cbv iota. unfold bind. rewrite print_ok by printable. reflexivity.
Qed.

(** X9.  [connect] first announces the address.  When the address
    cannot be encoded the announcement fails, the handshake is not
    attempted, and [connect] returns false after printing the failure
    line alone.  Otherwise, when the handshake succeeds, it returns
    true, stores the new connection and sets the running flag, and
    prints four lines: the address, two notices and a rule of 60
    equals signs; a connection the monitor already held is replaced,
    not closed.  When the handshake raises an exception under
    [Exception] it returns false, prints the address and then the
    failure line with the text of the error, and leaves the monitor as
    it was.  When the handshake raises anything else, as a cancellation
    or an interrupt does, [connect] raises it in turn, with the address
    printed and the monitor as it was. *)
Theorem connect_outcomes :
  forall handshake w,
    connect handshake w =
      if encodable (url (self w)) then
        match handshake with
        | Ok c =>
            (Ok true,
             mk_world (mk_monitor (base_url (self w)) (device_id (self w)) (url (self w))
                         (Some c) true)
               (stdout w ++ [lit "🔗 正在连接到: " ++ url (self w);
                             lit "✅ WebSocket 连接成功建立";
                             lit "📡 开始实时监听剪切板变化...";
                             str_mul (lit "=") 60]))
        | Raise e =>
            if is_Exception e then
              (Ok false,
               mk_world (self w)
                 (stdout w ++ [lit "🔗 正在连接到: " ++ url (self w);
                               lit "❌ 连接失败: " ++ chars (exn_msg e)]))
            else
              (Raise e, mk_world (self w) (stdout w ++ [lit "🔗 正在连接到: " ++ url (self w)]))
        end
      else
        (Ok false,
         mk_world (self w)
           (stdout w
            ++ [lit "❌ 连接失败: "
                ++ chars (encode_error_text (lit "🔗 正在连接到: " ++ url (self w)))])).
Proof.
  intros handshake w. destruct (encodable (url (self w))) eqn:Hurl.
  - destruct handshake as [c|e]; [apply connect_success_run; exact Hurl|].
    destruct (is_Exception e) eqn:Hexc.
    + apply connect_failure_run; assumption.
    + apply connect_passes; assumption.
  - apply connect_unannounced. exact Hurl.
Qed.

(** X10.  The address of a monitor made by [__init__] is the base
    address, then [?deviceId=], then the device id as it was given,
    with no escaping; with the defaults it is
    [ws://localhost:3002/ws?deviceId=monitor-python].  When both parts
    can be encoded, the first line [connect] prints announces this
    address, whichever way the handshake goes; when one cannot,
    [connect] returns false whatever the handshake, having printed the
    failure line only.  A new monitor has no connection and is not
    running. *)
Theorem connect_announces_address :
  (forall base dev handshake out,
      let address := base ++ lit "?deviceId=" ++ dev in
      let line := lit "🔗 正在连接到: " ++ address in
      url (init base dev) = address
      /\ if encodable base && encodable dev then
           exists rest,
             stdout (snd (connect handshake (mk_world (init base dev) out))) =
               out ++ line :: rest
         else
           connect handshake (mk_world (init base dev) out) =
             (Ok false,
              mk_world (init base dev)
                (out ++ [lit "❌ 连接失败: " ++ chars (encode_error_text line)])))
  /\ url (init DEFAULT_URL DEFAULT_DEVICE_ID) =
       lit "ws://localhost:3002/ws?deviceId=monitor-python"
  /\ (forall base dev,
         websocket (init base dev) = None /\ running (init base dev) = false).
Proof.
  split; [|split].
  - intros base dev handshake out address line. split; [reflexivity|].
    assert (Hurl : encodable (url (self (mk_world (init base dev) out))) =
                   encodable base && encodable dev).
    { cbn [self init url]. rewrite !encodable_app.
      change (encodable (lit "?deviceId=")) with true. reflexivity. }
    destruct (encodable base && encodable dev).
    + destruct handshake as [c|e]; [|destruct (is_Exception e) eqn:Hexc].
      * rewrite (@connect_success_run c _ Hurl). eexists. reflexivity.
      * rewrite (@connect_failure_run e _ Hurl Hexc). eexists. reflexivity.
      * rewrite (@connect_passes e _ Hurl Hexc). eexists. reflexivity.
    + rewrite (@connect_unannounced handshake _ Hurl). reflexivity.
  - by_computation.
  - intros base dev. split; reflexivity.
Qed.

Lemma disconnect_connected w c :
  websocket (self w) = Some c ->
  disconnect w =
    (Ok tt,
     mk_world (mk_monitor (base_url (self w)) (device_id (self w)) (url (self w))
                 (Some (ws_close c)) false)
       (stdout w ++ [lit "🔌 WebSocket 连接已断开"])).
Proof.
  intro Hws. unfold disconnect, bind, get_self. rewrite Hws.
  unfold assign_running, websocket_close, bind, get_self.
  cbn [self stdout set_running websocket]. rewrite Hws.
  unfold assign_websocket. rewrite print_ok by by_computation. reflexivity.
Qed.

Lemma disconnect_unconnected w :
  websocket (self w) = None -> disconnect w = (Ok tt, w).
Proof. intro Hws. unfold disconnect, bind, get_self. rewrite Hws. reflexivity. Qed.

Lemma ws_close_closed c : exists why, conn_closed (ws_close c) = Some why.
Proof.
  unfold ws_close, close_with. destruct (conn_closed c) as [why|] eqn:Hc.
  - exists why. exact Hc.
  - eexists. reflexivity.
Qed.

Lemma ws_close_again c : ws_close (ws_close c) = ws_close c.
Proof.
  unfold ws_close, close_with.
  destruct (conn_closed c) eqn:Hc; cbn [conn_closed]; rewrite ?Hc; reflexivity.
Qed.

(** C9.  [disconnect] returns normally from every state, and a second
    call leaves the monitor as the first one left it.  With no
    connection object, as after [__init__], it changes nothing at all;
    with one, the running flag is cleared and the connection closed. *)
Theorem disconnect_idempotent :
  forall w,
    let once := disconnect w in
    let twice := disconnect (snd once) in
    fst once = Ok tt
    /\ fst twice = Ok tt
    /\ self (snd twice) = self (snd once)
    /\ match websocket (self w) with
       | None => snd once = w
       | Some c =>
           running (self (snd once)) = false
           /\ websocket (self (snd once)) = Some (ws_close c)
           /\ conn_closed (ws_close c) <> None
       end.
Proof.
  intro w. cbv zeta. destruct (websocket (self w)) as [c|] eqn:Hws.
  - rewrite (@disconnect_connected w c Hws). cbn [fst snd].
    erewrite disconnect_connected by reflexivity.
    cbn [fst snd self base_url device_id url running websocket].
    rewrite ws_close_again.
    repeat split.
    destruct (ws_close_closed c) as [why ->]. discriminate.
  - rewrite (@disconnect_unconnected w Hws). cbn [fst snd].
    rewrite (@disconnect_unconnected w Hws). repeat split.
Qed.

End Connecting.

(* ================================================================== *)
(** ** The methods in sequence *)

Section Sequences.

Context {builtins : Builtins}.

(** X15.  [disconnect] keeps the connection object, closed, so a
    [send_message] after it does not return in silence as it does
    before any connection: it tries to write, the write fails, and
    the failure is logged on one line; nothing is written to the
    connection and the running flag stays cleared. *)
Theorem send_after_disconnect_is_logged :
  forall message w c,
    websocket (self w) = Some c ->
    exists why,
      conn_closed (ws_close c) = Some why
      /\ (disconnect ;; send_message message) w =
           (Ok tt,
            mk_world (mk_monitor (base_url (self w)) (device_id (self w)) (url (self w))
                        (Some (ws_close c)) false)
              (stdout w ++ [lit "🔌 WebSocket 连接已断开"; lit "❌ 发送失败: " ++ chars why]))
      /\ conn_sent (ws_close c) = conn_sent c.
Proof.
  intros message w c Hws. destruct (ws_close_closed c) as [why Hwhy].
  exists why. split; [exact Hwhy | split].
  - unfold bind at 1. rewrite (@disconnect_connected w c Hws).
    erewrite send_message_closed; [|reflexivity | exact Hwhy].
    unfold emit. cbn [self stdout]. rewrite <- app_assoc. reflexivity.
  - unfold ws_close, close_with. destruct (conn_closed c); reflexivity.
Qed.

(** X16.  Messages sent one after the other on an open connection
    reach it in the order of the calls, after what was written before,
    and each is echoed on a line of its own, provided their
    serializations can be encoded.  Whatever the messages, both calls
    return, each prints one line, the running flag is not touched, and
    the connection receives, in the order of the calls, those
    serializations that can be encoded; except that a library that
    aborts the connection on the first failure writes nothing after
    it. *)
Theorem sends_keep_their_order :
  forall m1 m2 w c,
    websocket (self w) = Some c ->
    conn_closed c = None ->
    (encodable (json_dumps false m1) = true ->
     encodable (json_dumps false m2) = true ->
     (send_message m1 ;; send_message m2) w =
       (Ok tt,
        mk_world
          (set_websocket
             (Some (mk_connection None
                      (conn_sent c ++ [json_dumps false m1; json_dumps false m2])))
             (self w))
          (stdout w ++ [lit "📤 发送: " ++ json_dumps false m1;
                        lit "📤 发送: " ++ json_dumps false m2])))
    /\ exists c' line1 line2,
         (send_message m1 ;; send_message m2) w =
           (Ok tt,
            mk_world (set_websocket (Some c') (self w)) (stdout w ++ [line1; line2]))
         /\ conn_sent c' =
              conn_sent c
              ++ (if encodable (json_dumps false m1) then
                    json_dumps false m1
                    :: (if encodable (json_dumps false m2) then [json_dumps false m2] else [])
                  else if send_aborts then []
                  else if encodable (json_dumps false m2) then [json_dumps false m2]
                  else []).
Proof.
  intros m1 m2 w c Hws Hopen. split.
  - intros H1 H2. unfold bind at 1.
    rewrite (@send_message_open _ m1 w c Hws Hopen H1).
    erewrite send_message_open; [|reflexivity | reflexivity | exact H2].
    cbn [self stdout conn_sent set_websocket base_url device_id url running websocket].
    rewrite <- !app_assoc. reflexivity.
  - unfold bind at 1. rewrite (@send_message_run _ m1 w c Hws).
    erewrite send_message_run by reflexivity.
    cbn [self stdout set_websocket base_url device_id url running websocket].
    rewrite <- app_assoc. cbn [app].
    unfold ws_send at 1 2. rewrite Hopen.
    destruct (encodable (json_dumps false m1)); destruct send_aborts;
      cbn [snd conn_closed conn_sent]; rewrite ?Hopen;
      destruct (encodable (json_dumps false m2));
      cbn [snd conn_closed conn_sent];
      eexists _, _, _; (split; [reflexivity|]);
      cbn [conn_sent]; rewrite ?app_nil_r, <- ?app_assoc; reflexivity.
Qed.

(** What [listen_messages] leaves of a monitor that holds a connection:
    the addresses as they were; the connection as it was or closed;
    the flag as it was or cleared; and an exception only when the
    iteration raised one that is not under [Exception]. *)
Lemma listen_messages_run frames ending w c :
  websocket (self w) = Some c ->
  exists r flag conn out,
    listen_messages frames ending w =
      (r, mk_world (mk_monitor (base_url (self w)) (device_id (self w)) (url (self w))
                      (Some conn) flag)
            (stdout w ++ out))
    /\ (conn = c \/ exists why, conn = close_with why c)
    /\ (forall e, r = Raise e ->
                  ending = StreamRaises e /\ is_Exception e = false
                  /\ flag = running (self w) /\ conn = c)
    /\ (r = Ok tt -> under_Exception ending = false -> flag = false)
    /\ (under_Exception ending = true -> r = Ok tt).
Proof.
  intro Hws.
  assert (Hself : forall flag, set_running flag (self w) =
                    mk_monitor (base_url (self w)) (device_id (self w)) (url (self w))
                      (Some c) flag)
    by (intro flag; unfold set_running; rewrite Hws; reflexivity).
  assert (Hsame : self w = mk_monitor (base_url (self w)) (device_id (self w)) (url (self w))
                             (Some c) (running (self w)))
    by (destruct (self w) as [b d u ws r]; cbn in *; subst ws; reflexivity).
  destruct (@listen_messages_cases _ frames ending w c Hws)
    as [[out [e [_ [_ Hrun]]]] | [out [_ Hrun]]]; rewrite Hrun.
  - exists (Ok tt), false, c, (out ++ [lit "❌ 监听出错: " ++ chars (exn_msg e)]).
    rewrite Hself. split; [reflexivity|]. split; [left; reflexivity|].
    split; [discriminate|]. split; reflexivity.
  - destruct ending as [why|e]; cbn [after_stream under_Exception];
      unfold lose_connection; cbn [self stdout emit]; rewrite Hws.
    + exists (Ok tt), (running (self w)), (close_with why c), out.
      split; [reflexivity|]. split; [right; exists why; reflexivity|].
      split; [discriminate|]. split; [discriminate | reflexivity].
    + destruct (is_a ConnectionClosed e) eqn:Hclosed; [|destruct (is_Exception e) eqn:Hexc].
      * exists (Ok tt), false, (close_with (exn_msg e) c), (out ++ [lit "🔌 连接已关闭"]).
        rewrite <- app_assoc.
        split; [reflexivity|]. split; [right; eexists; reflexivity|].
        split; [discriminate|]. split; reflexivity.
      * exists (Ok tt), false, c, (out ++ [lit "❌ 监听出错: " ++ chars (exn_msg e)]).
        rewrite Hself, <- app_assoc.
        split; [reflexivity|]. split; [left; reflexivity|].
        split; [discriminate|]. split; reflexivity.
      * exists (Raise e), (running (self w)), c, out.
        rewrite <- Hsame.
        split; [reflexivity|]. split; [left; reflexivity|].
        split; [intros e' [= <-]; split; [reflexivity | split; [exact Hexc | split; reflexivity]]|].
        split; discriminate.
Qed.

(** X17.  The methods called in sequence: connect with a handshake
    that succeeds, on a monitor whose address can be encoded; request
    the current content; listen until the stream stops; disconnect.
    Whatever frames arrive, when the stream ends or the iteration
    raises an exception under [Exception], the sequence returns
    normally.  Whenever it returns normally, the running flag ends
    cleared, the connection ends closed, and the one frame written to
    it is the request.  It raises only what the iteration raised
    outside [Exception], as a cancellation: then [disconnect] is not
    reached, the running flag is still set and the connection still
    open, the request being the one frame written. *)
Theorem session_writes_one_request :
  forall c frames ending w,
    conn_closed c = None ->
    encodable (url (self w)) = true ->
    let run :=
      connected <- connect (Ok c) ;;
      if connected then
        request_current_content ;;
        listen_messages frames ending ;;
        disconnect
      else ret tt in
    let request := dq "{'type': 'get_all_content', 'data': {'limit': 10}}" in
    (under_Exception ending = true -> fst (run w) = Ok tt)
    /\ (fst (run w) = Ok tt ->
        running (self (snd (run w))) = false
        /\ exists why,
             websocket (self (snd (run w))) =
               Some (mk_connection (Some why) (conn_sent c ++ [request])))
    /\ (forall e,
           fst (run w) = Raise e ->
           ending = StreamRaises e /\ is_Exception e = false
           /\ running (self (snd (run w))) = true
           /\ websocket (self (snd (run w))) =
                Some (mk_connection None (conn_sent c ++ [request]))).
Proof.
  intros c frames ending w Hopen Hurl run request. unfold run, bind.
  rewrite (@connect_success_run c w Hurl). cbv iota beta.
  unfold request_current_content.
  erewrite send_message_open; [|reflexivity | exact Hopen | by_computation].
  cbv iota beta.
  match goal with
  | |- context [listen_messages frames ending ?w1] =>
      destruct (@listen_messages_run frames ending w1 _ eq_refl)
        as [r [flag [conn [out [Hrun [Hconn [Hraise [_ Hok]]]]]]]];
      rewrite Hrun
  end.
  cbn [self stdout set_websocket base_url device_id url running websocket] in *.
  destruct r as [[]|e].
  - erewrite disconnect_connected by reflexivity.
    cbn [fst snd self running websocket].
    split; [reflexivity|]. split; [|discriminate].
    intros _. split; [reflexivity|].
    destruct Hconn as [-> | [why ->]].
    + eexists. unfold ws_close, close_with. cbn [conn_closed conn_sent]. reflexivity.
    + eexists. unfold ws_close, close_with. cbn [conn_closed conn_sent]. reflexivity.
  - destruct (Hraise e eq_refl) as [Hending [Hexc [Hflag Hc]]].
    cbn [fst snd self running websocket].
    split; [intro Hunder; specialize (Hok Hunder); discriminate|].
    split; [discriminate|].
    intros e' [= <-]. subst flag conn. repeat split; assumption.
Qed.

(** X19.  [disconnect] is idempotent on the monitor but not on the
    output: with a connection object, each call prints the notice, so
    two calls in a row leave the monitor as one call does and print
    the notice twice. *)
Theorem disconnect_twice_prints_twice :
  forall w c,
    websocket (self w) = Some c ->
    (disconnect ;; disconnect) w =
      (Ok tt,
       mk_world (mk_monitor (base_url (self w)) (device_id (self w)) (url (self w))
                   (Some (ws_close c)) false)
         (stdout w ++ [lit "🔌 WebSocket 连接已断开"; lit "🔌 WebSocket 连接已断开"])).
Proof.
  intros w c Hws. unfold bind at 1. rewrite (@disconnect_connected w c Hws).
  erewrite disconnect_connected by reflexivity.
  cbn [self stdout base_url device_id url].
  rewrite ws_close_again, <- app_assoc. reflexivity.
Qed.

End Sequences.

(* ================================================================== *)
(** * The statements at concrete inputs *)

(** ** The handler *)

Lemma sync_payload_dispatch_witness :
  dict_get [(lit "type", PStr (lit "sync"));
            (lit "data", PDict [(lit "message", PStr (lit "welcome"))])] (lit "type") =
    Some (PStr (lit "sync"))
  /\ dict_get [(lit "type", PStr (lit "sync"));
               (lit "data", PDict [(lit "message", PStr (lit "welcome"))])] (lit "data") =
       Some (PDict [(lit "message", PStr (lit "welcome"))])
  /\ handle_message (builtins := sample_builtins) noon
       (PDict [(lit "type", PStr (lit "sync"));
               (lit "data", PDict [(lit "message", PStr (lit "welcome"))])]) fresh_world =
       (Ok tt, emit [lit "[12:00:00] ✅ welcome"] fresh_world).
Proof.
  split; [by_computation | split; [by_computation|]].
  rewrite (proj1 (@sync_payload_dispatch sample_builtins) noon
             [(lit "type", PStr (lit "sync"));
              (lit "data", PDict [(lit "message", PStr (lit "welcome"))])]
             [(lit "message", PStr (lit "welcome"))] fresh_world
             ltac:(by_computation) ltac:(by_computation)).
  by_computation.
Defined.

(** The claim C1 as stated fails: an [error] value that cannot be
    encoded, as JSON's ["\ud800"] decodes to, is not printed; the
    handler raises, and nothing is written. *)
Lemma unprintable_error_is_not_printed :
  dict_get [(lit "error", PStr LONE_SURROGATE)] (lit "error") = Some (PStr LONE_SURROGATE)
  /\ handle_message (builtins := sample_builtins) noon unprintable_error_message fresh_world =
       (Raise (mk_exn UnicodeEncodeError
                 (plain "'utf-8' codec can't encode character '\ud800' in position 17: surrogates not allowed")),
        fresh_world)
  /\ output_of (handle_message (builtins := sample_builtins) noon unprintable_error_message)
       fresh_world = [].
Proof. repeat split; by_computation. Qed.

(** The claim C2 as stated fails: a [sync] payload with neither [error]
    nor [message] is an item by the claim, yet without a [type] the
    handler prints no preview at all; and with a [type], a content that
    cannot be encoded is not printed either. *)
Lemma untyped_item_prints_nothing :
  dict_get [(lit "content", PStr (lit "hello"))] (lit "error") = None
  /\ dict_get [(lit "content", PStr (lit "hello"))] (lit "message") = None
  /\ handle_message (builtins := sample_builtins) noon untyped_item_message fresh_world =
       (Ok tt, fresh_world)
  /\ handle_message (builtins := sample_builtins) noon unprintable_item_message fresh_world =
       (Raise (mk_exn UnicodeEncodeError
                 (plain "'utf-8' codec can't encode character '\ud800' in position 25: surrogates not allowed")),
        fresh_world).
Proof. repeat split; by_computation. Qed.

Lemma new_item_preview_witness :
  dict_get [(lit "type", PStr (lit "text")); (lit "content", PStr (lit "line one
line two"))] (lit "type") = Some (PStr (lit "text"))
  /\ truthy (PStr (lit "text")) = true
  /\ handle_message (builtins := sample_builtins) noon
       (PDict [(lit "type", PStr (lit "sync"));
               (lit "data", PDict [(lit "type", PStr (lit "text"));
                                   (lit "content", PStr (lit "line one
line two"))])]) fresh_world =
       (Ok tt, emit [lit "[12:00:00] 🆕 新内容: text - line one line two..."] fresh_world).
Proof.
  split; [by_computation | split; [by_computation|]].
  rewrite (proj1 (proj1 (@new_item_preview sample_builtins) noon
                    [(lit "type", PStr (lit "sync"));
                     (lit "data", PDict [(lit "type", PStr (lit "text"));
                                         (lit "content", PStr (lit "line one
line two"))])]
                    [(lit "type", PStr (lit "text"));
                     (lit "content", PStr (lit "line one
line two"))]
                    (PStr (lit "text")) (lit "line one
line two") fresh_world
                    ltac:(by_computation) ltac:(by_computation) ltac:(by_computation)
                    ltac:(by_computation) ltac:(by_computation) ltac:(by_computation)
                    ltac:(by_computation))).
  by_computation.
Defined.

(** The claim C3 as stated fails: the first 19 characters of
    [createdAt] are not what the line shows, since the T between date
    and time is replaced by a space; and an item whose content cannot
    be encoded gets no line: the handler raises after the heading. *)
Lemma listing_rewrites_created_time :
  output_of (handle_message (builtins := sample_builtins) noon one_item_listing_message)
    fresh_world =
    [lit "[12:00:00] 📋 当前内容总数: 1 条";
     lit "最新的3条内容:";
     lit "  1. [2024-01-01 12:00:00] text: hi..."]
  /\ str_slice (lit "2024-01-01T12:00:00.000Z") 19 = lit "2024-01-01T12:00:00"
  /\ existsb (fun line => contains line (lit "2024-01-01T12:00:00"))
       (output_of (handle_message (builtins := sample_builtins) noon one_item_listing_message)
          fresh_world) = false
  /\ handle_message (builtins := sample_builtins) noon unprintable_listing_message
       fresh_world =
       (Raise (mk_exn UnicodeEncodeError
                 (plain "'utf-8' codec can't encode character '\ud800' in position 14: surrogates not allowed")),
        emit [lit "[12:00:00] 📋 当前内容总数: 1 条"; lit "最新的3条内容:"] fresh_world).
Proof. repeat split; by_computation. Qed.

Lemma all_content_listing_witness :
  dict_get [(lit "type", PStr (lit "all_content"));
            (lit "data", PList [PDict [(lit "content", PStr (lit "hi"))]])] (lit "type") =
    Some (PStr (lit "all_content"))
  /\ forallb item_ok (firstn 3 [PDict [(lit "content", PStr (lit "hi"))]]) = true
  /\ handle_message (builtins := sample_builtins) noon
       (PDict [(lit "type", PStr (lit "all_content"));
               (lit "data", PList [PDict [(lit "content", PStr (lit "hi"))]])]) fresh_world =
       (Ok tt, emit [lit "[12:00:00] 📋 当前内容总数: 1 条";
                     lit "最新的3条内容:";
                     lit "  1. [] None: hi..."] fresh_world).
Proof.
  split; [by_computation | split; [by_computation|]].
  rewrite (proj1 (proj1 (@all_content_listing sample_builtins) noon
                    [(lit "type", PStr (lit "all_content"));
                     (lit "data", PList [PDict [(lit "content", PStr (lit "hi"))]])]
                    [PDict [(lit "content", PStr (lit "hi"))]] fresh_world
                    ltac:(by_computation) ltac:(by_computation) ltac:(by_computation))).
  by_computation.
Defined.

Lemma missing_type_falls_back_witness :
  dict_get [(lit "data", PInt 1)] (lit "type") = None
  /\ handle_message (builtins := sample_builtins) noon (PDict [(lit "data", PInt 1)])
       fresh_world =
       (Ok tt, emit [lit "[12:00:00] 📨 收到消息: unknown"] fresh_world).
Proof.
  split; [by_computation|].
  rewrite (@missing_type_falls_back sample_builtins noon
             [(lit "data", PInt 1)] fresh_world ltac:(by_computation)).
  by_computation.
Defined.

(** The claim C6 as stated fails three times over: a [sync] message
    with no [data] field is met with silence, an item whose [content]
    is null makes the handler raise, and so does a [delete] message,
    all of whose fields are there, whose [id] cannot be encoded. *)
Lemma handler_silent_and_failing :
  handle_message (builtins := sample_builtins) noon bare_sync_message fresh_world =
    (Ok tt, fresh_world)
  /\ handle_message (builtins := sample_builtins) noon null_content_message fresh_world =
       (Raise (mk_exn TypeError (plain "'NoneType' object is not subscriptable")),
        fresh_world)
  /\ handle_message (builtins := sample_builtins) noon unprintable_delete_message
       fresh_world =
       (Raise (mk_exn UnicodeEncodeError
                 (plain "'utf-8' codec can't encode character '\ud800' in position 21: surrogates not allowed")),
        fresh_world).
Proof. repeat split; by_computation. Qed.

Lemma handler_degrades_gracefully_witness :
  fields_well_typed [(lit "type", PStr (lit "delete"))] = true
  /\ silent_sync [(lit "type", PStr (lit "delete"))] = false
  /\ handle_message (builtins := sample_builtins) noon
       (PDict [(lit "type", PStr (lit "delete"))]) fresh_world =
       (Ok tt, emit [lit "[12:00:00] 🗑️ 内容已删除: unknown"] fresh_world).
Proof.
  split; [by_computation | split; [by_computation|]].
  rewrite (proj1 (proj1 (@handler_degrades_gracefully sample_builtins) noon
                    [(lit "type", PStr (lit "delete"))] fresh_world ltac:(by_computation))).
  by_computation.
Defined.

(* ------------------------------------------------------------------ *)
(** ** The listen loop *)

(** C4.  A frame that fails JSON parsing can end the listen loop.  A
    binary frame that is not UTF-8 makes [json.loads] raise
    [UnicodeDecodeError]; the inner [except] clause names
    [JSONDecodeError] only and lets it through, the outer clause logs
    it as a listen error and clears the running flag, and the valid
    frame that follows is never handled.  A frame that is text but no
    JSON is logged and passed over, and the frame that follows it is
    handled, as the claim has it. *)
Theorem stray_byte_ends_listening :
  json_decode (Builtins := sample_builtins) (frame_data stray_byte_frame) =
    inl (mk_exn UnicodeDecodeError
           (plain "'utf-8' codec can't decode byte 0xff in position 0: invalid start byte"))
  /\ listen_messages (builtins := sample_builtins) [stray_byte_frame; delete_frame]
       (EndOfStream GOING_AWAY) connected_world =
       (Ok tt,
        mk_world (set_running false (self connected_world))
          [lit "❌ 监听出错: 'utf-8' codec can't decode byte 0xff in position 0: invalid start byte"])
  /\ listen_messages (builtins := sample_builtins) [garbled_frame; delete_frame]
       (EndOfStream GOING_AWAY) connected_world =
       (Ok tt,
        mk_world (lose_connection GOING_AWAY (self connected_world))
          [lit "❌ 解析消息失败: Expecting value: line 1 column 1 (char 0)";
           lit "[12:00:01] 🗑️ 内容已删除: abc123"]).
Proof. repeat split; by_computation. Qed.

(** C5.  When the peer closes the connection in order, the iteration
    just ends: no [except] clause runs, and [listen_messages] returns
    with the running flag still set, the close showing on the
    connection object only.  When the connection is lost, the iteration
    raises [ConnectionClosed] and the flag is cleared, as the claim has
    it. *)
Theorem clean_close_leaves_running :
  running (self connected_world) = true
  /\ listen_messages (builtins := sample_builtins) [delete_frame] (EndOfStream GOING_AWAY)
       connected_world =
       (Ok tt,
        mk_world (mk_monitor DEFAULT_URL DEFAULT_DEVICE_ID
                    (lit "ws://localhost:3002/ws?deviceId=monitor-python")
                    (Some (mk_connection (Some GOING_AWAY) [])) true)
          [lit "[12:00:01] 🗑️ 内容已删除: abc123"])
  /\ listen_messages (builtins := sample_builtins) [delete_frame]
       (StreamRaises closed_by_peer) connected_world =
       (Ok tt,
        mk_world (mk_monitor DEFAULT_URL DEFAULT_DEVICE_ID
                    (lit "ws://localhost:3002/ws?deviceId=monitor-python")
                    (Some (mk_connection (Some (exn_msg closed_by_peer)) [])) false)
          [lit "[12:00:01] 🗑️ 内容已删除: abc123"; lit "🔌 连接已关闭"]).
Proof. repeat split; by_computation. Qed.

Lemma rejected_frames_do_not_stop_listening_witness :
  websocket (self connected_world) = Some fresh_connection
  /\ json_decode (Builtins := sample_builtins) (frame_data delete_frame) =
       inr (PDict [(lit "type", PStr (lit "delete")); (lit "id", PStr (lit "abc123"))])
  /\ listen_messages (builtins := sample_builtins) ([garbled_frame] ++ delete_frame :: [])
       (EndOfStream GOING_AWAY) connected_world =
       (Ok tt,
        mk_world (lose_connection GOING_AWAY (self connected_world))
          [lit "❌ 解析消息失败: Expecting value: line 1 column 1 (char 0)";
           lit "[12:00:01] 🗑️ 内容已删除: abc123"]).
Proof.
  split; [by_computation | split; [by_computation|]].
  rewrite (proj1 (@rejected_frames_do_not_stop_listening sample_builtins
                    [garbled_frame]
                    [mk_exn JSONDecodeError (plain "Expecting value: line 1 column 1 (char 0)")]
                    delete_frame
                    (PDict [(lit "type", PStr (lit "delete")); (lit "id", PStr (lit "abc123"))])
                    [] (EndOfStream GOING_AWAY) connected_world fresh_connection
                    ltac:(by_computation)
                    ltac:(constructor; [split; by_computation | constructor])
                    ltac:(by_computation))).
  by_computation.
Defined.

Lemma undecodable_frame_ends_listening_witness :
  websocket (self connected_world) = Some fresh_connection
  /\ exn_cls (mk_exn UnicodeDecodeError
                (plain "'utf-8' codec can't decode byte 0xff in position 0: invalid start byte"))
     <> JSONDecodeError
  /\ listen_messages (builtins := sample_builtins) [stray_byte_frame; delete_frame]
       (StreamRaises closed_by_peer) connected_world =
       (Ok tt,
        mk_world (set_running false (self connected_world))
          [lit "❌ 监听出错: 'utf-8' codec can't decode byte 0xff in position 0: invalid start byte"]).
Proof.
  split; [by_computation | split; [discriminate|]].
  rewrite (@undecodable_frame_ends_listening sample_builtins stray_byte_frame
             (mk_exn UnicodeDecodeError
                (plain "'utf-8' codec can't decode byte 0xff in position 0: invalid start byte"))
             [delete_frame] (StreamRaises closed_by_peer) connected_world fresh_connection
             ltac:(by_computation) ltac:(by_computation) ltac:(discriminate)).
  by_computation.
Defined.

Lemma connection_closed_ends_listening_witness :
  websocket (self connected_world) = Some fresh_connection
  /\ exn_cls closed_by_peer = ConnectionClosed
  /\ fst (listen_messages (builtins := sample_builtins) [delete_frame]
            (StreamRaises closed_by_peer) connected_world) = Ok tt
  /\ running (self (snd (listen_messages (builtins := sample_builtins) [delete_frame]
                           (StreamRaises closed_by_peer) connected_world))) = false.
Proof.
  split; [by_computation | split; [by_computation|]].
  assert (H := @connection_closed_ends_listening sample_builtins
                 [delete_frame] closed_by_peer connected_world fresh_connection
                 ltac:(by_computation) ltac:(by_computation)).
  exact (conj (proj1 H) (proj1 (proj2 H))).
Defined.

Lemma transport_error_ends_listening_witness :
  websocket (self connected_world) = Some fresh_connection
  /\ exn_cls concurrent_recv <> ConnectionClosed
  /\ exn_cls cancelled <> ConnectionClosed
  /\ listen_messages (builtins := sample_builtins) [delete_frame]
       (StreamRaises concurrent_recv) connected_world =
       (Ok tt,
        mk_world (set_running false (self connected_world))
          [lit "[12:00:01] 🗑️ 内容已删除: abc123";
           lit "❌ 监听出错: cannot call recv while another coroutine is already running recv or recv_streaming"])
  /\ listen_messages (builtins := sample_builtins) [delete_frame]
       (StreamRaises cancelled) connected_world =
       (Raise cancelled,
        mk_world (self connected_world) [lit "[12:00:01] 🗑️ 内容已删除: abc123"]).
Proof.
  assert (Hall : Forall
            (fun fr => fst (handle_frame (builtins := sample_builtins) fr fresh_world) = Ok tt)
            [delete_frame]).
  { constructor; [by_computation | constructor]. }
  split; [by_computation | split; [discriminate | split; [discriminate | split]]].
  - rewrite (@transport_error_ends_listening sample_builtins [delete_frame]
               concurrent_recv connected_world fresh_connection
               ltac:(by_computation) ltac:(discriminate) Hall).
    by_computation.
  - rewrite (@transport_error_ends_listening sample_builtins [delete_frame]
               cancelled connected_world fresh_connection
               ltac:(by_computation) ltac:(discriminate) Hall).
    by_computation.
Defined.

Lemma handler_error_ends_listening_witness :
  websocket (self connected_world) = Some fresh_connection
  /\ json_decode (Builtins := array_builtins) (frame_data array_frame) =
       inr (PList [PInt 1; PInt 2])
  /\ listen_messages (builtins := array_builtins) (array_frame :: [delete_frame])
       (EndOfStream GOING_AWAY) connected_world =
       (Ok tt,
        mk_world (set_running false (self connected_world))
          [lit "❌ 监听出错: 'list' object has no attribute 'get'"]).
Proof.
  split; [by_computation | split; [by_computation|]].
  rewrite (proj1 (@handler_error_ends_listening array_builtins) array_frame
             (PList [PInt 1; PInt 2]) (attribute_error (PList [PInt 1; PInt 2]) "get")
             connected_world [delete_frame] (EndOfStream GOING_AWAY) connected_world
             fresh_connection
             ltac:(by_computation) ltac:(by_computation) ltac:(by_computation)).
  by_computation.
Defined.

Lemma frames_are_handled_in_order_witness :
  websocket (self connected_world) = Some fresh_connection
  /\ Forall (fun fr => fst (handle_frame (builtins := sample_builtins) fr fresh_world) = Ok tt)
       [garbled_frame; delete_frame; stats_frame]
  /\ listen_messages (builtins := sample_builtins) [garbled_frame; delete_frame; stats_frame]
       (EndOfStream GOING_AWAY) connected_world =
       (Ok tt,
        mk_world (mk_monitor DEFAULT_URL DEFAULT_DEVICE_ID
                    (lit "ws://localhost:3002/ws?deviceId=monitor-python")
                    (Some (mk_connection (Some GOING_AWAY) [])) true)
          [lit "❌ 解析消息失败: Expecting value: line 1 column 1 (char 0)";
           lit "[12:00:01] 🗑️ 内容已删除: abc123";
           lit "[12:00:02] 📊 连接统计: 2 个活跃连接"]).
Proof.
  assert (Hall : Forall
            (fun fr => fst (handle_frame (builtins := sample_builtins) fr fresh_world) = Ok tt)
            [garbled_frame; delete_frame; stats_frame]).
  { repeat (constructor; [by_computation|]). constructor. }
  split; [by_computation | split; [exact Hall|]].
  rewrite (@frames_are_handled_in_order sample_builtins
             [garbled_frame; delete_frame; stats_frame] GOING_AWAY connected_world
             fresh_connection ltac:(by_computation) Hall).
  by_computation.
Defined.

(* ------------------------------------------------------------------ *)
(** ** Sending, connecting, disconnecting *)

(** The claim C7 as stated fails: with no connection the call returns
    in silence, so the failure to send is not logged; and on an open
    connection a message whose serialization cannot be encoded is not
    sent, so sending fails though the channel is there and sound. *)
Lemma send_without_connection_is_silent :
  websocket (self fresh_world) = None
  /\ send_message (builtins := sample_builtins) request_message fresh_world =
       (Ok tt, fresh_world)
  /\ output_of (send_message (builtins := sample_builtins) request_message) fresh_world = []
  /\ send_message (builtins := sample_builtins) (PStr LONE_SURROGATE) connected_world =
       (Ok tt,
        emit [lit "❌ 发送失败: 'utf-8' codec can't encode character '\ud800' in position 1: surrogates not allowed"]
          connected_world).
Proof. repeat split; by_computation. Qed.

Lemma request_current_content_frame_witness :
  websocket (self connected_world) = Some fresh_connection
  /\ conn_closed fresh_connection = None
  /\ websocket (self (snd (request_current_content (builtins := sample_builtins)
                             connected_world))) =
       Some (mk_connection None [dq "{'type': 'get_all_content', 'data': {'limit': 10}}"]).
Proof.
  split; [by_computation | split; [by_computation|]].
  rewrite (proj1 (proj1 (@request_current_content_frame sample_builtins
                           connected_world fresh_connection
                           ltac:(by_computation) ltac:(by_computation)))).
  by_computation.
Defined.

Lemma send_after_disconnect_is_logged_witness :
  websocket (self connected_world) = Some fresh_connection
  /\ exists why,
       conn_closed (ws_close fresh_connection) = Some why
       /\ stdout (snd ((disconnect ;; send_message (builtins := sample_builtins)
                          request_message)%py connected_world)) =
            [lit "🔌 WebSocket 连接已断开"; lit "❌ 发送失败: " ++ chars why].
Proof.
  split; [by_computation|].
  destruct (@send_after_disconnect_is_logged sample_builtins request_message
              connected_world fresh_connection ltac:(by_computation))
    as [why [Hwhy [Hrun _]]].
  exists why. split; [exact Hwhy|]. rewrite Hrun. reflexivity.
Defined.

Lemma sends_keep_their_order_witness :
  websocket (self connected_world) = Some fresh_connection
  /\ conn_closed fresh_connection = None
  /\ (send_message (builtins := sample_builtins) request_message ;;
      send_message (builtins := sample_builtins) (PDict [(lit "type", PStr (lit "ping"))]))%py
       connected_world =
       (Ok tt,
        mk_world
          (set_websocket
             (Some (mk_connection None
                      [dq "{'type': 'get_all_content', 'data': {'limit': 10}}";
                       dq "{'type': 'ping'}"]))
             (self connected_world))
          [lit "📤 发送: " ++ dq "{'type': 'get_all_content', 'data': {'limit': 10}}";
           lit "📤 发送: " ++ dq "{'type': 'ping'}"]).
Proof.
  split; [by_computation | split; [by_computation|]].
  rewrite (proj1 (@sends_keep_their_order sample_builtins request_message
                    (PDict [(lit "type", PStr (lit "ping"))]) connected_world
                    fresh_connection ltac:(by_computation) ltac:(by_computation))
             ltac:(by_computation) ltac:(by_computation)).
  by_computation.
Defined.

Lemma session_writes_one_request_witness :
  conn_closed fresh_connection = None
  /\ encodable (url (self fresh_world)) = true
  /\ under_Exception (StreamRaises closed_by_peer) = true
  /\ fst ((connected <- connect (Ok fresh_connection) ;;
           if connected then
             request_current_content (builtins := sample_builtins) ;;
             listen_messages (builtins := sample_builtins) [garbled_frame; delete_frame]
               (StreamRaises closed_by_peer) ;;
             disconnect
           else ret tt)%py fresh_world) = Ok tt.
Proof.
  split; [by_computation | split; [by_computation | split; [by_computation|]]].
  exact (proj1 (@session_writes_one_request sample_builtins fresh_connection
                  [garbled_frame; delete_frame] (StreamRaises closed_by_peer)
                  fresh_world ltac:(by_computation) ltac:(by_computation))
           ltac:(by_computation)).
Defined.

Lemma disconnect_twice_prints_twice_witness :
  websocket (self connected_world) = Some fresh_connection
  /\ (disconnect ;; disconnect)%py connected_world =
       (Ok tt,
        mk_world (mk_monitor DEFAULT_URL DEFAULT_DEVICE_ID
                    (lit "ws://localhost:3002/ws?deviceId=monitor-python")
                    (Some (mk_connection (Some NORMAL_CLOSURE) [])) false)
          [lit "🔌 WebSocket 连接已断开"; lit "🔌 WebSocket 连接已断开"]).
Proof.
  split; [by_computation|].
  rewrite (@disconnect_twice_prints_twice connected_world fresh_connection
             ltac:(by_computation)).
  by_computation.
Defined.

(* ------------------------------------------------------------------ *)
(** ** The branches of the handler, at their edges *)

Ltac differ := let H := fresh in intro H; vm_compute in H; discriminate H.

Lemma delete_shows_id_witness :
  dict_get [(lit "type", PStr (lit "delete")); (lit "id", PStr (lit "abc123"))] (lit "type") =
    Some (PStr (lit "delete"))
  /\ dict_get [(lit "type", PStr (lit "delete")); (lit "id", PStr LONE_SURROGATE)]
       (lit "type") = Some (PStr (lit "delete"))
  /\ handle_message (builtins := sample_builtins) noon
       (PDict [(lit "type", PStr (lit "delete")); (lit "id", PStr (lit "abc123"))])
       fresh_world =
       (Ok tt, emit [lit "[12:00:00] 🗑️ 内容已删除: abc123"] fresh_world)
  /\ handle_message (builtins := sample_builtins) noon
       (PDict [(lit "type", PStr (lit "delete")); (lit "id", PStr LONE_SURROGATE)])
       fresh_world =
       (Raise (mk_exn UnicodeEncodeError
                 (plain "'utf-8' codec can't encode character '\ud800' in position 21: surrogates not allowed")),
        fresh_world).
Proof.
  split; [by_computation | split; [by_computation | split]].
  - rewrite (proj1 (@delete_shows_id sample_builtins noon
                      [(lit "type", PStr (lit "delete")); (lit "id", PStr (lit "abc123"))]
                      fresh_world ltac:(by_computation))).
    by_computation.
  - rewrite (proj1 (@delete_shows_id sample_builtins noon
                      [(lit "type", PStr (lit "delete")); (lit "id", PStr LONE_SURROGATE)]
                      fresh_world ltac:(by_computation))).
    by_computation.
Defined.

Lemma connection_stats_line_witness :
  dict_get [(lit "type", PStr (lit "connection_stats")); (lit "data", PNone)] (lit "type") =
    Some (PStr (lit "connection_stats"))
  /\ handle_message (builtins := sample_builtins) noon
       (PDict [(lit "type", PStr (lit "connection_stats")); (lit "data", PNone)])
       fresh_world =
       (Raise (mk_exn AttributeError (plain "'NoneType' object has no attribute 'get'")),
        fresh_world).
Proof.
  split; [by_computation|].
  rewrite (proj1 (@connection_stats_line sample_builtins noon
                    [(lit "type", PStr (lit "connection_stats")); (lit "data", PNone)]
                    fresh_world ltac:(by_computation))).
  by_computation.
Defined.

Lemma unrecognized_type_is_reported_witness :
  dict_get [(lit "type", PStr (lit "SYNC"))] (lit "type") = Some (PStr (lit "SYNC"))
  /\ PStr (lit "SYNC") <> PStr (lit "sync")
  /\ handle_message (builtins := sample_builtins) noon
       (PDict [(lit "type", PStr (lit "SYNC"))]) fresh_world =
       (Ok tt, emit [lit "[12:00:00] 📨 收到消息: SYNC"] fresh_world).
Proof.
  split; [by_computation | split; [differ|]].
  rewrite (proj1 (@unrecognized_type_is_reported sample_builtins noon
                    [(lit "type", PStr (lit "SYNC"))] (PStr (lit "SYNC")) fresh_world
                    ltac:(by_computation) ltac:(differ) ltac:(differ) ltac:(differ)
                    ltac:(differ))).
  by_computation.
Defined.

Lemma listing_needs_sized_data_witness :
  dict_get [(lit "type", PStr (lit "all_content")); (lit "data", PNone); (lit "count", PInt 0)]
    (lit "data") = Some PNone
  /\ unsized PNone = true
  /\ handle_message (builtins := sample_builtins) noon
       (PDict [(lit "type", PStr (lit "all_content")); (lit "data", PNone);
               (lit "count", PInt 0)]) fresh_world =
       (Raise (mk_exn TypeError (plain "object of type 'NoneType' has no len()")),
        fresh_world).
Proof.
  split; [by_computation | split; [by_computation|]].
  rewrite (@listing_needs_sized_data sample_builtins noon
             [(lit "type", PStr (lit "all_content")); (lit "data", PNone);
              (lit "count", PInt 0)] PNone fresh_world
             ltac:(by_computation) ltac:(by_computation) ltac:(by_computation)).
  by_computation.
Defined.

Lemma listing_ignores_later_items_witness :
  firstn 3 [PDict []; PDict []; PDict []; PInt 4] = firstn 3 [PDict []; PDict []; PDict []]
  /\ handle_message (builtins := sample_builtins) noon
       (PDict [(lit "type", PStr (lit "all_content"));
               (lit "data", PList [PDict []; PDict []; PDict []; PInt 4]);
               (lit "count", PInt 9)]) fresh_world =
     handle_message (builtins := sample_builtins) noon
       (PDict [(lit "type", PStr (lit "all_content"));
               (lit "data", PList [PDict []; PDict []; PDict []]);
               (lit "count", PInt 9)]) fresh_world.
Proof.
  split; [by_computation|].
  exact (@listing_ignores_later_items sample_builtins noon
           [(lit "type", PStr (lit "all_content"));
            (lit "data", PList [PDict []; PDict []; PDict []; PInt 4]);
            (lit "count", PInt 9)]
           [(lit "type", PStr (lit "all_content"));
            (lit "data", PList [PDict []; PDict []; PDict []]);
            (lit "count", PInt 9)]
           [PDict []; PDict []; PDict []; PInt 4] [PDict []; PDict []; PDict []]
           (PInt 9) fresh_world
           ltac:(by_computation) ltac:(by_computation) ltac:(by_computation)
           ltac:(by_computation) ltac:(by_computation) ltac:(by_computation)
           ltac:(by_computation)).
Defined.

Lemma item_content_must_be_string_witness :
  truthy (PStr (lit "text")) = true
  /\ is_str (PDict []) = false
  /\ handle_message (builtins := sample_builtins) noon
       (PDict [(lit "type", PStr (lit "sync"));
               (lit "data", PDict [(lit "type", PStr (lit "text"));
                                   (lit "content", PDict [])])])
       fresh_world =
       (Raise (mk_exn TypeError (plain "unhashable type: 'slice'")), fresh_world)
  /\ handle_message (builtins := recent_builtins) noon
       (PDict [(lit "type", PStr (lit "sync"));
               (lit "data", PDict [(lit "type", PStr (lit "text"));
                                   (lit "content", PDict [])])])
       fresh_world =
       (Raise (mk_exn KeyError (plain "slice(None, 100, None)")), fresh_world).
Proof.
  split; [by_computation | split; [by_computation | split]].
  - rewrite (proj1 (@item_content_must_be_string sample_builtins noon
                      [(lit "type", PStr (lit "sync"));
                       (lit "data", PDict [(lit "type", PStr (lit "text"));
                                           (lit "content", PDict [])])]
                      [(lit "type", PStr (lit "text")); (lit "content", PDict [])]
                      (PStr (lit "text")) (PDict []) fresh_world
                      ltac:(by_computation) ltac:(by_computation) ltac:(by_computation)
                      ltac:(by_computation) ltac:(by_computation) ltac:(by_computation)
                      ltac:(by_computation) ltac:(by_computation))).
    by_computation.
  - rewrite (proj1 (@item_content_must_be_string recent_builtins noon
                      [(lit "type", PStr (lit "sync"));
                       (lit "data", PDict [(lit "type", PStr (lit "text"));
                                           (lit "content", PDict [])])]
                      [(lit "type", PStr (lit "text")); (lit "content", PDict [])]
                      (PStr (lit "text")) (PDict []) fresh_world
                      ltac:(by_computation) ltac:(by_computation) ltac:(by_computation)
                      ltac:(by_computation) ltac:(by_computation) ltac:(by_computation)
                      ltac:(by_computation) ltac:(by_computation))).
    by_computation.
Defined.

Lemma listing_stops_at_bad_item_witness :
  (length [PDict [(lit "content", PStr (lit "first"))]] < 3)%nat
  /\ is_dict (PInt 7) = false
  /\ handle_message (builtins := sample_builtins) noon
       (PDict [(lit "type", PStr (lit "all_content"));
               (lit "data", PList ([PDict [(lit "content", PStr (lit "first"))]]
                                   ++ PInt 7 :: [PDict [(lit "content", PStr (lit "third"))]]))])
       fresh_world =
       (Raise (mk_exn AttributeError (plain "'int' object has no attribute 'get'")),
        emit [lit "[12:00:00] 📋 当前内容总数: 3 条";
              lit "最新的3条内容:";
              lit "  1. [] None: first..."] fresh_world).
Proof.
  split; [vm_compute; lia | split; [by_computation|]].
  rewrite (proj1 (@listing_stops_at_bad_item sample_builtins noon
                    [(lit "type", PStr (lit "all_content"));
                     (lit "data", PList ([PDict [(lit "content", PStr (lit "first"))]]
                                         ++ PInt 7
                                            :: [PDict [(lit "content", PStr (lit "third"))]]))]
                    [PDict [(lit "content", PStr (lit "first"))]] (PInt 7)
                    [PDict [(lit "content", PStr (lit "third"))]] fresh_world
                    ltac:(by_computation) ltac:(by_computation) ltac:(vm_compute; lia)
                    ltac:(by_computation) ltac:(by_computation))
             ltac:(by_computation)).
  by_computation.
Defined.
